(** * The blog editor: content codec, draft store and reconciliation core

    A shallow embedding of [src/scripts/utils.ts], [src/scripts/types.ts]
    and [src/scripts/editor.ts].  Pure helpers become functions on
    [string]; the handlers of the editor become computations in a small
    state-and-exception monad over the page's global state.  Everything the
    page obtains from outside the repository (the YAML library, the clock,
    the editing widget, the browser storage quota, the user's answers and
    the remote API) is gathered in one record, [Platform], over which every
    definition and theorem is parametric. *)

From Stdlib Require Import Ascii String Bool Arith Lia.
From stdpp Require Import base option list strings pretty gmap.

Local Open Scope stdpp_scope.

(** Let [simpl] compute string concatenation on literal prefixes. *)
#[local] Arguments String.append !s1 s2 : simpl nomatch.

(** ** JavaScript string primitives

    A JavaScript string is modelled as a [string] of code units below 256.
    The fixed messages of the editor that lie outside that range are
    written as their UTF-8 bytes; they are only concatenated and shown. *)

Module Js.

(** [s.startsWith(p)] *)
Fixpoint startsWith (p s : string) : bool :=
  match p with
  | EmptyString => true
  | String a p' =>
      match s with
      | EmptyString => false
      | String b s' => Ascii.eqb a b && startsWith p' s'
      end
  end.

(** [s.includes(p)] *)
Fixpoint includes (p s : string) : bool :=
  startsWith p s ||
  match s with
  | EmptyString => false
  | String _ s' => includes p s'
  end.

(** [s.split(sep)] for a non-empty separator.  [splitFrom sep k s] scans [s]
    after a match has still [k] code units of the separator to step over;
    the head of the result is the piece being accumulated. *)
Fixpoint splitFrom (sep : string) (k : nat) (s : string) : list string :=
  match s with
  | EmptyString => [EmptyString]
  | String c s' =>
      match k with
      | S k' => splitFrom sep k' s'
      | O =>
          if startsWith sep s
          then EmptyString :: splitFrom sep (String.length sep - 1) s'
          else match splitFrom sep 0 s' with
               | piece :: rest => String c piece :: rest
               | [] => [String c EmptyString]
               end
      end
  end.

Definition split (sep s : string) : list string := splitFrom sep 0 s.

(** [parts.join(sep)] *)
Fixpoint join (sep : string) (parts : list string) : string :=
  match parts with
  | [] => EmptyString
  | [p] => p
  | p :: rest => p +:+ sep +:+ join sep rest
  end.

(** White space and line terminators among the code units below 256:
    TAB, LF, VT, FF, CR, SPACE and NBSP. *)
Definition isSpace (c : ascii) : bool :=
  let n := nat_of_ascii c in
  ((9 <=? n) && (n <=? 13)) || (n =? 32) || (n =? 160).

Fixpoint trimStart (s : string) : string :=
  match s with
  | EmptyString => EmptyString
  | String c s' => if isSpace c then trimStart s' else s
  end.

Fixpoint trimEnd (s : string) : string :=
  match s with
  | EmptyString => EmptyString
  | String c s' =>
      match trimEnd s' with
      | EmptyString => if isSpace c then EmptyString else String c EmptyString
      | t => String c t
      end
  end.

(** [s.trim()] *)
Definition trim (s : string) : string := trimEnd (trimStart s).

(** [s.replace(/'/g, empty)]: every single quote is removed. *)
Fixpoint removeQuotes (s : string) : string :=
  match s with
  | EmptyString => EmptyString
  | String c s' =>
      if Ascii.eqb c "'"%char then removeQuotes s' else String c (removeQuotes s')
  end.

(** [s.endsWith(suffix)] *)
Fixpoint endsWith (suffix s : string) : bool :=
  String.eqb s suffix ||
  match s with
  | EmptyString => false
  | String _ s' => endsWith suffix s'
  end.

(** [s.split("/").pop()] *)
Definition basename (s : string) : string :=
  List.last (split "/" s) EmptyString.

(** Truthiness of a string: [Boolean(s)], [!s]. *)
Definition truthy (s : string) : bool :=
  match s with EmptyString => false | _ => true end.

(** [x || d] on an optional string property. *)
Definition orElse (x : option string) (d : string) : string :=
  match x with
  | Some s => if truthy s then s else d
  | None => d
  end.

(** [s.toLowerCase()] on code units below 256: the letters A-Z and the
    accented capitals U+00C0-U+00DE (the sign U+00D7 excepted) move up by
    32. *)
Definition lowerUnit (c : ascii) : ascii :=
  let n := nat_of_ascii c in
  if ((65 <=? n) && (n <=? 90))
     || ((192 <=? n) && (n <=? 222) && negb (n =? 215))
  then ascii_of_nat (n + 32) else c.

Fixpoint toLowerCase (s : string) : string :=
  match s with
  | EmptyString => EmptyString
  | String c s' => String (lowerUnit c) (toLowerCase s')
  end.

(** [s.replace(/\s+/g, "-")]: every maximal run of white space becomes one
    hyphen; [inRun] tells that the run's hyphen is already written. *)
Fixpoint dashRuns (inRun : bool) (s : string) : string :=
  match s with
  | EmptyString => EmptyString
  | String c s' =>
      if isSpace c
      then if inRun then dashRuns true s' else String "-"%char (dashRuns true s')
      else String c (dashRuns false s')
  end.

(** The class [[a-z0-9-.]]. *)
Definition isFilenameUnit (c : ascii) : bool :=
  let n := nat_of_ascii c in
  ((97 <=? n) && (n <=? 122)) || ((48 <=? n) && (n <=? 57))
  || (n =? 45) || (n =? 46).

(** [s.replace(/[^a-z0-9-.]/g, empty)] *)
Fixpoint keepFilenameUnits (s : string) : string :=
  match s with
  | EmptyString => EmptyString
  | String c s' =>
      if isFilenameUnit c then String c (keepFilenameUnits s')
      else keepFilenameUnits s'
  end.

(** [s.substring(n)] *)
Fixpoint dropUnits (n : nat) (s : string) : string :=
  match n, s with
  | S n', String _ s' => dropUnits n' s'
  | _, _ => s
  end.

(** [s.replace(p, empty)] for a string pattern [p]: the first occurrence of
    [p] is removed. *)
Fixpoint removeFirst (p s : string) : string :=
  if startsWith p s then dropUnits (String.length p) s
  else match s with
       | EmptyString => EmptyString
       | String c s' => String c (removeFirst p s')
       end.

End Js.

(** ** Data model ([types.ts]) *)

(** [tags: string | string[]], optional as every field of
    [Partial<Metadata>].  The other fields are strings, as [types.ts]
    declares them. *)
Inductive Tags :=
  | TagsAbsent
  | TagsString (s : string)
  | TagsArray (l : list string).

Record Metadata := {
  title : option string;
  published : option string;
  updated : option string;
  description : option string;
  tags : Tags;
  category : option string;
}.

(** The object literal [{}]. *)
Definition emptyMetadata : Metadata :=
  {| title := None; published := None; updated := None;
     description := None; tags := TagsAbsent; category := None |}.

Record ParsedContent := { metadata : Metadata; body : string }.

Record Draft := {
  draft_metadata : Metadata;
  draft_body : string;
  savedAt : string;
}.

Record CurrentFile := {
  path : option string;
  sha : option string;
  isNew : bool;
}.

(** A value held by [localStorage]: the JSON text of a draft, or text that
    [JSON.parse] rejects. *)
Inductive Stored :=
  | StoredDraft (d : Draft)
  | StoredGarbage (s : string).

(** ** The remote content API as seen through [fetch] *)

Inductive Method := GET | PUT | DELETE.

(** The JSON body of a write request: [{message, content, sha}]. *)
Record Payload := {
  message : string;
  payload_content : option string;
  payload_sha : option string;
}.

Record Request := {
  req_method : Method;
  req_url : string;
  req_authorization : string;
  req_body : option Payload;
}.

Record FileRef := { ref_name : string; ref_path : string; ref_sha : string }.

(** The shapes of response bodies the editor reads. *)
Inductive Json :=
  | JsonFile (content_base64 : string) (file_sha : string)
  | JsonCommit (content_sha : string)
  | JsonList (files : list FileRef)
  | JsonError (msg : option string)
  | JsonSuccess.

Record Response := {
  resp_ok : bool;
  resp_status : nat;
  resp_json : option Json;
}.

Inductive FetchResult :=
  | NetworkError (msg : string)
  | Responded (r : Response).

(** The result of [jsyaml.load]: an exception, or a value that is either
    falsy or a mapping. *)
Inductive YamlLoad :=
  | YamlThrows (msg : string)
  | YamlValue (v : option Metadata).

(** ** External collaborators

    None of these is code of the repository; the editor only calls them.
    The clock fields are the values [Date] gives while one handler runs. *)
Class Platform := {
  (** [jsyaml.dump(m, {lineWidth: -1, noQuotes: true, flowLevel: 1})] *)
  yaml_dump : Metadata → string;
  (** [jsyaml.load(text)] *)
  yaml_load : string → YamlLoad;
  (** [new Date(x).toISOString().split("T")[0]]; [None] when
      [toISOString] throws a [RangeError]. *)
  isoDay : string → option string;
  (** [new Date().toISOString().split("T")[0]] *)
  today : string;
  (** [new Date().toISOString()] *)
  nowISO : string;
  (** [new Date().toLocaleTimeString()] *)
  nowLocaleTime : string;
  (** [new Date(x).toLocaleString()] *)
  toLocaleString : string → string;
  (** whether [vditor.setValue] calls the [input] option of the widget *)
  setValue_fires_input : bool;
  (** whether [localStorage.setItem(k, v)] throws for lack of room *)
  quotaExceeded : gmap string Stored → string → Stored → bool;
  (** the user's answer to [confirm(message)] *)
  confirm_answer : string → bool;
  (** [TextEncoder] followed by [btoa], and its inverse *)
  base64_encode : string → string;
  base64_decode : string → string;
  (** the server behind [fetch] and its state *)
  Remote : Type;
  fetch : Remote → Request → Remote * FetchResult;
}.

(** ** Content codec ([utils.ts]) *)

Definition LF : string := String "010"%char EmptyString.
Definition delimiter : string := "---".

Section Codec.
Context `{Platform}.

Definition parseContent (content : string) : ParsedContent :=
  let parts := Js.split delimiter content in
  if length parts <? 3 then {| metadata := emptyMetadata; body := content |}
  else
    match yaml_load (nth 1 parts EmptyString) with
    | YamlValue v =>
        {| metadata := default emptyMetadata v;
           body := Js.trim (Js.join delimiter (drop 2 parts)) |}
    | YamlThrows _ => {| metadata := emptyMetadata; body := content |}
    end.

(** The normalisation of [cleanMeta.tags] at the head of
    [stringifyMetadata]. *)
Definition normalizeTags (t : Tags) : list string :=
  match t with
  | TagsString s => filter (λ tag, Is_true (Js.truthy tag)) (Js.trim <$> Js.split "," s)
  | TagsArray l => l
  | TagsAbsent => []
  end.

Definition cleanMeta (m : Metadata) : Metadata :=
  {| title := title m; published := published m; updated := updated m;
     description := description m; tags := TagsArray (normalizeTags (tags m));
     category := category m |}.

Definition isDateOrTagLine (line : string) : bool :=
  Js.startsWith "published:" line
  || Js.startsWith "updated:" line
  || Js.startsWith "tags:" line.

(** The callback mapped over the lines of the YAML text. *)
Definition processLine (line : string) : string :=
  if isDateOrTagLine line then Js.removeQuotes line else line.

Definition processedLines (yamlString : string) : list string :=
  processLine <$> Js.split LF yamlString.

(** [processedLines.filter((line) => line)] *)
Definition keptLines (m : Metadata) : list string :=
  let yamlString := yaml_dump (cleanMeta m) in
  filter (λ line, Is_true (Js.truthy line)) (processedLines yamlString).

Definition stringifyMetadata (m : Metadata) : string :=
  Js.join LF (keptLines m).

Definition createFullMarkdown (m : Metadata) (b : string) : string :=
  "---" +:+ LF +:+ stringifyMetadata m +:+ LF +:+ "---" +:+ LF +:+ LF +:+ b.

End Codec.

(** Whether no [published:], [updated:] or [tags:] line of a YAML text
    holds a single quote: the lines the replacement in [stringifyMetadata]
    leaves as they are. *)
Definition keyLinesUnquoted (yamlString : string) : bool :=
  forallb (λ line, negb (isDateOrTagLine line) || negb (Js.includes "'" line))
    (Js.split LF yamlString).

(** A YAML text with its empty lines dropped, as the final [filter] and
    [join] of [stringifyMetadata] leave it. *)
Definition nonEmptyLines (yamlString : string) : string :=
  Js.join LF (filter (λ line, Is_true (Js.truthy line)) (Js.split LF yamlString)).

(** ** Draft keys ([utils.ts]) *)

Record EditorState := {
  user : string;
  repo : string;
  pat : string;
  currentFile : CurrentFile;
}.

(** [!path] holds for [null] and for the empty string. *)
Definition getDraftKey (st : EditorState) (p : option string) : option string :=
  match p with
  | Some s =>
      if Js.truthy s
      then Some ("draft_" +:+ user st +:+ "_" +:+ repo st +:+ "_" +:+ s)
      else None
  | None => None
  end.

(** ** File names ([utils.ts]) *)

Definition normalizeFilename (name : string) : string :=
  let filename :=
    Js.keepFilenameUnits (Js.dashRuns false (Js.toLowerCase (Js.trim name))) in
  if Js.endsWith ".md" filename then filename else filename +:+ ".md".

(** ** The page ([editor.ts])

    Of the DOM only what the handlers read back or what the properties
    below speak about is kept: the metadata inputs, the status line, the file name
    heading, the visibility of the editor and login panels, the login
    inputs and the rendered file list.  Spinners, disabled buttons and the
    highlight of the selected list entry are left out, and so are the
    [setTimeout] callbacks that blank the status line later. *)

Record MetaInputs := {
  meta_title : string;
  meta_published : string;
  meta_updated : string;
  meta_description : string;
  meta_tags : string;
  meta_category : string;
}.

Record StatusLine := { textContent : string; className : string }.

Record Ui := {
  meta : MetaInputs;
  saveStatus : StatusLine;
  currentFileName : string;
  editorSection_hidden : bool;
  placeholderSection_hidden : bool;
  mainView_hidden : bool;
  loginView_hidden : bool;
  loginInputs : string * string * string;
  fileList : list FileRef;
}.

(** The [dataset] of the clicked list entry; [handleFileClick] receives
    [None] when the click was not on an entry. *)
Record Target := { dataset_path : option string; dataset_sha : option string }.

Definition setPath (p : option string) (f : CurrentFile) : CurrentFile :=
  {| path := p; sha := sha f; isNew := isNew f |}.
Definition setSha (s : option string) (f : CurrentFile) : CurrentFile :=
  {| path := path f; sha := s; isNew := isNew f |}.
Definition setIsNew (b : bool) (f : CurrentFile) : CurrentFile :=
  {| path := path f; sha := sha f; isNew := b |}.

Definition setCurrentFile (f : CurrentFile) (st : EditorState) : EditorState :=
  {| user := user st; repo := repo st; pat := pat st; currentFile := f |}.
Definition clearCredentials (st : EditorState) : EditorState :=
  {| user := EmptyString; repo := EmptyString; pat := EmptyString;
     currentFile := currentFile st |}.

Definition setMeta (m : MetaInputs) (u : Ui) : Ui :=
  {| meta := m; saveStatus := saveStatus u; currentFileName := currentFileName u;
     editorSection_hidden := editorSection_hidden u;
     placeholderSection_hidden := placeholderSection_hidden u;
     mainView_hidden := mainView_hidden u; loginView_hidden := loginView_hidden u;
     loginInputs := loginInputs u; fileList := fileList u |}.
Definition setSaveStatus (s : StatusLine) (u : Ui) : Ui :=
  {| meta := meta u; saveStatus := s; currentFileName := currentFileName u;
     editorSection_hidden := editorSection_hidden u;
     placeholderSection_hidden := placeholderSection_hidden u;
     mainView_hidden := mainView_hidden u; loginView_hidden := loginView_hidden u;
     loginInputs := loginInputs u; fileList := fileList u |}.
Definition setCurrentFileName (s : string) (u : Ui) : Ui :=
  {| meta := meta u; saveStatus := saveStatus u; currentFileName := s;
     editorSection_hidden := editorSection_hidden u;
     placeholderSection_hidden := placeholderSection_hidden u;
     mainView_hidden := mainView_hidden u; loginView_hidden := loginView_hidden u;
     loginInputs := loginInputs u; fileList := fileList u |}.
(** [editorSection] and [placeholderSection] are always toggled together. *)
Definition showEditor (shown : bool) (u : Ui) : Ui :=
  {| meta := meta u; saveStatus := saveStatus u; currentFileName := currentFileName u;
     editorSection_hidden := negb shown;
     placeholderSection_hidden := shown;
     mainView_hidden := mainView_hidden u; loginView_hidden := loginView_hidden u;
     loginInputs := loginInputs u; fileList := fileList u |}.
Definition showLoginView (u : Ui) : Ui :=
  {| meta := meta u; saveStatus := saveStatus u; currentFileName := currentFileName u;
     editorSection_hidden := editorSection_hidden u;
     placeholderSection_hidden := placeholderSection_hidden u;
     mainView_hidden := true; loginView_hidden := false;
     loginInputs := (EmptyString, EmptyString, EmptyString); fileList := fileList u |}.
Definition setFileList (l : list FileRef) (u : Ui) : Ui :=
  {| meta := meta u; saveStatus := saveStatus u; currentFileName := currentFileName u;
     editorSection_hidden := editorSection_hidden u;
     placeholderSection_hidden := placeholderSection_hidden u;
     mainView_hidden := mainView_hidden u; loginView_hidden := loginView_hidden u;
     loginInputs := loginInputs u; fileList := l |}.

Definition setTitle (s : string) (m : MetaInputs) : MetaInputs :=
  {| meta_title := s; meta_published := meta_published m; meta_updated := meta_updated m;
     meta_description := meta_description m; meta_tags := meta_tags m;
     meta_category := meta_category m |}.
Definition setPublished (s : string) (m : MetaInputs) : MetaInputs :=
  {| meta_title := meta_title m; meta_published := s; meta_updated := meta_updated m;
     meta_description := meta_description m; meta_tags := meta_tags m;
     meta_category := meta_category m |}.
Definition setUpdated (s : string) (m : MetaInputs) : MetaInputs :=
  {| meta_title := meta_title m; meta_published := meta_published m; meta_updated := s;
     meta_description := meta_description m; meta_tags := meta_tags m;
     meta_category := meta_category m |}.
Definition setDescription (s : string) (m : MetaInputs) : MetaInputs :=
  {| meta_title := meta_title m; meta_published := meta_published m;
     meta_updated := meta_updated m; meta_description := s; meta_tags := meta_tags m;
     meta_category := meta_category m |}.
Definition setTags (s : string) (m : MetaInputs) : MetaInputs :=
  {| meta_title := meta_title m; meta_published := meta_published m;
     meta_updated := meta_updated m; meta_description := meta_description m;
     meta_tags := s; meta_category := meta_category m |}.
Definition setCategory (s : string) (m : MetaInputs) : MetaInputs :=
  {| meta_title := meta_title m; meta_published := meta_published m;
     meta_updated := meta_updated m; meta_description := meta_description m;
     meta_tags := meta_tags m; meta_category := s |}.

(** How a call ends: with a value, or with an exception, identified with
    the [message] of the thrown [Error]. *)
Inductive Outcome (A : Type) :=
  | Returned (a : A)
  | Thrown (msg : string).
Arguments Returned {A} a.
Arguments Thrown {A} msg.

Section Editor.
Context `{Platform}.

(** The module-level variables of [editor.ts] ([state], [vditorInstance],
    [draftInterval], [isDirty]) and the [ui] elements, together with what
    lies behind the browser interfaces the handlers use: the contents of
    [localStorage], the messages shown by [confirm], the server and the
    requests sent to it. *)
Record World := {
  state : EditorState;
  (** [None] until the widget is created, then the text it holds *)
  vditorInstance : option string;
  draftInterval : option nat;
  isDirty : bool;
  ui : Ui;
  localStorage : gmap string Stored;
  confirms : list string;
  remote : Remote;
  requests : list Request;
}.

Definition withState (f : EditorState → EditorState) (w : World) : World :=
  {| state := f (state w); vditorInstance := vditorInstance w;
     draftInterval := draftInterval w; isDirty := isDirty w; ui := ui w;
     localStorage := localStorage w; confirms := confirms w;
     remote := remote w; requests := requests w |}.
Definition withVditor (v : option string) (w : World) : World :=
  {| state := state w; vditorInstance := v;
     draftInterval := draftInterval w; isDirty := isDirty w; ui := ui w;
     localStorage := localStorage w; confirms := confirms w;
     remote := remote w; requests := requests w |}.
Definition withDirty (b : bool) (w : World) : World :=
  {| state := state w; vditorInstance := vditorInstance w;
     draftInterval := draftInterval w; isDirty := b; ui := ui w;
     localStorage := localStorage w; confirms := confirms w;
     remote := remote w; requests := requests w |}.
Definition withUi (f : Ui → Ui) (w : World) : World :=
  {| state := state w; vditorInstance := vditorInstance w;
     draftInterval := draftInterval w; isDirty := isDirty w; ui := f (ui w);
     localStorage := localStorage w; confirms := confirms w;
     remote := remote w; requests := requests w |}.
Definition withStorage (f : gmap string Stored → gmap string Stored) (w : World) : World :=
  {| state := state w; vditorInstance := vditorInstance w;
     draftInterval := draftInterval w; isDirty := isDirty w; ui := ui w;
     localStorage := f (localStorage w); confirms := confirms w;
     remote := remote w; requests := requests w |}.
Definition withInterval (t : option nat) (w : World) : World :=
  {| state := state w; vditorInstance := vditorInstance w;
     draftInterval := t; isDirty := isDirty w; ui := ui w;
     localStorage := localStorage w; confirms := confirms w;
     remote := remote w; requests := requests w |}.
Definition withConfirm (msg : string) (w : World) : World :=
  {| state := state w; vditorInstance := vditorInstance w;
     draftInterval := draftInterval w; isDirty := isDirty w; ui := ui w;
     localStorage := localStorage w; confirms := confirms w ++ [msg];
     remote := remote w; requests := requests w |}.
Definition withRequest (req : Request) (r : Remote) (w : World) : World :=
  {| state := state w; vditorInstance := vditorInstance w;
     draftInterval := draftInterval w; isDirty := isDirty w; ui := ui w;
     localStorage := localStorage w; confirms := confirms w;
     remote := r; requests := requests w ++ [req] |}.

(** *** Handlers as computations: state plus exceptions *)
Definition Action (A : Type) : Type := World → Outcome A * World.

Definition ret {A} (a : A) : Action A := λ w, (Returned a, w).
Definition throw {A} (msg : string) : Action A := λ w, (Thrown msg, w).
Definition bind {A B} (m : Action A) (k : A → Action B) : Action B :=
  λ w, match m w with
       | (Returned a, w') => k a w'
       | (Thrown e, w') => (Thrown e, w')
       end.
(** [try { body } catch (e) { handler(e.message) }] *)
Definition tryCatch {A} (body : Action A) (handler : string → Action A) : Action A :=
  λ w, match body w with
       | (Returned a, w') => (Returned a, w')
       | (Thrown e, w') => handler e w'
       end.
Definition get : Action World := λ w, (Returned w, w).
Definition modify (f : World → World) : Action unit := λ w, (Returned tt, f w).
Definition when (b : bool) (m : Action unit) : Action unit :=
  if b then m else ret tt.

#[global] Instance action_ret : MRet Action := @ret.
#[global] Instance action_bind : MBind Action := λ A B k m, bind m k.

(** *** Draft store ([utils.ts]) *)

Definition saveDraftToStorage (st : EditorState) (p : string)
    (m : Metadata) (b : string) : Action unit :=
  match getDraftKey st (Some p) with
  | None => ret tt
  | Some key =>
      let draft := {| draft_metadata := m; draft_body := b; savedAt := nowISO |} in
      w ← get;
      if quotaExceeded (localStorage w) key (StoredDraft draft)
      then throw "无法保存草稿，可能是存储空间已满。"
      else modify (withStorage (insert key (StoredDraft draft)))
  end.

Definition loadDraftFromStorage (st : EditorState) (p : string) : Action (option Draft) :=
  match getDraftKey st (Some p) with
  | None => ret None
  | Some key =>
      w ← get;
      match localStorage w !! key with
      | Some (StoredDraft d) => ret (Some d)
      | Some (StoredGarbage s) =>
          if Js.truthy s
          then modify (withStorage (delete key));;
               throw "加载草稿失败，草稿数据可能已损坏。"
          else ret None
      | None => ret None
      end
  end.

Definition clearDraftFromStorage (st : EditorState) (p : string) : Action unit :=
  match getDraftKey st (Some p) with
  | Some key => modify (withStorage (delete key))
  | None => ret tt
  end.

(** *** Dirty tracking and status line *)

(** Truthiness of a [string | null] property such as the path or the
    version token. *)
Definition isSet (p : option string) : bool :=
  match p with Some s => Js.truthy s | None => false end.

Definition markAsDirty : Action unit :=
  w ← get;
  when (negb (isDirty w) && isSet (path (currentFile (state w))))
    (modify (withDirty true);;
     modify (withUi (setSaveStatus
       {| textContent := "未保存的更改 (本地草稿将在 5 秒后更新)";
          className := "mt-2 text-right text-orange-500" |}))).

Definition markAsClean : Action unit :=
  modify (withDirty false);;
  modify (withUi (setSaveStatus
    {| textContent := EmptyString; className := "mt-2 text-right text-sm" |})).

Definition showSaveStatus (msg : string) (isError : bool) : Action unit :=
  modify (withUi (setSaveStatus
    {| textContent := msg;
       className := if isError then "mt-2 text-right text-red-500"
                    else "mt-2 text-right text-green-500" |})).

Definition getEditorMetadata (w : World) : Metadata :=
  let m := meta (ui w) in
  {| title := Some (meta_title m);
     published := Some (meta_published m);
     updated := Some (meta_updated m);
     description := Some (meta_description m);
     tags := TagsString (meta_tags m);
     category := Some (meta_category m) |}.

(** The periodic flush, also run on [beforeunload] and before a file
    switch. *)
Definition saveDraft : Action unit :=
  w ← get;
  match path (currentFile (state w)), vditorInstance w with
  | Some p, Some value =>
      if Js.truthy p && isDirty w then
        let m := getEditorMetadata w in
        tryCatch
          (saveDraftToStorage (state w) p m value;;
           markAsClean;;
           modify (withUi (setSaveStatus
             {| textContent := "本地草稿已保存于 " +:+ nowLocaleTime;
                className := "mt-2 text-right text-gray-500 text-sm" |})))
          (λ e, showSaveStatus e true)
      else ret tt
  | _, _ => ret tt
  end.

Definition clearDraft (p : string) : Action unit :=
  w ← get; clearDraftFromStorage (state w) p.

(** [confirm(msg)]: the message is shown and the user's answer returned. *)
Definition confirm (msg : string) : Action bool :=
  modify (withConfirm msg);; ret (confirm_answer msg).

(** *** Editor population *)

Definition setMetaInput (f : MetaInputs → MetaInputs) : Action unit :=
  modify (withUi (λ u, setMeta (f (meta u)) u)).

(** [x ? new Date(x).toISOString().split("T")[0] : empty] *)
Definition dateInputValue (x : option string) : Action string :=
  match x with
  | Some s =>
      if Js.truthy s then
        match isoDay s with
        | Some d => ret d
        | None => throw "Invalid time value"
        end
      else ret EmptyString
  | None => ret EmptyString
  end.

Definition tagsInputValue (t : Tags) : string :=
  match t with
  | TagsArray l => Js.join ", " l
  | TagsString s => s
  | TagsAbsent => EmptyString
  end.

(** [vditorInstance.setValue(body)], with the widget's [input] option bound
    to [markAsDirty]. *)
Definition vditor_setValue (b : string) : Action unit :=
  modify (withVditor (Some b));;
  when setValue_fires_input markAsDirty.

Definition populateEditor (m : Metadata) (b : string) : Action unit :=
  setMetaInput (setTitle (Js.orElse (title m) EmptyString));;
  p ← dateInputValue (published m);
  setMetaInput (setPublished p);;
  u ← dateInputValue (updated m);
  setMetaInput (setUpdated u);;
  setMetaInput (setDescription (Js.orElse (description m) EmptyString));;
  setMetaInput (setTags (tagsInputValue (tags m)));;
  setMetaInput (setCategory (Js.orElse (category m) EmptyString));;
  w ← get;
  when (bool_decide (is_Some (vditorInstance w))) (vditor_setValue b).

Definition setTodaysDate : Action unit :=
  setMetaInput (setPublished today);;
  setMetaInput (setUpdated today).

(** The values [populateEditor] assigns to the six inputs when no date is
    rejected. *)
Definition dateShown (x : option string) : option string :=
  match x with
  | Some s => if Js.truthy s then isoDay s else Some EmptyString
  | None => Some EmptyString
  end.

Definition inputsFor (m : Metadata) : option MetaInputs :=
  p ← dateShown (published m);
  u ← dateShown (updated m);
  Some {| meta_title := Js.orElse (title m) EmptyString;
          meta_published := p;
          meta_updated := u;
          meta_description := Js.orElse (description m) EmptyString;
          meta_tags := tagsInputValue (tags m);
          meta_category := Js.orElse (category m) EmptyString |}.

(** The inputs after a remote file has been shown: [handleFileClick] puts
    today's date into both date inputs when the file has no [published]. *)
Definition remoteInputs (m : Metadata) (shown : MetaInputs) : MetaInputs :=
  if Js.truthy (Js.orElse (published m) EmptyString) then shown
  else setUpdated today (setPublished today shown).

(** *** Divergence check on file open *)

Definition draftPrompt (d : Draft) : string :=
  "发现该文件于 " +:+ toLocaleString (savedAt d)
  +:+ " 保存的草稿。内容与远程版本不同，要加载草稿吗？".

(** The comparison made by the divergence check:
    [originalFull.trim() === draftFull.trim()]. *)
Definition sameText (originalContent : ParsedContent) (d : Draft) : bool :=
  String.eqb
    (Js.trim (createFullMarkdown (metadata originalContent) (body originalContent)))
    (Js.trim (createFullMarkdown (draft_metadata d) (draft_body d))).

Definition loadDraft (p : string) (originalContent : ParsedContent) : Action unit :=
  tryCatch
    (w ← get;
     draft ← loadDraftFromStorage (state w) p;
     match draft with
     | Some d =>
         let originalFull :=
           createFullMarkdown (metadata originalContent) (body originalContent) in
         let draftFull := createFullMarkdown (draft_metadata d) (draft_body d) in
         if String.eqb (Js.trim originalFull) (Js.trim draftFull)
         then clearDraft p
         else
           answer ← confirm (draftPrompt d);
           if (answer : bool)
           then populateEditor (draft_metadata d) (draft_body d);;
                showSaveStatus "已从本地加载草稿。" false
           else clearDraft p
     | None => ret tt
     end)
    (λ e, showSaveStatus e true).

Definition resetEditorState : Action unit :=
  modify (withUi (showEditor false));;
  modify (withState (setCurrentFile {| path := None; sha := None; isNew := false |})).

(** *** Remote API ([utils.ts])

    An [async] function is split at its [await]s.  The part before the
    [await] runs as one [Action] and leaves a [FetchResult] in flight; the
    part after it is a second [Action] that runs when the result is
    delivered, on whatever the global state is by then. *)

Definition apiUrl (st : EditorState) (endpoint : string) : string :=
  "https://api.github.com/repos/" +:+ user st +:+ "/" +:+ repo st +:+ "/" +:+ endpoint.

(** [githubApiRequest] up to [await fetch(url, ...)]. *)
Definition githubApiRequest (st : EditorState) (endpoint : string)
    (method : Method) (payload : option Payload) : Action FetchResult :=
  let req := {| req_method := method; req_url := apiUrl st endpoint;
                req_authorization := "token " +:+ pat st; req_body := payload |} in
  w ← get;
  let '(r, res) := fetch (remote w) req in
  modify (withRequest req r);;
  ret res.

(** What the promise returned by [githubApiRequest] settles to. *)
Definition githubApiResponse (res : FetchResult) : Action Json :=
  match res with
  | NetworkError msg => throw msg
  | Responded r =>
      if negb (resp_ok r) then
        match resp_json r with
        | None => throw "Unexpected end of JSON input"
        | Some errorData =>
            let generic := "HTTP error! status: " +:+ pretty (resp_status r) in
            match errorData with
            | JsonError (Some m) => throw (if Js.truthy m then m else generic)
            | _ => throw generic
            end
        end
      else if resp_status r =? 204 then ret JsonSuccess
      else match resp_json r with
           | Some j => ret j
           | None => throw "Unexpected end of JSON input"
           end
  end.

Definition getFiles (st : EditorState) : Action FetchResult :=
  githubApiRequest st "contents/src/content/posts" GET None.

Definition getFileContent (st : EditorState) (p : string) : Action FetchResult :=
  githubApiRequest st ("contents/" +:+ p) GET None.

(** [{content: decodeContent(data.content), sha: data.sha}] *)
Definition fileContentOf (data : Json) : Action (string * string) :=
  match data with
  | JsonFile c s => ret (base64_decode c, s)
  | _ => throw "Failed to execute 'atob' on 'Window'"
  end.

Definition createFile (st : EditorState) (p content : string) : Action FetchResult :=
  githubApiRequest st ("contents/" +:+ p) PUT
    (Some {| message := "docs: create " +:+ Js.basename p;
             payload_content := Some (base64_encode content);
             payload_sha := None |}).

Definition updateFile (st : EditorState) (p content s : string) : Action FetchResult :=
  githubApiRequest st ("contents/" +:+ p) PUT
    (Some {| message := "docs: update " +:+ Js.basename p;
             payload_content := Some (base64_encode content);
             payload_sha := Some s |}).

Definition deleteFile (st : EditorState) (p s : string) : Action FetchResult :=
  githubApiRequest st ("contents/" +:+ p) DELETE
    (Some {| message := "docs: delete " +:+ Js.basename p;
             payload_content := None;
             payload_sha := Some s |}).

(** *** File list *)

Definition renderFileList (files : Json) : Action unit :=
  match files with
  | JsonList l =>
      modify (withUi (setFileList
        (filter (λ f, Is_true (Js.endsWith ".md" (ref_name f))) l)))
  | _ => throw "files.filter is not a function"
  end.

(** [refreshFileList] after [await getFiles(state)]. *)
Definition refreshFileList_resume (res : FetchResult) : Action unit :=
  tryCatch (files ← githubApiResponse res; renderFileList files)
           (λ _, showSaveStatus "无法刷新文件列表。" true).

(** *** Suspended handlers *)

Inductive Suspended :=
  | AwaitGetFileContent (res : FetchResult)
  | AwaitCreateFile (res : FetchResult)
  | AwaitRefreshAfterCreate (result : Json) (res : FetchResult)
  | AwaitUpdateFile (res : FetchResult)
  | AwaitDeleteFile (p : string) (res : FetchResult)
  | AwaitRefreshAfterDelete (res : FetchResult).

(** *** Opening a file *)

Definition handleFileClick_start (target : option Target) : Action (option Suspended) :=
  match target with
  | None => ret None
  | Some t =>
      saveDraft;;
      let p := match dataset_path t with
               | Some s => if Js.truthy s then Some s else None
               | None => None
               end in
      modify (withState (λ st, setCurrentFile (setPath p (currentFile st)) st));;
      modify (withUi (showEditor true));;
      modify (withUi (setCurrentFileName
        (match p with Some s => Js.basename s | None => EmptyString end)));;
      match p with
      | None => ret None
      | Some s =>
          w ← get;
          res ← getFileContent (state w) s;
          ret (Some (AwaitGetFileContent res))
      end
  end.

Definition handleFileClick_resume (res : FetchResult) : Action unit :=
  tryCatch
    (data ← githubApiResponse res;
     '(content, s) ← fileContentOf data;
     modify (withState (λ st, setCurrentFile (setSha (Some s) (currentFile st)) st));;
     modify (withState (λ st, setCurrentFile (setIsNew false (currentFile st)) st));;
     let originalContent := parseContent content in
     populateEditor (metadata originalContent) (body originalContent);;
     when (negb (Js.truthy (Js.orElse (published (metadata originalContent)) EmptyString)))
       setTodaysDate;;
     markAsClean;;
     w ← get;
     match path (currentFile (state w)) with
     | Some p => loadDraft p originalContent
     | None => ret tt
     end)
    (λ e, showSaveStatus ("加载文件失败: " +:+ e) true;; resetEditorState).

(** The state in which [handleFileClick] reaches the divergence check: the
    token adopted, the remote content shown, the flag clean. *)
Definition remoteLoaded (s : string) (shown : MetaInputs) (b : string) (w : World) : World :=
  withUi (setSaveStatus {| textContent := EmptyString;
                           className := "mt-2 text-right text-sm" |})
    (withDirty false
       (withVditor (Some b)
          (withUi (setMeta shown)
             (withState
                (λ st, setCurrentFile
                         {| path := path (currentFile st); sha := Some s;
                            isNew := false |} st) w)))).

(** *** Saving *)

Definition saveFailed {A} (a : A) (e : string) : Action A :=
  showSaveStatus ("保存失败: " +:+ e) true;; ret a.

Definition handleSave_start : Action (option Suspended) :=
  w ← get;
  match path (currentFile (state w)) with
  | Some p =>
      if Js.truthy p then
        tryCatch
          (let m := getEditorMetadata w in
           b ← match vditorInstance w with
                | Some value => ret value
                | None => throw "Cannot read properties of null (reading 'getValue')"
                end;
           let newContent := createFullMarkdown m b in
           if isNew (currentFile (state w)) then
             res ← createFile (state w) p newContent;
             ret (Some (AwaitCreateFile res))
           else
             match sha (currentFile (state w)) with
             | Some s =>
                 if Js.truthy s then
                   res ← updateFile (state w) p newContent s;
                   ret (Some (AwaitUpdateFile res))
                 else throw "更新文件缺少 SHA。请重新加载文件。"
             | None => throw "更新文件缺少 SHA。请重新加载文件。"
             end)
          (saveFailed None)
      else showSaveStatus "没有选择要保存的文件。" true;; ret None
  | None => showSaveStatus "没有选择要保存的文件。" true;; ret None
  end.

(** The tail of [handleSave], from [state.currentFile.sha = result.content.sha]. *)
Definition handleSave_finish (result : Json) : Action unit :=
  s ← match result with
       | JsonCommit s => ret s
       | _ => throw "Cannot read properties of undefined (reading 'sha')"
       end;
  modify (withState (λ st, setCurrentFile (setSha (Some s) (currentFile st)) st));;
  modify (withState (λ st, setCurrentFile (setIsNew false (currentFile st)) st));;
  w ← get;
  match path (currentFile (state w)) with
  | Some p => clearDraft p
  | None => ret tt
  end;;
  markAsClean;;
  showSaveStatus "文件保存成功！" false.

(** *** Deleting *)

Definition QUOTE : string := String "034"%char EmptyString.

Definition confirmAndDeleteFile_start (p : string) (s : option string)
  : Action (option Suspended) :=
  w ← get;
  if isNew (currentFile (state w)) then
    resetEditorState;;
    showSaveStatus "新文件编辑已取消。" false;;
    ret None
  else
    answer ← confirm ("你确定要删除文件 " +:+ QUOTE +:+ Js.basename p +:+ QUOTE
                      +:+ " 吗？此操作无法撤销。");
    if negb answer then ret None
    else
      tryCatch
        (match s with
         | Some s' =>
             if Js.truthy s' then
               w' ← get;
               res ← deleteFile (state w') p s';
               ret (Some (AwaitDeleteFile p res))
             else throw "缺少文件 SHA 无法删除。"
         | None => throw "缺少文件 SHA 无法删除。"
         end)
        (λ e, showSaveStatus ("删除失败: " +:+ e) true;; ret None).

Definition handleDeleteButtonClick_start : Action (option Suspended) :=
  w ← get;
  match path (currentFile (state w)) with
  | Some p =>
      if Js.truthy p then confirmAndDeleteFile_start p (sha (currentFile (state w)))
      else showSaveStatus "没有选定文件。" true;; ret None
  | None => showSaveStatus "没有选定文件。" true;; ret None
  end.

(** *** Resuming after an [await] *)

Definition resume (k : Suspended) : Action (option Suspended) :=
  match k with
  | AwaitGetFileContent res => handleFileClick_resume res;; ret None
  | AwaitUpdateFile res =>
      tryCatch (result ← githubApiResponse res; handleSave_finish result;; ret None)
               (saveFailed None)
  | AwaitCreateFile res =>
      tryCatch (result ← githubApiResponse res;
                w ← get;
                res' ← getFiles (state w);
                ret (Some (AwaitRefreshAfterCreate result res')))
               (saveFailed None)
  | AwaitRefreshAfterCreate result res =>
      refreshFileList_resume res;;
      tryCatch (handleSave_finish result;; ret None) (saveFailed None)
  | AwaitDeleteFile p res =>
      tryCatch
        (_ ← githubApiResponse res;
         showSaveStatus "文件删除成功！" false;;
         clearDraft p;;
         w ← get;
         when (bool_decide (path (currentFile (state w)) = Some p)) resetEditorState;;
         w' ← get;
         res' ← getFiles (state w');
         ret (Some (AwaitRefreshAfterDelete res')))
        (λ e, showSaveStatus ("删除失败: " +:+ e) true;; ret None)
  | AwaitRefreshAfterDelete res => refreshFileList_resume res;; ret None
  end.

(** The [await]s a suspended handler has still to pass, the pending one
    included. *)
Definition awaitsLeft (k : option Suspended) : nat :=
  match k with
  | None => 0
  | Some (AwaitCreateFile _) | Some (AwaitDeleteFile _ _) => 2
  | Some _ => 1
  end.

(** A handler run with nothing else scheduled between its [await]s. *)
Fixpoint settle (fuel : nat) (k : option Suspended) : Action unit :=
  match k, fuel with
  | None, _ => ret tt
  | Some _, O => ret tt
  | Some s, S fuel' => k' ← resume s; settle fuel' k'
  end.

Definition handleFileClick (target : option Target) : Action unit :=
  k ← handleFileClick_start target; settle 1 k.

Definition handleSave : Action unit :=
  k ← handleSave_start; settle 2 k.

Definition handleDeleteButtonClick : Action unit :=
  k ← handleDeleteButtonClick_start; settle 2 k.

(** *** Logout, edits and the timer *)

Definition logout : Action unit :=
  modify (withStorage (delete "github_editor_data"));;
  modify (withState clearCredentials);;
  resetEditorState;;
  modify (withUi showLoginView).

(** An [input] event on one of the metadata fields. *)
Definition inputMeta (f : MetaInputs → MetaInputs) : Action unit :=
  setMetaInput f;; markAsDirty.

(** Typing in the widget: its [input] option is [markAsDirty]. *)
Definition inputBody (value : string) : Action unit :=
  w ← get;
  when (bool_decide (is_Some (vditorInstance w)))
    (modify (withVditor (Some value));; markAsDirty).

(** The part of [initializeApp] that creates the widget and arms the
    timer; [timer] is the identifier [setInterval] returns. *)
Definition initializeApp_timer (timer : nat) : Action unit :=
  modify (withVditor (Some EmptyString));;
  modify (withInterval (Some timer)).

(** One expiry of the 5000 ms interval. *)
Definition intervalElapsed : Action unit :=
  w ← get;
  when (bool_decide (is_Some (draftInterval w))) saveDraft.

End Editor.

(** The request [githubApiRequest] builds for a session, an endpoint, a
    method and a body. *)
Definition requestOf (st : EditorState) (endpoint : string)
    (method : Method) (payload : option Payload) : Request :=
  {| req_method := method; req_url := apiUrl st endpoint;
     req_authorization := "token " +:+ pat st; req_body := payload |}.

(** The question [confirmAndDeleteFile] asks. *)
Definition deletePrompt (p : string) : string :=
  "你确定要删除文件 " +:+ QUOTE +:+ Js.basename p +:+ QUOTE +:+ " 吗？此操作无法撤销。".

(** ** Creating and renaming files ([editor.ts])

    The two dialogs are reduced to what their confirm buttons do: the
    handler takes the text of the dialog's input and its result tells what
    the dialog shows afterwards. *)

Section Dialogs.
Context `{Platform}.

(** The folder the editor keeps its posts in. *)
Definition postsDir : string := "src/content/posts/".

(** What a dialog handler leaves behind: an error line under the input,
    nothing at all, or the closed dialog. *)
Inductive DialogResult :=
  | DialogError (msg : string)
  | DialogUntouched
  | DialogClosed.

Definition templateMeta (filenameInput : string) : Metadata :=
  {| title := Some filenameInput; published := None; updated := None;
     description := Some EmptyString; tags := TagsArray [];
     category := Some EmptyString |}.

Definition handleCreateNewFile (newFileInput : string) : Action DialogResult :=
  let filenameInput := Js.trim newFileInput in
  if negb (Js.truthy filenameInput) then ret (DialogError "文件名不能为空。")
  else
    let filename := normalizeFilename filenameInput in
    modify (withState (setCurrentFile
      {| path := Some (postsDir +:+ filename); sha := None; isNew := true |}));;
    modify (withUi (setCurrentFileName filename));;
    populateEditor (templateMeta filenameInput) EmptyString;;
    setTodaysDate;;
    markAsDirty;;
    modify (withUi (showEditor true));;
    ret DialogClosed.

(** [handleRenameConfirm] with [renameFileAction] inlined, split at the
    three [await]s.  The old path, the new file name and the new content
    are locals fixed before the first [await]. *)
Inductive RenameSuspended :=
  | AwaitRenameDelete (oldPath newFilename newContent : string) (res : FetchResult)
  | AwaitRenameCreate (oldPath newFilename : string) (res : FetchResult)
  | AwaitRenameRefresh (res : FetchResult).

Inductive RenameStep :=
  | RenameEnds (shown : DialogResult)
  | RenameAwaits (k : RenameSuspended).

Definition renameFailed (e : string) : Action RenameStep :=
  showSaveStatus ("重命名失败: " +:+ e) true;;
  ret (RenameEnds (DialogError ("重命名失败: " +:+ e))).

Definition handleRenameConfirm_start (renameFileInput : string) : Action RenameStep :=
  let newNameInput := Js.trim renameFileInput in
  if negb (Js.truthy newNameInput)
  then ret (RenameEnds (DialogError "新文件名不能为空。"))
  else
    let newFilename := normalizeFilename newNameInput in
    w ← get;
    match path (currentFile (state w)) with
    | Some oldPath =>
        if Js.truthy oldPath then
          if String.eqb (Js.basename oldPath) newFilename
          then ret (RenameEnds (DialogError "文件名未更改。"))
          else
            tryCatch
              (match sha (currentFile (state w)) with
               | Some s =>
                   if Js.truthy s then
                     let m := getEditorMetadata w in
                     b ← match vditorInstance w with
                          | Some value => ret value
                          | None =>
                              throw "Cannot read properties of null (reading 'getValue')"
                          end;
                     let newContent := createFullMarkdown m b in
                     res ← deleteFile (state w) oldPath s;
                     ret (RenameAwaits (AwaitRenameDelete oldPath newFilename newContent res))
                   else throw "文件操作缺少 SHA。"
               | None => throw "文件操作缺少 SHA。"
               end)
              renameFailed
        else ret (RenameEnds DialogUntouched)
    | None => ret (RenameEnds DialogUntouched)
    end.

Definition resumeRename (k : RenameSuspended) : Action RenameStep :=
  match k with
  | AwaitRenameDelete oldPath newFilename newContent res =>
      tryCatch
        (_ ← githubApiResponse res;
         w ← get;
         res' ← createFile (state w) (postsDir +:+ newFilename) newContent;
         ret (RenameAwaits (AwaitRenameCreate oldPath newFilename res')))
        renameFailed
  | AwaitRenameCreate oldPath newFilename res =>
      tryCatch
        (result ← githubApiResponse res;
         modify (withState (λ st,
           setCurrentFile (setPath (Some (postsDir +:+ newFilename)) (currentFile st)) st));;
         s ← match result with
              | JsonCommit s => ret s
              | _ => throw "Cannot read properties of undefined (reading 'sha')"
              end;
         modify (withState (λ st, setCurrentFile (setSha (Some s) (currentFile st)) st));;
         modify (withUi (setCurrentFileName newFilename));;
         clearDraft oldPath;;
         showSaveStatus "文件重命名成功！" false;;
         w ← get;
         res' ← getFiles (state w);
         ret (RenameAwaits (AwaitRenameRefresh res')))
        renameFailed
  | AwaitRenameRefresh res =>
      refreshFileList_resume res;;
      ret (RenameEnds DialogClosed)
  end.

(** The rename run with nothing else scheduled between its [await]s. *)
Fixpoint settleRename (fuel : nat) (step : RenameStep) : Action DialogResult :=
  match step, fuel with
  | RenameEnds shown, _ => ret shown
  | RenameAwaits _, O => ret DialogUntouched
  | RenameAwaits k, S fuel' => step' ← resumeRename k; settleRename fuel' step'
  end.

Definition handleRenameConfirm (renameFileInput : string) : Action DialogResult :=
  step ← handleRenameConfirm_start renameFileInput; settleRename 3 step.

(** The two requests of a rename and the failure it leaves on the status
    line. *)
Definition renameDelete (st : EditorState) (old s : string) : Request :=
  requestOf st ("contents/" +:+ old) DELETE
    (Some {| message := "docs: delete " +:+ Js.basename old;
             payload_content := None; payload_sha := Some s |}).

Definition renameCreate (st : EditorState) (newFilename content : string) : Request :=
  requestOf st ("contents/" +:+ (postsDir +:+ newFilename)) PUT
    (Some {| message := "docs: create " +:+ Js.basename (postsDir +:+ newFilename);
             payload_content := Some (base64_encode content);
             payload_sha := None |}).

Definition renameError (e : string) : World → World :=
  withUi (setSaveStatus
    {| textContent := "重命名失败: " +:+ e;
       className := "mt-2 text-right text-red-500" |}).

(** The [await]s a rename has still to pass. *)
Definition renameAwaits (step : RenameStep) : nat :=
  match step with
  | RenameEnds _ => 0
  | RenameAwaits (AwaitRenameDelete _ _ _ _) => 3
  | RenameAwaits (AwaitRenameCreate _ _ _) => 2
  | RenameAwaits (AwaitRenameRefresh _) => 1
  end.

(** *** Opening the post named in the URL *)

Definition listRequest (st : EditorState) : Request :=
  requestOf st "contents/src/content/posts" GET None.

(** The click [loadFileBySlug] simulates on a list entry. *)
Definition targetOf (f : FileRef) : Target :=
  {| dataset_path := Some (ref_path f); dataset_sha := Some (ref_sha f) |}.

(** [file.name.replace(".md", empty)] *)
Definition slugOf (file : FileRef) : string := Js.removeFirst ".md" (ref_name file).

(** [loadFileBySlug], run with nothing else scheduled between its
    [await]s. *)
Definition loadFileBySlug (slug : string) : Action unit :=
  tryCatch
    (w ← get;
     res ← getFiles (state w);
     files ← githubApiResponse res;
     match files with
     | JsonList l =>
         match List.find (λ file, String.eqb (slugOf file) slug) l with
         | Some targetFile =>
             handleFileClick (Some (targetOf targetFile));;
             showSaveStatus ("已自动加载文章: " +:+ ref_name targetFile) false
         | None => showSaveStatus ("未找到文章: " +:+ slug) true
         end
     | _ => throw "files.find is not a function"
     end)
    (λ e, showSaveStatus ("加载指定文章失败: " +:+ e) true).

End Dialogs.

(** ** A concrete platform for worked examples

    The theorems below hold for every [Platform].  To run the definitions
    on concrete inputs they are instantiated with a small stand-in: a
    line-oriented YAML emitter and reader using the plain, single-quoted
    and flow-sequence styles, a fixed clock, and a server that keeps files
    by URL and checks the version token on writes. *)

Module Sample.

Definition isDigit (c : ascii) : bool :=
  let n := nat_of_ascii c in (48 <=? n) && (n <=? 57).

Fixpoint allChars (p : ascii → bool) (s : string) : bool :=
  match s with
  | EmptyString => true
  | String c s' => p c && allChars p s'
  end.

Fixpoint anyChar (p : ascii → bool) (s : string) : bool :=
  match s with
  | EmptyString => false
  | String c s' => p c || anyChar p s'
  end.

(** Characters that force quoting wherever they occur. *)
Definition isIndicator (c : ascii) : bool :=
  anyChar (Ascii.eqb c) ":#,[]{}&*!|>'%@`" || (nat_of_ascii c =? 34) || (nat_of_ascii c =? 10).

(** Text that would be read back as a number, a date, a boolean or null. *)
Definition resolvesToNonString (s : string) : bool :=
  allChars (λ c, isDigit c || anyChar (Ascii.eqb c) "-+.") s
  || bool_decide (s ∈ ["true"; "false"; "null"; "~"]).

Definition isPlain (s : string) : bool :=
  Js.truthy s
  && String.eqb (Js.trim s) s
  && negb (anyChar isIndicator s)
  && negb (Js.startsWith "-" s)
  && negb (resolvesToNonString s).

Fixpoint doubleQuotes (s : string) : string :=
  match s with
  | EmptyString => EmptyString
  | String c s' =>
      if Ascii.eqb c "'"%char then String c (String c (doubleQuotes s'))
      else String c (doubleQuotes s')
  end.

Definition emitScalar (s : string) : string :=
  if isPlain s then s else "'" +:+ doubleQuotes s +:+ "'".

Definition emitField (key : string) (v : option string) : string :=
  match v with
  | Some s => key +:+ ": " +:+ emitScalar s +:+ LF
  | None => EmptyString
  end.

Definition emitTags (t : Tags) : string :=
  match t with
  | TagsAbsent => EmptyString
  | TagsString s => emitField "tags" (Some s)
  | TagsArray l => "tags: [" +:+ Js.join ", " (emitScalar <$> l) +:+ "]" +:+ LF
  end.

Definition dump (m : Metadata) : string :=
  emitField "title" (title m) +:+ emitField "published" (published m)
  +:+ emitField "updated" (updated m) +:+ emitField "description" (description m)
  +:+ emitTags (tags m) +:+ emitField "category" (category m).

(** Reading: [None] stands for a syntax error. *)
Fixpoint undouble (s : string) : option string :=
  match s with
  | EmptyString => None
  | String c s' =>
      if Ascii.eqb c "'"%char then
        match s' with
        | EmptyString => Some EmptyString
        | String c' s'' =>
            if Ascii.eqb c' "'"%char
            then String c <$> undouble s''
            else None
        end
      else String c <$> undouble s'
  end.

(** A scalar reads as a syntax error ([None]), as null ([Some None]) or
    as a string. *)
Definition readScalar (s : string) : option (option string) :=
  match Js.trim s with
  | String c rest =>
      if Ascii.eqb c "'"%char then Some <$> undouble rest
      else Some (Some (String c rest))
  | EmptyString => Some None
  end.

Fixpoint sequence {A} (l : list (option A)) : option (list A) :=
  match l with
  | [] => Some []
  | x :: l' => a ← x; r ← sequence l'; Some (a :: r)
  end.

Definition readItem (s : string) : option string :=
  v ← readScalar s; Some (default "null" v).

Definition readTags (s : string) : option Tags :=
  match Js.trim s with
  | String c rest =>
      if Ascii.eqb c "["%char then
        if Js.endsWith "]" rest then
          let inner := Js.trim (String.substring 0 (String.length rest - 1) rest) in
          if Js.truthy inner
          then TagsArray <$> sequence (readItem <$> Js.split "," inner)
          else Some (TagsArray [])
        else None
      else v ← readScalar (String c rest);
           Some (match v with Some t => TagsString t | None => TagsAbsent end)
  | EmptyString => Some TagsAbsent
  end.

Definition dropPrefix (p s : string) : string :=
  String.substring (String.length p) (String.length s - String.length p) s.

Definition readLine (line : string) (acc : option Metadata) : option Metadata :=
  m ← acc;
  let field (key : string) : option (option (option string)) :=
    if Js.startsWith (key +:+ ":") line
    then Some (readScalar (dropPrefix (key +:+ ":") line)) else None in
  if Js.truthy (Js.trim line) then
    match field "title", field "published", field "updated",
          field "description", field "category" with
    | Some v, _, _, _, _ => s ← v;
        Some {| title := s; published := published m; updated := updated m;
                description := description m; tags := tags m; category := category m |}
    | _, Some v, _, _, _ => s ← v;
        Some {| title := title m; published := s; updated := updated m;
                description := description m; tags := tags m; category := category m |}
    | _, _, Some v, _, _ => s ← v;
        Some {| title := title m; published := published m; updated := s;
                description := description m; tags := tags m; category := category m |}
    | _, _, _, Some v, _ => s ← v;
        Some {| title := title m; published := published m; updated := updated m;
                description := s; tags := tags m; category := category m |}
    | _, _, _, _, Some v => s ← v;
        Some {| title := title m; published := published m; updated := updated m;
                description := description m; tags := tags m; category := s |}
    | _, _, _, _, _ =>
        if Js.startsWith "tags:" line then
          t ← readTags (dropPrefix "tags:" line);
          Some {| title := title m; published := published m; updated := updated m;
                  description := description m; tags := t; category := category m |}
        else if Js.includes ":" line then Some m else None
    end
  else Some m.

Definition load (text : string) : YamlLoad :=
  let lines := Js.split LF text in
  if forallb (λ l, negb (Js.truthy (Js.trim l))) lines then YamlValue None
  else match foldl (λ acc line, readLine line acc) (Some emptyMetadata) lines with
       | Some m => YamlValue (Some m)
       | None => YamlThrows "bad indentation of a mapping entry"
       end.

(** The server: files by URL, each with its content and version token. *)
Definition Server : Type := gmap string (string * string).

Definition tokenOf (content : string) : string :=
  "sha" +:+ pretty (String.length content).

Definition notFound : FetchResult :=
  Responded {| resp_ok := false; resp_status := 404;
               resp_json := Some (JsonError (Some "Not Found")) |}.
Definition conflict : FetchResult :=
  Responded {| resp_ok := false; resp_status := 409;
               resp_json := Some (JsonError (Some "does not match")) |}.
Definition okJson (j : Json) : FetchResult :=
  Responded {| resp_ok := true; resp_status := 200; resp_json := Some j |}.

Definition serve (srv : Server) (req : Request) : Server * FetchResult :=
  let url := req_url req in
  match req_method req, srv !! url with
  | GET, Some (c, s) => (srv, okJson (JsonFile c s))
  | GET, None =>
      if Js.endsWith "contents/src/content/posts" url then (srv, okJson (JsonList []))
      else (srv, notFound)
  | PUT, Some (_, s) =>
      match req_body req with
      | Some {| payload_content := Some c; payload_sha := Some s' |} =>
          if String.eqb s s'
          then (<[url := (c, tokenOf c)]> srv, okJson (JsonCommit (tokenOf c)))
          else (srv, conflict)
      | _ => (srv, conflict)
      end
  | PUT, None =>
      match req_body req with
      | Some {| payload_content := Some c |} =>
          (<[url := (c, tokenOf c)]> srv, okJson (JsonCommit (tokenOf c)))
      | _ => (srv, notFound)
      end
  | DELETE, Some (_, s) =>
      match req_body req with
      | Some {| payload_sha := Some s' |} =>
          if String.eqb s s' then (delete url srv, okJson JsonSuccess)
          else (srv, conflict)
      | _ => (srv, conflict)
      end
  | DELETE, None => (srv, notFound)
  end.

(** [answer]: what the user replies to every prompt; [fires]: whether the
    widget reports [setValue] as input; [full]: whether storage is full. *)
Definition platform (answer fires full : bool) : Platform :=
  {| yaml_dump := dump;
     yaml_load := load;
     isoDay := λ s, if 10 <=? String.length s then Some (String.substring 0 10 s) else None;
     today := "2026-11-02";
     nowISO := "2026-11-02T09:30:00.000Z";
     nowLocaleTime := "09:30:00";
     toLocaleString := λ s, s;
     setValue_fires_input := fires;
     quotaExceeded := λ _ _ _, full;
     confirm_answer := λ _, answer;
     base64_encode := λ s, s;
     base64_decode := λ s, s;
     Remote := Server;
     fetch := serve |}.

End Sample.

(** *** Worked scenarios on the concrete platform *)

Module Scenario.

Definition contentA : string :=
  "---" +:+ LF +:+ "title: Hello" +:+ LF +:+ "published: 2024-01-01" +:+ LF
  +:+ "---" +:+ LF +:+ LF +:+ "Body text".

(** A post without a publication date. *)
Definition contentB : string :=
  "---" +:+ LF +:+ "title: Notes" +:+ LF +:+ "---" +:+ LF +:+ LF +:+ "Second post".

Definition pathA : string := "src/content/posts/a.md".
Definition pathB : string := "src/content/posts/b.md".

Definition session : EditorState :=
  {| user := "octo"; repo := "blog"; pat := "ghp_token";
     currentFile := {| path := None; sha := None; isNew := false |} |}.

Definition urlOf (p : string) : string := apiUrl session ("contents/" +:+ p).

Definition files : Sample.Server :=
  <[urlOf pathA := (contentA, Sample.tokenOf contentA)]>
    (<[urlOf pathB := (contentB, Sample.tokenOf contentB)]> ∅).

Definition blankUi : Ui :=
  {| meta := {| meta_title := EmptyString; meta_published := EmptyString;
                meta_updated := EmptyString; meta_description := EmptyString;
                meta_tags := EmptyString; meta_category := EmptyString |};
     saveStatus := {| textContent := EmptyString; className := EmptyString |};
     currentFileName := EmptyString;
     editorSection_hidden := true;
     placeholderSection_hidden := false;
     mainView_hidden := false;
     loginView_hidden := true;
     loginInputs := ("octo", "blog", "ghp_token");
     fileList := [] |}.

(** The page after login, with the widget created and the timer armed. *)
Definition booted (answer fires full : bool) : @World (Sample.platform answer fires full) :=
  {| state := session; vditorInstance := Some EmptyString; draftInterval := Some 1;
     isDirty := false; ui := blankUi; localStorage := ∅; confirms := [];
     remote := (files : @Remote (Sample.platform answer fires full));
     requests := [] |}.

(** The state an action leaves behind. *)
Definition after `{Platform} {A} (a : Action A) (w : World) : World := snd (a w).

Definition click (p : string) : option Target :=
  Some {| dataset_path := Some p; dataset_sha := None |}.

(** A record as the metadata inputs deliver it. *)
Definition helloMeta : Metadata :=
  {| title := Some "Hello"; published := Some "2024-01-01";
     updated := Some "2024-01-02"; description := Some "it's";
     tags := TagsString "a, b , c"; category := Some "notes" |}.

(** A record whose dates and tags the emitter writes without quotes. *)
Definition plainMeta : Metadata :=
  {| title := Some "Hello"; published := Some "spring 2024";
     updated := None; description := Some "it's";
     tags := TagsString "a, b , c"; category := Some "notes" |}.

(** A record with an empty date input and a tag that holds a quote. *)
Definition quotedMeta : Metadata :=
  {| title := Some "Hello"; published := Some EmptyString;
     updated := None; description := None;
     tags := TagsString "it's, b"; category := None |}.

(** The same with a title that contains the delimiter. *)
Definition dashedMeta : Metadata :=
  {| title := Some "x---y"; published := Some "2024-01-01";
     updated := Some "2024-01-02"; description := Some "it's";
     tags := TagsString "a, b , c"; category := Some "notes" |}.

(** The platform of a user who declines every prompt; the widget does not
    report [setValue] as input and the storage has room. *)
Definition P0 : Platform := Sample.platform false false false.

(** The same with a user who accepts. *)
Definition PYes : Platform := Sample.platform true false false.

Definition keyA : string := "draft_octo_blog_src/content/posts/a.md".
Definition keyB : string := "draft_octo_blog_src/content/posts/b.md".

Definition start : @World P0 := booted false false false.

Definition responseA : Response :=
  {| resp_ok := true; resp_status := 200;
     resp_json := Some (JsonFile contentA (Sample.tokenOf contentA)) |}.
Definition responseB : Response :=
  {| resp_ok := true; resp_status := 200;
     resp_json := Some (JsonFile contentB (Sample.tokenOf contentB)) |}.

(** What [populateEditor] shows for the two remote files. *)
Definition shownA : MetaInputs :=
  {| meta_title := "Hello"; meta_published := "2024-01-01";
     meta_updated := EmptyString; meta_description := EmptyString;
     meta_tags := EmptyString; meta_category := EmptyString |}.
Definition shownB : MetaInputs :=
  {| meta_title := "Notes"; meta_published := EmptyString;
     meta_updated := EmptyString; meta_description := EmptyString;
     meta_tags := EmptyString; meta_category := EmptyString |}.

(** File A has been clicked and its content is awaited. *)
Definition openingA : @World P0 := after (handleFileClick_start (click pathA)) start.

(** The same with a stored draft that repeats the remote content. *)
Definition openingA_withCopy : @World P0 :=
  withStorage
    (insert keyA
       (StoredDraft
          {| draft_metadata :=
               {| title := Some "Hello"; published := Some "2024-01-01";
                  updated := None; description := None; tags := TagsAbsent;
                  category := None |};
             draft_body := "Body text";
             savedAt := "2026-11-01T08:00:00.000Z" |}))
    openingA.

(** File A is open and its body has been edited. *)
Definition editedA : @World P0 :=
  after (inputBody "edited A") (after (handleFileClick (click pathA)) start).

(** File B was opened and edited, and the timer has flushed a draft. *)
Definition draftedB : @World P0 :=
  after saveDraft
    (after (inputBody "draft text") (after (handleFileClick (click pathB)) start)).

Definition draftB : Draft :=
  {| draft_metadata :=
       {| title := Some "Notes"; published := Some "2026-11-02";
          updated := Some "2026-11-02"; description := Some EmptyString;
          tags := TagsString EmptyString; category := Some EmptyString |};
     draft_body := "draft text";
     savedAt := "2026-11-02T09:30:00.000Z" |}.

(** File B is clicked again and its content is awaited. *)
Definition reopeningB : @World P0 :=
  after (handleFileClick_start (click pathB)) draftedB.

(** The same history with a user who accepts the draft. *)
Definition reopenedB_accepting : @World PYes :=
  after (handleFileClick (click pathB))
    (after saveDraft
       (after (inputBody "draft text")
          (after (handleFileClick (click pathB)) (booted true false false)))).

(** A save of file A is started; its continuation is left in flight. *)
Definition savingA : Outcome (option Suspended) * @World P0 := handleSave_start editedA.

Definition inFlight : option Suspended :=
  match fst savingA with
  | Returned k => k
  | Thrown _ => None
  end.

(** Before the result arrives the user opens file B, edits it, the timer
    flushes a draft of B, and the user edits B again. *)
Definition movedOn : @World P0 :=
  after (inputBody "edited B more")
    (after saveDraft
       (after (inputBody "edited B")
          (after (handleFileClick (click pathB)) (snd savingA)))).

(** The result of the save of A is delivered. *)
Definition delivered : @World P0 := after (settle 2 inFlight) movedOn.

(** File A is clicked; before its content arrives file B is opened; then
    the content of A is delivered. *)
Definition crossed : @World P0 :=
  let clickedA := handleFileClick_start (click pathA) start in
  after (settle 1 (match fst clickedA with Returned k => k | Thrown _ => None end))
    (after (handleFileClick (click pathB)) (snd clickedA)).

(** File B is reopened and the user declines its draft. *)
Definition declinedB : @World P0 :=
  after (handleFileClick_resume (Responded responseB)) reopeningB.

(** File B opened from the start state, where no draft is stored. *)
Definition openedB : @World P0 := after (handleFileClick (click pathB)) start.

Definition loggedOut : @World P0 := after logout editedA.

(** Two sessions whose names contain underscores. *)
Definition sessionA_BC : EditorState :=
  {| user := "a"; repo := "b_c"; pat := "t1";
     currentFile := {| path := None; sha := None; isNew := false |} |}.
Definition sessionAB_C : EditorState :=
  {| user := "a_b"; repo := "c"; pat := "t2";
     currentFile := {| path := None; sha := None; isNew := false |} |}.
Definition sessionOther : EditorState :=
  {| user := "octo"; repo := "notes"; pat := "t3";
     currentFile := {| path := None; sha := None; isNew := false |} |}.

End Scenario.

(** *** Further scenarios *)

Module Cases.
Import Scenario.

(** Text under the draft key of file A that is no JSON. *)
Definition garbled : Stored := StoredGarbage "{oops".

Definition garbledStart : @World P0 := withStorage (insert keyA garbled) start.

(** File A has been clicked while that text is stored under its key. *)
Definition garbledOpeningA : @World P0 := withStorage (insert keyA garbled) openingA.

(** File A is open and clean. *)
Definition openedA : @World P0 := after (handleFileClick (click pathA)) start.

(** The same for a user who accepts every prompt. *)
Definition openedA_accepting : @World PYes :=
  after (handleFileClick (click pathA)) (booted true false false).

(** File A is open with a token the server no longer accepts. *)
Definition staleA : @World P0 :=
  withState (λ st, setCurrentFile (setSha (Some "stale") (currentFile st)) st) openedA.

(** The new-file dialog has been confirmed with a name. *)
Definition createdNew : @World P0 := after (handleCreateNewFile "New Post") start.

Definition pathNew : string := "src/content/posts/new-post.md".
Definition keyNew : string := "draft_octo_blog_src/content/posts/new-post.md".

(** What the editor sends when it saves file A after the edit, and when it
    saves the new file. *)
Definition savedA : string :=
  @createFullMarkdown P0 (getEditorMetadata editedA) "edited A".
Definition savedNew : string :=
  @createFullMarkdown P0 (getEditorMetadata createdNew) EmptyString.
Definition movedA : string :=
  @createFullMarkdown P0 (getEditorMetadata openedA) "Body text".

Definition committed (content : string) : Response :=
  {| resp_ok := true; resp_status := 200;
     resp_json := Some (JsonCommit (Sample.tokenOf content)) |}.

(** A server that also lists the two posts. *)
Definition listed : list FileRef :=
  [ {| ref_name := "a.md"; ref_path := pathA; ref_sha := Sample.tokenOf contentA |};
    {| ref_name := "b.md"; ref_path := pathB; ref_sha := Sample.tokenOf contentB |} ].

Definition serveListed (srv : Sample.Server) (req : Request)
  : Sample.Server * FetchResult :=
  match req_method req with
  | GET =>
      if Js.endsWith "contents/src/content/posts" (req_url req)
      then (srv, Sample.okJson (JsonList listed))
      else Sample.serve srv req
  | _ => Sample.serve srv req
  end.

Definition PListed : Platform :=
  {| yaml_dump := Sample.dump;
     yaml_load := Sample.load;
     isoDay := @isoDay P0;
     today := @today P0;
     nowISO := @nowISO P0;
     nowLocaleTime := @nowLocaleTime P0;
     toLocaleString := @toLocaleString P0;
     setValue_fires_input := false;
     quotaExceeded := λ _ _ _, false;
     confirm_answer := λ _, false;
     base64_encode := λ s, s;
     base64_decode := λ s, s;
     Remote := Sample.Server;
     fetch := serveListed |}.

Definition bootedListed : @World PListed :=
  {| state := session; vditorInstance := Some EmptyString; draftInterval := Some 1;
     isDirty := false; ui := blankUi; localStorage := ∅; confirms := [];
     remote := (files : @Remote PListed); requests := [] |}.

End Cases.

(** * Properties *)

(** ** Strings *)

Section StringFacts.

Example split_delims :
  Js.split "---" ("---" +:+ LF +:+ "title: Hello" +:+ LF +:+ "---" +:+ LF +:+ LF +:+ "Body")
  = [EmptyString; LF +:+ "title: Hello" +:+ LF; LF +:+ LF +:+ "Body"].
Proof. reflexivity. Qed.

Example split_overlapping : Js.split "---" "a----b" = ["a"; "-b"].
Proof. reflexivity. Qed.

Example split_tags : Js.split "," "a, b , c" = ["a"; " b "; " c"].
Proof. reflexivity. Qed.

Example trim_body : Js.trim (LF +:+ LF +:+ " Body text" +:+ LF) = "Body text".
Proof. reflexivity. Qed.

Example join_lines : Js.join "," ["a"; "b"; "c"] = "a,b,c".
Proof. reflexivity. Qed.

Example basename_post : Js.basename "src/content/posts/a.md" = "a.md".
Proof. reflexivity. Qed.

Lemma append_assoc (a b c : string) : (a +:+ b) +:+ c = a +:+ (b +:+ c).
Proof. induction a as [|x a IH]; simpl; [reflexivity | f_equal; exact IH]. Qed.

Lemma append_empty_r (a : string) : a +:+ EmptyString = a.
Proof. induction a as [|x a IH]; simpl; [reflexivity | f_equal; exact IH]. Qed.

Lemma startsWith_app (p s : string) : Js.startsWith p (p +:+ s) = true.
Proof.
  induction p as [|a p IH]; [reflexivity|].
  simpl. now rewrite Ascii.eqb_refl, IH.
Qed.

Lemma startsWith_split (p s : string) :
  Js.startsWith p s = true → ∃ r, s = p +:+ r.
Proof.
  revert s. induction p as [|a p IH]; intros s Hs.
  - now exists s.
  - destruct s as [|b s]; [discriminate|].
    simpl in Hs. apply andb_true_iff in Hs as [Hab Hp].
    apply Ascii.eqb_eq in Hab as ->.
    destruct (IH _ Hp) as [r ->]. now exists r.
Qed.

Lemma length_append (a b : string) :
  String.length (a +:+ b) = String.length a + String.length b.
Proof. induction a as [|x a IH]; simpl; [reflexivity | f_equal; exact IH]. Qed.

Lemma splitFrom_nonempty (sep : string) (k : nat) (s : string) :
  Js.splitFrom sep k s ≠ [].
Proof.
  revert k. induction s as [|c s IH]; intros k; simpl; [discriminate|].
  destruct k as [|k]; [|apply IH].
  destruct (Js.startsWith sep (String c s)); [discriminate|].
  destruct (Js.splitFrom sep 0 s); discriminate.
Qed.

Lemma splitFrom_skip (sep x s : string) :
  Js.splitFrom sep (String.length x) (x +:+ s) = Js.splitFrom sep 0 s.
Proof. induction x as [|a x IH]; simpl; [reflexivity | exact IH]. Qed.

Lemma splitFrom_hit (sep : string) (c : ascii) (s : string) :
  Js.startsWith sep (String c s) = true →
  Js.splitFrom sep 0 (String c s)
  = EmptyString :: Js.splitFrom sep (String.length sep - 1) s.
Proof. intros Hp. simpl. now rewrite Hp. Qed.

(** A separator at the head of the text closes an empty piece. *)
Lemma split_sep_app (sep s : string) :
  sep ≠ EmptyString → Js.split sep (sep +:+ s) = EmptyString :: Js.split sep s.
Proof.
  intros Hsep. unfold Js.split.
  pose proof (startsWith_app sep s) as Hp.
  destruct sep as [|a sep]; [congruence|].
  change (String a sep +:+ s) with (String a (sep +:+ s)) in *.
  rewrite (splitFrom_hit _ _ _ Hp).
  change (String.length (String a sep) - 1) with (String.length sep - 0).
  now rewrite Nat.sub_0_r, splitFrom_skip.
Qed.

(** A code unit that does not start a separator joins the current piece. *)
Lemma split_cons_other (sep : string) (c : ascii) (s : string) :
  Js.startsWith sep (String c s) = false →
  ∃ piece rest, Js.split sep s = piece :: rest
                ∧ Js.split sep (String c s) = String c piece :: rest.
Proof.
  intros Hno. unfold Js.split. simpl. rewrite Hno.
  destruct (Js.splitFrom sep 0 s) as [|piece rest] eqn:E.
  - now apply splitFrom_nonempty in E.
  - now exists piece, rest.
Qed.

Lemma join_cons (sep p : string) (l : list string) :
  l ≠ [] → Js.join sep (p :: l) = p +:+ sep +:+ Js.join sep l.
Proof. destruct l; [congruence | reflexivity]. Qed.

Lemma join_cons_char (sep : string) (c : ascii) (p : string) (l : list string) :
  Js.join sep (String c p :: l) = String c (Js.join sep (p :: l)).
Proof. destruct l; reflexivity. Qed.

(** [s.split(sep).join(sep)] gives [s] back. *)
Lemma join_split (sep s : string) :
  sep ≠ EmptyString → Js.join sep (Js.split sep s) = s.
Proof.
  intros Hsep.
  remember (String.length s) as n eqn:Hn.
  revert s Hn. induction n as [n IH] using lt_wf_ind. intros s Hn.
  destruct s as [|c s]; [reflexivity|].
  destruct (Js.startsWith sep (String c s)) eqn:Hp.
  - apply startsWith_split in Hp as [r Hr]. rewrite Hr.
    rewrite split_sep_app by assumption.
    rewrite join_cons by apply splitFrom_nonempty.
    simpl. f_equal.
    apply (IH (String.length r)); [|reflexivity].
    subst n. rewrite Hr, length_append.
    destruct sep; [congruence | simpl; lia].
  - destruct (split_cons_other _ _ _ Hp) as (piece & rest & Hs & ->).
    rewrite join_cons_char, <- Hs. f_equal.
    apply (IH (String.length s)); [subst n; simpl; lia | reflexivity].
Qed.

Lemma includes_cons (p : string) (c : ascii) (s : string) :
  Js.includes p (String c s) = false →
  Js.startsWith p (String c s) = false ∧ Js.includes p s = false.
Proof. simpl. intros Hf. now apply orb_false_iff in Hf. Qed.

(** A delimiter cannot begin inside a text that is followed by a line
    feed unless it lies within the text. *)
Lemma startsWith_delimiter_LF (x rest : string) :
  Js.startsWith delimiter x = false →
  Js.startsWith delimiter (x +:+ LF +:+ rest) = false.
Proof.
  unfold delimiter, LF.
  destruct x as [|a [|b [|c x]]]; simpl; try reflexivity.
  - intros _. now rewrite andb_false_r.
  - intros _. now rewrite !andb_false_r.
  - rewrite andb_true_r. now intros ->.
Qed.

(** The first delimiter after a delimiter-free text that ends its line. *)
Lemma split_block (x rest : string) :
  Js.includes delimiter x = false →
  Js.split delimiter (x +:+ LF +:+ delimiter +:+ rest)
  = (x +:+ LF) :: Js.split delimiter rest.
Proof.
  induction x as [|c x IH]; intros Hx.
  - change (Js.split delimiter (String "010" (delimiter +:+ rest))
            = LF :: Js.split delimiter rest).
    destruct (split_cons_other delimiter "010"%char (delimiter +:+ rest))
      as (piece & more & Hs & ->); [reflexivity|].
    rewrite split_sep_app in Hs by discriminate.
    now inversion Hs.
  - apply includes_cons in Hx as [Hc Hx].
    change (Js.split delimiter (String c (x +:+ LF +:+ delimiter +:+ rest))
            = String c (x +:+ LF) :: Js.split delimiter rest).
    destruct (split_cons_other delimiter c (x +:+ LF +:+ delimiter +:+ rest))
      as (piece & more & Hs & ->).
    { exact (startsWith_delimiter_LF (String c x) _ Hc). }
    rewrite (IH Hx) in Hs. now inversion Hs.
Qed.

Lemma includes_startsWith (p s : string) :
  Js.startsWith p s = true → Js.includes p s = true.
Proof. intros Hp. destruct s; simpl; now rewrite Hp. Qed.

Lemma includes_middle (a p b : string) : Js.includes p (a +:+ p +:+ b) = true.
Proof.
  induction a as [|c a IH].
  - change (Js.includes p (p +:+ b) = true).
    apply includes_startsWith, startsWith_app.
  - change (Js.includes p (String c (a +:+ p +:+ b)) = true).
    simpl. rewrite IH. apply orb_true_r.
Qed.

Lemma trimStart_space (c : ascii) (s : string) :
  Js.isSpace c = true → Js.trimStart (String c s) = Js.trimStart s.
Proof. intros Hc. simpl. now rewrite Hc. Qed.

Lemma trim_blank_line (b : string) : Js.trim (LF +:+ LF +:+ b) = Js.trim b.
Proof. reflexivity. Qed.

End StringFacts.

(** ** Lines *)

Section LineFacts.

Lemma includes_LF_cons (c : ascii) (s : string) :
  Js.includes LF (String c s) = Ascii.eqb "010" c || Js.includes LF s.
Proof. unfold LF. simpl. now rewrite andb_true_r. Qed.

Lemma split_LF_cons (c : ascii) (s : string) :
  Js.split LF (String c s) =
    if Ascii.eqb "010" c then EmptyString :: Js.split LF s
    else match Js.split LF s with
         | piece :: rest => String c piece :: rest
         | [] => [String c EmptyString]
         end.
Proof. unfold Js.split, LF. simpl. now rewrite andb_true_r. Qed.

(** No piece of [s.split("\n")] contains a line feed. *)
Lemma split_LF_pieces (s : string) :
  Forall (λ x, Js.includes LF x = false) (Js.split LF s).
Proof.
  induction s as [|c s IH]; [repeat constructor|].
  rewrite split_LF_cons.
  destruct (Ascii.eqb "010" c) eqn:Ec.
  - constructor; [reflexivity | exact IH].
  - destruct (Js.split LF s) as [|piece rest]; [repeat constructor|].
    + rewrite includes_LF_cons, Ec. reflexivity.
    + inversion IH as [|? ? Hp Hr]; subst. constructor; [|exact Hr].
      now rewrite includes_LF_cons, Ec.
Qed.

Lemma split_LF_single (s : string) :
  Js.includes LF s = false → Js.split LF s = [s].
Proof.
  induction s as [|c s IH]; [reflexivity|].
  rewrite includes_LF_cons, split_LF_cons.
  intros Hs. apply orb_false_iff in Hs as [-> Hs]. now rewrite (IH Hs).
Qed.

Lemma split_LF_app (p rest : string) :
  Js.includes LF p = false →
  Js.split LF (p +:+ LF +:+ rest) = p :: Js.split LF rest.
Proof.
  induction p as [|c p IH].
  - intros _. change (EmptyString +:+ LF +:+ rest) with (String "010" rest).
    now rewrite split_LF_cons.
  - rewrite includes_LF_cons. intros Hp. apply orb_false_iff in Hp as [Hc Hp].
    change (String c p +:+ LF +:+ rest) with (String c (p +:+ LF +:+ rest)).
    now rewrite split_LF_cons, Hc, (IH Hp).
Qed.

(** [lines.join("\n").split("\n")] gives the lines back. *)
Lemma split_join_LF (l : list string) :
  l ≠ [] → Forall (λ x, Js.includes LF x = false) l →
  Js.split LF (Js.join LF l) = l.
Proof.
  induction l as [|p l IH]; [congruence|]. intros _ Hl.
  inversion Hl as [|? ? Hp Hrest]; subst.
  destruct l as [|q l].
  - now apply split_LF_single.
  - rewrite join_cons by discriminate.
    rewrite split_LF_app by assumption.
    now rewrite IH.
Qed.

Lemma removeQuotes_app (a b : string) :
  Js.removeQuotes (a +:+ b) = Js.removeQuotes a +:+ Js.removeQuotes b.
Proof.
  induction a as [|c a IH]; [reflexivity|].
  simpl. destruct (Ascii.eqb c "'"); [exact IH | simpl; now rewrite IH].
Qed.

Lemma removeQuotes_no_LF (s : string) :
  Js.includes LF s = false → Js.includes LF (Js.removeQuotes s) = false.
Proof.
  induction s as [|c s IH]; [reflexivity|].
  rewrite includes_LF_cons. intros Hs. apply orb_false_iff in Hs as [Hc Hs].
  simpl. destruct (Ascii.eqb c "'"); [now apply IH|].
  now rewrite includes_LF_cons, Hc, (IH Hs).
Qed.

(** Stripping quotes keeps the key: none of the three prefixes has one. *)
Lemma removeQuotes_keeps_key (line : string) :
  isDateOrTagLine line = true →
  isDateOrTagLine (Js.removeQuotes line) = true
  ∧ Js.truthy (Js.removeQuotes line) = true.
Proof.
  unfold isDateOrTagLine. intros Hk.
  apply orb_true_iff in Hk as [Hk|Hk]; [apply orb_true_iff in Hk as [Hk|Hk]|];
    apply startsWith_split in Hk as [r ->]; rewrite removeQuotes_app;
    simpl; rewrite ?startsWith_app; split; reflexivity.
Qed.

Lemma key_line_truthy (line : string) :
  isDateOrTagLine line = true → Js.truthy line = true.
Proof.
  unfold isDateOrTagLine. destruct line; [discriminate | reflexivity].
Qed.

Lemma processLine_other (line : string) :
  isDateOrTagLine line = false → processLine line = line.
Proof. unfold processLine. now intros ->. Qed.

Lemma processLine_key (line : string) :
  isDateOrTagLine line = true → processLine line = Js.removeQuotes line.
Proof. unfold processLine. now intros ->. Qed.

Lemma processLine_keeps_key (line : string) :
  isDateOrTagLine (processLine line) = isDateOrTagLine line.
Proof.
  destruct (isDateOrTagLine line) eqn:Hk.
  - rewrite processLine_key by assumption. now apply removeQuotes_keeps_key.
  - now rewrite processLine_other.
Qed.

Lemma processLine_truthy (line : string) :
  Js.truthy (processLine line) = Js.truthy line.
Proof.
  destruct (isDateOrTagLine line) eqn:Hk.
  - rewrite processLine_key by assumption.
    rewrite (key_line_truthy _ Hk). now apply removeQuotes_keeps_key.
  - now rewrite processLine_other.
Qed.

Lemma processLine_no_LF (line : string) :
  Js.includes LF line = false → Js.includes LF (processLine line) = false.
Proof.
  unfold processLine. destruct (isDateOrTagLine line); [|easy].
  apply removeQuotes_no_LF.
Qed.

End LineFacts.

(** ** Content codec *)

Section CodecFacts.
Context `{Platform}.

Lemma keptLines_no_LF (m : Metadata) :
  Forall (λ x, Js.includes LF x = false) (keptLines m).
Proof.
  unfold keptLines, processedLines.
  apply Forall_forall. intros x Hx.
  apply list_elem_of_filter in Hx as [_ Hx].
  apply list_elem_of_fmap in Hx as (y & -> & Hy).
  apply processLine_no_LF.
  pose proof (split_LF_pieces (yaml_dump (cleanMeta m))) as Hall.
  rewrite Forall_forall in Hall. now apply Hall.
Qed.

(** Seen through a test that rejects the empty line, the lines of the
    serialized block are the kept lines. *)
Lemma stringifyMetadata_lines (P : string → bool) (m : Metadata) :
  P EmptyString = false →
  filter (λ l, Is_true (P l)) (Js.split LF (stringifyMetadata m))
  = filter (λ l, Is_true (P l)) (keptLines m).
Proof.
  intros HP. change (stringifyMetadata m) with (Js.join LF (keptLines m)).
  destruct (keptLines m) as [|l ls] eqn:E.
  - simpl. change (Js.split LF EmptyString) with [EmptyString].
    rewrite filter_cons_False; [reflexivity | now rewrite HP].
  - rewrite split_join_LF; [reflexivity | discriminate |].
    rewrite <- E. apply keptLines_no_LF.
Qed.

Lemma filter_processed (P : string → bool) (g : string → string) (l : list string) :
  (∀ x, Is_true (P (processLine x)) → Is_true (Js.truthy (processLine x))) →
  (∀ x, P (processLine x) = P x) →
  (∀ x, Is_true (P x) → processLine x = g x) →
  filter (λ x, Is_true (P x))
    (filter (λ x, Is_true (Js.truthy x)) (processLine <$> l))
  = g <$> filter (λ x, Is_true (P x)) l.
Proof.
  intros Htruthy HP Hg. induction l as [|x l IH]; [reflexivity|].
  rewrite fmap_cons.
  destruct (P x) eqn:Px.
  - rewrite (filter_cons_True _ x) by now rewrite Px.
    rewrite (filter_cons_True _ (processLine x))
      by (apply Htruthy; now rewrite HP, Px).
    rewrite filter_cons_True by now rewrite HP, Px.
    rewrite fmap_cons, IH. f_equal. apply Hg. now rewrite Px.
  - rewrite (filter_cons_False _ x) by now rewrite Px.
    destruct (Js.truthy (processLine x)) eqn:Tx.
    + rewrite (filter_cons_True _ (processLine x)) by now rewrite Tx.
      rewrite filter_cons_False by now rewrite HP, Px.
      exact IH.
    + rewrite (filter_cons_False _ (processLine x)) by now rewrite Tx.
      exact IH.
Qed.

(** C9.  In the serialized metadata block, the non-empty lines that do not
    begin with [published:], [updated:] or [tags:] are exactly the
    non-empty such lines the YAML emitter produced, unchanged and in
    order; the lines that do begin with one of the three keys are the
    emitted ones with the single quotes removed.  The per-line step is the
    identity off those keys. *)
Theorem quote_stripping_confined (m : Metadata) :
  let emitted := Js.split LF (yaml_dump (cleanMeta m)) in
  let serialized := Js.split LF (stringifyMetadata m) in
  let other (l : string) := Js.truthy l && negb (isDateOrTagLine l) in
  filter (λ l, Is_true (other l)) serialized = filter (λ l, Is_true (other l)) emitted
  ∧ filter (λ l, Is_true (isDateOrTagLine l)) serialized
    = Js.removeQuotes <$> filter (λ l, Is_true (isDateOrTagLine l)) emitted
  ∧ (∀ l, isDateOrTagLine l = false → processLine l = l).
Proof.
  intros emitted serialized other. subst serialized. split; [|split].
  - rewrite (stringifyMetadata_lines other) by reflexivity.
    unfold keptLines, processedLines. fold emitted.
    rewrite (filter_processed other id).
    + now rewrite list_fmap_id.
    + intros x Hx. unfold other in Hx. apply andb_prop_elim in Hx. tauto.
    + intros x. unfold other.
      now rewrite processLine_truthy, processLine_keeps_key.
    + intros x Hx. unfold other in Hx. apply andb_prop_elim in Hx as [_ Hx].
      change (processLine x = x). apply processLine_other.
      destruct (isDateOrTagLine x); [destruct Hx | reflexivity].
  - rewrite (stringifyMetadata_lines isDateOrTagLine) by reflexivity.
    unfold keptLines, processedLines. fold emitted.
    apply filter_processed.
    + intros x Hx. rewrite key_line_truthy; [constructor|].
      now apply Is_true_true.
    + apply processLine_keeps_key.
    + intros x Hx. apply processLine_key. now apply Is_true_true.
  - apply processLine_other.
Qed.

(** The parts [parseContent] sees in a serialized document whose metadata
    block has no delimiter inside. *)
Lemma split_createFullMarkdown (m : Metadata) (b : string) :
  Js.includes delimiter (stringifyMetadata m) = false →
  Js.split delimiter (createFullMarkdown m b)
  = EmptyString :: (LF +:+ stringifyMetadata m +:+ LF)
      :: Js.split delimiter (LF +:+ LF +:+ b).
Proof.
  intros Hm. unfold createFullMarkdown.
  change ("---" +:+ LF +:+ stringifyMetadata m +:+ LF +:+ "---" +:+ LF +:+ LF +:+ b)
    with (delimiter +:+ LF +:+ stringifyMetadata m +:+ LF +:+ delimiter +:+ LF +:+ LF +:+ b).
  rewrite split_sep_app by discriminate. f_equal.
  rewrite <- (append_assoc LF (stringifyMetadata m)).
  rewrite split_block.
  - now rewrite append_assoc.
  - unfold LF at 1. simpl. exact Hm.
Qed.

(** Parsing a serialized document hands the framed block to the YAML
    reader and returns the trimmed body. *)
Lemma parse_createFullMarkdown (m : Metadata) (b : string) :
  Js.includes delimiter (stringifyMetadata m) = false →
  parseContent (createFullMarkdown m b) =
    match yaml_load (LF +:+ stringifyMetadata m +:+ LF) with
    | YamlValue v => {| metadata := default emptyMetadata v; body := Js.trim b |}
    | YamlThrows _ => {| metadata := emptyMetadata; body := createFullMarkdown m b |}
    end.
Proof.
  intros Hm. unfold parseContent.
  rewrite (split_createFullMarkdown m b Hm).
  set (block := LF +:+ stringifyMetadata m +:+ LF).
  destruct (Js.split delimiter (LF +:+ LF +:+ b)) as [|p ps] eqn:E.
  { now apply splitFrom_nonempty in E. }
  change (length (EmptyString :: block :: p :: ps) <? 3) with false.
  change (nth 1 (EmptyString :: block :: p :: ps) EmptyString) with block.
  change (drop 2 (EmptyString :: block :: p :: ps)) with (p :: ps).
  cbv iota.
  destruct (yaml_load block); [reflexivity|].
  now rewrite <- E, join_split.
Qed.

Lemma removeQuotes_id (s : string) :
  Js.includes "'" s = false → Js.removeQuotes s = s.
Proof.
  induction s as [|c s IH]; [reflexivity|].
  change (Js.includes "'" (String c s))
    with (Ascii.eqb "'" c && true || Js.includes "'" s).
  rewrite andb_true_r. intros Hs. apply orb_false_iff in Hs as [Hc Hs].
  simpl. rewrite Ascii.eqb_sym, Hc. f_equal. now apply IH.
Qed.

Lemma processLine_unquoted (l : list string) :
  forallb (λ line, negb (isDateOrTagLine line) || negb (Js.includes "'" line)) l = true →
  processLine <$> l = l.
Proof.
  induction l as [|x l IH]; [reflexivity|].
  intros Hl. cbn [forallb] in Hl. apply andb_true_iff in Hl as [Hx Hl].
  rewrite fmap_cons, (IH Hl). f_equal. unfold processLine.
  destruct (isDateOrTagLine x); [|reflexivity].
  apply removeQuotes_id. now destruct (Js.includes "'" x).
Qed.

(** When the emitter wrote no quote on a date or tag line, the serialized
    block is the emitted text without its empty lines. *)
Lemma stringifyMetadata_unquoted (m : Metadata) :
  keyLinesUnquoted (yaml_dump (cleanMeta m)) = true →
  stringifyMetadata m = nonEmptyLines (yaml_dump (cleanMeta m)).
Proof.
  intros Hq. unfold stringifyMetadata, keptLines, processedLines, nonEmptyLines.
  now rewrite (processLine_unquoted _ Hq).
Qed.

(** C3, as the code has it.  Let the serialized metadata block contain no
    ["---"].  Whenever the YAML reader does not throw on the block, parsing
    the serialization of [(m, b)] yields the body with leading and trailing
    white space removed, and as metadata what the reader returns for the
    block; when the reader throws, the whole document comes back as body
    with empty metadata.  If moreover the emitter wrote no single quote on
    a [published:], [updated:] or [tags:] line, the reader reads the
    emitter's output back as the record emitted, and reads it the same
    once its empty lines are dropped and it is framed by line feeds, then
    every field of [m] other than [tags] is reproduced, and [tags] is the
    sequence of trimmed non-empty entries. *)
Theorem parse_serialize_roundtrip (m : Metadata) (b : string) :
  Js.includes delimiter (stringifyMetadata m) = false →
  let r := parseContent (createFullMarkdown m b) in
  let emitted := yaml_dump (cleanMeta m) in
  (∀ v, yaml_load (LF +:+ stringifyMetadata m +:+ LF) = YamlValue v →
        body r = Js.trim b ∧ metadata r = default emptyMetadata v)
  ∧ (∀ msg, yaml_load (LF +:+ stringifyMetadata m +:+ LF) = YamlThrows msg →
            r = {| metadata := emptyMetadata; body := createFullMarkdown m b |})
  ∧ (keyLinesUnquoted emitted = true →
     yaml_load emitted = YamlValue (Some (cleanMeta m)) →
     yaml_load (LF +:+ nonEmptyLines emitted +:+ LF) = yaml_load emitted →
     body r = Js.trim b
     ∧ title (metadata r) = title m
     ∧ published (metadata r) = published m
     ∧ updated (metadata r) = updated m
     ∧ description (metadata r) = description m
     ∧ category (metadata r) = category m
     ∧ tags (metadata r) = TagsArray (normalizeTags (tags m))).
Proof.
  intros Hm r emitted. subst r.
  rewrite (parse_createFullMarkdown m b Hm).
  split; [|split].
  - intros v ->. now split.
  - now intros msg ->.
  - intros Hq Hload Hframe.
    rewrite (stringifyMetadata_unquoted m Hq). fold emitted.
    rewrite Hframe, Hload. simpl. tauto.
Qed.

(** C10, as the code has it.  A record whose [tags] is ["a, b , c"] is
    handed to the YAML emitter with [tags = ["a","b","c"]]; when the
    serialized block contains no ["---"] and the YAML reader returns the
    emitted tags for it, parsing the serialized document yields
    [tags = ["a","b","c"]]. *)
Theorem tags_string_roundtrip (m : Metadata) (b : string) :
  tags m = TagsString "a, b , c" →
  tags (cleanMeta m) = TagsArray ["a"; "b"; "c"]
  ∧ (Js.includes delimiter (stringifyMetadata m) = false →
     ∀ m', yaml_load (LF +:+ stringifyMetadata m +:+ LF) = YamlValue (Some m') →
           tags m' = tags (cleanMeta m) →
           tags (metadata (parseContent (createFullMarkdown m b)))
           = TagsArray ["a"; "b"; "c"]).
Proof.
  intros Ht.
  assert (Hc : tags (cleanMeta m) = TagsArray ["a"; "b"; "c"]).
  { simpl. rewrite Ht. reflexivity. }
  split; [exact Hc|].
  intros Hm m' Hload Hm'.
  rewrite parse_createFullMarkdown, Hload by assumption.
  simpl. congruence.
Qed.

End CodecFacts.

(** ** Reconciliation core *)

Ltac unfold_action :=
  unfold mbind, mret, action_bind, action_ret, bind, ret, throw, tryCatch,
    get, modify, when in *.

Section FlushFacts.
Context `{Platform}.

Lemma markAsClean_run (w : World) :
  markAsClean w =
    (Returned tt,
     withUi (setSaveStatus {| textContent := EmptyString;
                              className := "mt-2 text-right text-sm" |})
            (withDirty false w)).
Proof. reflexivity. Qed.

Lemma saveDraft_idle (w : World) :
  isSet (path (currentFile (state w))) = false ∨ isDirty w = false →
  saveDraft w = (Returned tt, w).
Proof.
  unfold saveDraft. unfold_action.
  destruct (path (currentFile (state w))) as [p|]; [|reflexivity].
  destruct (vditorInstance w); [|reflexivity].
  simpl. intros [-> | ->]; [reflexivity|].
  now rewrite andb_false_r.
Qed.

Lemma getDraftKey_Some (st : EditorState) (p key : string) :
  getDraftKey st (Some p) = Some key →
  Js.truthy p = true
  ∧ key = "draft_" +:+ user st +:+ "_" +:+ repo st +:+ "_" +:+ p.
Proof.
  unfold getDraftKey. destruct (Js.truthy p); [|discriminate].
  intros [= <-]. now split.
Qed.

(** What the flush does once its guard has let it through. *)
Lemma saveDraft_dirty (w : World) (p value key : string) :
  path (currentFile (state w)) = Some p →
  getDraftKey (state w) (Some p) = Some key →
  vditorInstance w = Some value →
  isDirty w = true →
  let d := {| draft_metadata := getEditorMetadata w; draft_body := value;
              savedAt := nowISO |} in
  saveDraft w =
    if quotaExceeded (localStorage w) key (StoredDraft d)
    then (Returned tt,
          withUi (setSaveStatus
            {| textContent := "无法保存草稿，可能是存储空间已满。";
               className := "mt-2 text-right text-red-500" |}) w)
    else (Returned tt,
          withUi (setSaveStatus
            {| textContent := "本地草稿已保存于 " +:+ nowLocaleTime;
               className := "mt-2 text-right text-gray-500 text-sm" |})
            (withUi (setSaveStatus
               {| textContent := EmptyString;
                  className := "mt-2 text-right text-sm" |})
               (withDirty false (withStorage (insert key (StoredDraft d)) w)))).
Proof.
  intros Hp Hkey Hv Hd d.
  destruct (getDraftKey_Some _ _ _ Hkey) as [Ht _].
  unfold saveDraft, saveDraftToStorage. unfold_action.
  rewrite Hp, Hv, Ht, Hd, Hkey. subst d. simpl.
  destruct (quotaExceeded (localStorage w) key _); reflexivity.
Qed.

(** The flush always returns, and never touches the timer. *)
Lemma saveDraft_returns (w : World) :
  ∃ w', saveDraft w = (Returned tt, w') ∧ draftInterval w' = draftInterval w.
Proof.
  destruct (path (currentFile (state w))) as [p|] eqn:Hp;
    [|exists w; split; [apply saveDraft_idle; left; now rewrite Hp | reflexivity]].
  destruct (vditorInstance w) as [value|] eqn:Hv;
    [|exists w; split; [|reflexivity];
      unfold saveDraft; unfold_action; now rewrite Hp, Hv].
  destruct (isDirty w) eqn:Hd;
    [|exists w; split; [apply saveDraft_idle; now right | reflexivity]].
  destruct (Js.truthy p) eqn:Ht;
    [|exists w; split; [apply saveDraft_idle; left; now rewrite Hp | reflexivity]].
  assert (Hkey : getDraftKey (state w) (Some p)
                 = Some ("draft_" +:+ user (state w) +:+ "_"
                         +:+ repo (state w) +:+ "_" +:+ p)).
  { unfold getDraftKey. now rewrite Ht. }
  rewrite (saveDraft_dirty w p value _ Hp Hkey Hv Hd).
  destruct (quotaExceeded _ _ _); eexists; split; reflexivity.
Qed.

(** C4.  The flush leaves the state as it is when no file path is set or
    the file is not dirty.  Run on a dirty file, it stores under the
    file's key a draft whose six metadata fields are the values of the six
    inputs and whose body is the widget's text, leaves inputs, widget and
    session as they are and clears the dirty flag; when the storage
    refuses the write, the only change is the error shown on the status
    line.  In every state the flush returns without an exception and
    leaves the timer armed.  An expiry of the interval is that flush while
    the timer is armed, and nothing otherwise. *)
Theorem periodic_flush (w : World) :
  (isSet (path (currentFile (state w))) = false ∨ isDirty w = false →
   saveDraft w = (Returned tt, w))
  ∧ (∀ p value key,
       path (currentFile (state w)) = Some p →
       getDraftKey (state w) (Some p) = Some key →
       vditorInstance w = Some value →
       isDirty w = true →
       let d := {| draft_metadata := getEditorMetadata w; draft_body := value;
                   savedAt := nowISO |} in
       draft_metadata d
       = {| title := Some (meta_title (meta (ui w)));
            published := Some (meta_published (meta (ui w)));
            updated := Some (meta_updated (meta (ui w)));
            description := Some (meta_description (meta (ui w)));
            tags := TagsString (meta_tags (meta (ui w)));
            category := Some (meta_category (meta (ui w))) |}
       ∧ (quotaExceeded (localStorage w) key (StoredDraft d) = false →
          ∃ w', saveDraft w = (Returned tt, w')
                ∧ localStorage w' = <[key := StoredDraft d]> (localStorage w)
                ∧ draft_metadata d = getEditorMetadata w'
                ∧ Some (draft_body d) = vditorInstance w'
                ∧ isDirty w' = false
                ∧ meta (ui w') = meta (ui w)
                ∧ vditorInstance w' = vditorInstance w
                ∧ state w' = state w)
       ∧ (quotaExceeded (localStorage w) key (StoredDraft d) = true →
          saveDraft w =
            (Returned tt,
             withUi (setSaveStatus
               {| textContent := "无法保存草稿，可能是存储空间已满。";
                  className := "mt-2 text-right text-red-500" |}) w)))
  ∧ (∃ w', saveDraft w = (Returned tt, w') ∧ draftInterval w' = draftInterval w)
  ∧ (∃ w', intervalElapsed w = (Returned tt, w') ∧ draftInterval w' = draftInterval w)
  ∧ (is_Some (draftInterval w) → intervalElapsed w = saveDraft w)
  ∧ (draftInterval w = None → intervalElapsed w = (Returned tt, w)).
Proof.
  pose proof (saveDraft_returns w) as Hflush.
  split; [apply saveDraft_idle|]. split; [|split; [exact Hflush|split; [|split]]].
  - intros p value key Hp Hkey Hv Hd d. split; [reflexivity|].
    rewrite (saveDraft_dirty w p value key Hp Hkey Hv Hd). fold d. split.
    + intros ->. eexists. split; [reflexivity|]. simpl. now rewrite Hv.
    + now intros ->.
  - unfold intervalElapsed. unfold_action.
    destruct (bool_decide (is_Some (draftInterval w))); [exact Hflush|].
    now exists w.
  - intros Harmed. unfold intervalElapsed. unfold_action.
    now rewrite bool_decide_eq_true_2 by exact Harmed.
  - intros Hnone. unfold intervalElapsed. unfold_action.
    rewrite bool_decide_eq_false_2; [reflexivity|].
    rewrite Hnone. now intros [? [=]].
Qed.

(** An edit of the body re-dirties an open file, whatever the flush left. *)
Lemma edit_redirties (w : World) (value : string) :
  isSet (path (currentFile (state w))) = true →
  is_Some (vditorInstance w) →
  ∃ w', inputBody value w = (Returned tt, w')
        ∧ vditorInstance w' = Some value
        ∧ isDirty w' = true.
Proof.
  intros Hp Hv. unfold inputBody, markAsDirty. unfold_action.
  rewrite bool_decide_eq_true_2 by exact Hv. simpl. rewrite Hp.
  destruct (isDirty w) eqn:Hd; simpl; eexists; (split; [reflexivity|]);
    simpl; auto.
Qed.

End FlushFacts.

(** ** Saving *)

Section SaveFacts.
Context `{Platform}.

(** C5.  Saving an existing file while no version token is held (the
    token is [null] or empty) ends on the failure branch before any
    request is sent: nothing is left in flight, the request log and the
    server are as before, and the only change is the error on the status
    line, which names the missing token whenever the widget exists. *)
Theorem save_without_token (w : World) (p : string) :
  path (currentFile (state w)) = Some p →
  Js.truthy p = true →
  isNew (currentFile (state w)) = false →
  isSet (sha (currentFile (state w))) = false →
  ∃ e w',
    handleSave_start w = (Returned None, w')
    ∧ handleSave w = (Returned tt, w')
    ∧ w' = withUi (setSaveStatus
              {| textContent := "保存失败: " +:+ e;
                 className := "mt-2 text-right text-red-500" |}) w
    ∧ requests w' = requests w
    ∧ remote w' = remote w
    ∧ (is_Some (vditorInstance w) → e = "更新文件缺少 SHA。请重新加载文件。").
Proof.
  intros Hp Ht Hnew Hsha.
  assert (Hstart : ∃ e,
    handleSave_start w =
      (Returned None,
       withUi (setSaveStatus
         {| textContent := "保存失败: " +:+ e;
            className := "mt-2 text-right text-red-500" |}) w)
    ∧ (is_Some (vditorInstance w) → e = "更新文件缺少 SHA。请重新加载文件。")).
  { unfold handleSave_start, saveFailed, showSaveStatus. unfold_action.
    rewrite Hp, Ht, Hnew.
    destruct (vditorInstance w) as [value|] eqn:Hv.
    - exists "更新文件缺少 SHA。请重新加载文件。". split; [|reflexivity].
      destruct (sha (currentFile (state w))) as [s|]; [|reflexivity].
      simpl in Hsha. now rewrite Hsha.
    - eexists. split; [reflexivity|]. now intros [? [=]]. }
  destruct Hstart as (e & Hstart & He).
  exists e. eexists. split; [exact Hstart|].
  split; [|split; [reflexivity | split; [reflexivity | split; [reflexivity | exact He]]]].
  unfold handleSave. unfold_action. now rewrite Hstart.
Qed.

End SaveFacts.

(** ** Draft keys *)

Section KeyFacts.
Context `{Platform}.

(** Two texts cut at the first occurrence of a code unit agree part by
    part. *)
Lemma char_cut (c : ascii) (a b x y : string) :
  Js.includes (String c EmptyString) a = false →
  Js.includes (String c EmptyString) b = false →
  a +:+ String c x = b +:+ String c y → a = b ∧ x = y.
Proof.
  revert b. induction a as [|c1 a IH]; intros [|c2 b] Ha Hb Heq.
  - simpl in Heq. now inversion Heq.
  - simpl in Heq. inversion Heq; subst. simpl in Hb.
    now rewrite Ascii.eqb_refl in Hb.
  - simpl in Heq. inversion Heq; subst. simpl in Ha.
    now rewrite Ascii.eqb_refl in Ha.
  - simpl in Heq. inversion Heq; subst.
    apply includes_cons in Ha as [_ Ha]. apply includes_cons in Hb as [_ Hb].
    destruct (IH b Ha Hb) as [-> ->]; [assumption | now split].
Qed.

Lemma underscore_cut (a b x y : string) :
  Js.includes "_" a = false → Js.includes "_" b = false →
  a +:+ "_" +:+ x = b +:+ "_" +:+ y → a = b ∧ x = y.
Proof. apply (char_cut "_"). Qed.

Lemma getDraftKey_injective (st1 st2 : EditorState) (p1 p2 k : string) :
  Js.includes "_" (user st1) = false → Js.includes "_" (repo st1) = false →
  Js.includes "_" (user st2) = false → Js.includes "_" (repo st2) = false →
  getDraftKey st1 (Some p1) = Some k →
  getDraftKey st2 (Some p2) = Some k →
  user st1 = user st2 ∧ repo st1 = repo st2 ∧ p1 = p2.
Proof.
  intros Hu1 Hr1 Hu2 Hr2 Hk1 Hk2.
  apply getDraftKey_Some in Hk1 as [_ ->].
  apply getDraftKey_Some in Hk2 as [_ Hk].
  change ("draft_" +:+ ?x) with (String "d" (String "r" (String "a" (String "f"
    (String "t" (String "_" x)))))) in Hk.
  injection Hk as Hk.
  destruct (underscore_cut (user st1) (user st2)
              (repo st1 +:+ "_" +:+ p1) (repo st2 +:+ "_" +:+ p2) Hu1 Hu2 Hk)
    as [Hu Hrest].
  destruct (underscore_cut _ _ _ _ Hr1 Hr2 Hrest) as [Hr Hp].
  now rewrite Hu, Hr, Hp.
Qed.

Lemma includes_char_app (c : ascii) (a b : string) :
  Js.includes (String c EmptyString) (a +:+ b)
  = Js.includes (String c EmptyString) a || Js.includes (String c EmptyString) b.
Proof.
  induction a as [|c1 a IH].
  - simpl. destruct b; reflexivity.
  - change (String c1 a +:+ b) with (String c1 (a +:+ b)).
    simpl. rewrite IH. now rewrite !andb_true_r, orb_assoc.
Qed.

Lemma append_cancel_r (a b s : string) : a +:+ s = b +:+ s → a = b.
Proof.
  revert b. induction a as [|c a IH]; intros [|c' b] Heq.
  - reflexivity.
  - apply (f_equal String.length) in Heq. simpl in Heq.
    rewrite length_append in Heq. lia.
  - apply (f_equal String.length) in Heq. simpl in Heq.
    rewrite length_append in Heq. lia.
  - simpl in Heq. inversion Heq; subst. f_equal. now apply IH.
Qed.

(** For account names without an underscore, repository names without a
    slash and paths under [src/content/posts/], the only ones the editor
    opens, the key also determines the triple, whatever underscores the
    repository name has. *)
Lemma getDraftKey_injective_posts (st1 st2 : EditorState) (f1 f2 k : string) :
  Js.includes "_" (user st1) = false → Js.includes "_" (user st2) = false →
  Js.includes "/" (repo st1) = false → Js.includes "/" (repo st2) = false →
  getDraftKey st1 (Some ("src/content/posts/" +:+ f1)) = Some k →
  getDraftKey st2 (Some ("src/content/posts/" +:+ f2)) = Some k →
  user st1 = user st2 ∧ repo st1 = repo st2 ∧ f1 = f2.
Proof.
  intros Hu1 Hu2 Hr1 Hr2 Hk1 Hk2.
  apply getDraftKey_Some in Hk1 as [_ ->].
  apply getDraftKey_Some in Hk2 as [_ Hk].
  change ("draft_" +:+ ?x) with (String "d" (String "r" (String "a" (String "f"
    (String "t" (String "_" x)))))) in Hk.
  injection Hk as Hk.
  destruct (underscore_cut (user st1) (user st2)
              (repo st1 +:+ "_" +:+ "src/content/posts/" +:+ f1)
              (repo st2 +:+ "_" +:+ "src/content/posts/" +:+ f2) Hu1 Hu2 Hk)
    as [Hu Hrest].
  assert (Hshape : ∀ r f, r +:+ "_" +:+ "src/content/posts/" +:+ f
                          = (r +:+ "_src") +:+ String "/" ("content/posts/" +:+ f)).
  { intros r f. now rewrite append_assoc. }
  rewrite !Hshape in Hrest.
  apply char_cut in Hrest as [Hr Hf].
  - apply append_cancel_r in Hr. injection Hf as Hf.
    repeat split; congruence.
  - rewrite includes_char_app. now rewrite Hr1.
  - rewrite includes_char_app. now rewrite Hr2.
Qed.

(** C6, as the code has it.  The key is ["draft_" + account + "_" +
    repository + "_" + path].  When neither account nor repository names
    contain an underscore, two triples with the same key are the same
    triple, and a draft saved under one account or repository does not
    change what a session under another one loads. *)
Theorem draft_key_isolation (st1 st2 : EditorState) (p1 p2 : string) :
  Js.includes "_" (user st1) = false → Js.includes "_" (repo st1) = false →
  Js.includes "_" (user st2) = false → Js.includes "_" (repo st2) = false →
  (∀ k, getDraftKey st1 (Some p1) = Some k → getDraftKey st2 (Some p2) = Some k →
        user st1 = user st2 ∧ repo st1 = repo st2 ∧ p1 = p2)
  ∧ (∀ (w : World) m b,
       (user st1, repo st1) ≠ (user st2, repo st2) →
       fst (loadDraftFromStorage st2 p2 (snd (saveDraftToStorage st1 p1 m b w)))
       = fst (loadDraftFromStorage st2 p2 w)).
Proof.
  intros Hu1 Hr1 Hu2 Hr2. split.
  - intros k. now apply getDraftKey_injective.
  - intros w m b Hne.
    unfold saveDraftToStorage, loadDraftFromStorage.
    destruct (getDraftKey st2 (Some p2)) as [k2|] eqn:Hk2;
      [|destruct (getDraftKey st1 (Some p1)); reflexivity].
    destruct (getDraftKey st1 (Some p1)) as [k1|] eqn:Hk1; [|reflexivity].
    unfold_action.
    destruct (quotaExceeded _ _ _); [reflexivity|]. simpl.
    rewrite lookup_insert_ne.
    { destruct (localStorage w !! k2) as [[d|s]|]; [|destruct (Js.truthy s)|];
        reflexivity. }
    intros ->.
    destruct (getDraftKey_injective st1 st2 p1 p2 k2) as (Hu & Hr & _); try assumption.
    apply Hne. now rewrite Hu, Hr.
Qed.

End KeyFacts.

(** ** Handlers and their continuations *)

Section HandlerFacts.
Context `{Platform}.

Lemma tryCatch_returns {A} (body : Action A) (handler : string → Action A) :
  (∀ e v, ∃ a v', handler e v = (Returned a, v')) →
  ∀ w, ∃ a w', tryCatch body handler w = (Returned a, w').
Proof.
  intros Hh w. unfold tryCatch.
  destruct (body w) as [[a|e] w1]; [now exists a, w1 | apply Hh].
Qed.

Lemma saveFailed_returns {A} (a : A) (e : string) (v : World) :
  ∃ a' v', saveFailed a e v = (Returned a', v').
Proof. unfold saveFailed, showSaveStatus. unfold_action. eauto. Qed.

Lemma refreshFileList_resume_returns (res : FetchResult) (w : World) :
  ∃ w', refreshFileList_resume res w = (Returned tt, w').
Proof.
  destruct (tryCatch_returns
              (files ← githubApiResponse res; renderFileList files)
              (λ _, showSaveStatus "无法刷新文件列表。" true)) with (w := w)
    as ([] & w' & Hw').
  - intros e v. unfold showSaveStatus, modify. eauto.
  - now exists w'.
Qed.

(** Every failure is caught at the action boundary: the part of a handler
    that runs after an [await] never ends in an exception, and what it
    leaves suspended has fewer [await]s ahead. *)
Lemma resume_returns (k : Suspended) (w : World) :
  ∃ k' w', resume k w = (Returned k', w') ∧ awaitsLeft k' < awaitsLeft (Some k).
Proof.
  destruct k as [res|res|result res|res|p res|res]; unfold resume.
  - unfold handleFileClick_resume.
    match goal with |- context [tryCatch ?b ?h] =>
      destruct (tryCatch_returns b h) with (w := w) as ([] & w' & Hw') end.
    + intros e v. unfold showSaveStatus, resetEditorState. unfold_action. eauto.
    + exists None, w'. unfold_action. rewrite Hw'. split; [reflexivity | simpl; lia].
  - unfold tryCatch, saveFailed, showSaveStatus, getFiles, githubApiRequest.
    unfold_action.
    destruct (githubApiResponse res w) as [[j|e] w1]; simpl.
    + destruct (fetch _ _). simpl. eexists _, _. split; [reflexivity | simpl; lia].
    + eexists _, _. split; [reflexivity | simpl; lia].
  - destruct (refreshFileList_resume_returns res w) as [w1 Hw1].
    unfold_action. rewrite Hw1.
    destruct (handleSave_finish result w1) as [[[]|e] w2]; simpl.
    + exists None, w2. split; [reflexivity | simpl; lia].
    + unfold saveFailed, showSaveStatus. unfold_action.
      eexists _, _. split; [reflexivity | simpl; lia].
  - unfold tryCatch, saveFailed, showSaveStatus. unfold_action.
    destruct (githubApiResponse res w) as [[j|e] w1]; simpl.
    + destruct (handleSave_finish j w1) as [[[]|e] w2]; simpl;
        eexists _, _; (split; [reflexivity | simpl; lia]).
    + eexists _, _. split; [reflexivity | simpl; lia].
  - unfold tryCatch, showSaveStatus, clearDraft, clearDraftFromStorage,
      resetEditorState, getFiles, githubApiRequest.
    unfold_action.
    destruct (githubApiResponse res w) as [[j|e] w1]; simpl.
    + destruct (Js.truthy p); simpl;
        match goal with |- context [bool_decide ?P] => destruct (bool_decide P) end;
        simpl; destruct (fetch _ _); simpl;
        eexists _, _; (split; [reflexivity | simpl; lia]).
    + eexists _, _. split; [reflexivity | simpl; lia].
  - destruct (refreshFileList_resume_returns res w) as [w1 Hw1].
    unfold_action. rewrite Hw1. exists None, w1. split; [reflexivity | simpl; lia].
Qed.

(** The fuel given to [settle] in [handleFileClick], [handleSave] and
    [handleDeleteButtonClick] lets the handler run to its end: more fuel
    changes nothing. *)
Lemma settle_enough (n m : nat) (k : option Suspended) (w : World) :
  awaitsLeft k ≤ n → n ≤ m → settle n k w = settle m k w.
Proof.
  revert m k w. induction n as [|n IH]; intros m k w Hk Hm.
  - destruct k as [s|]; [|now destruct m].
    destruct s; simpl in Hk; lia.
  - destruct k as [s|]; [|now destruct m].
    destruct m as [|m]; [lia|]. simpl. unfold_action.
    destruct (resume_returns s w) as (k' & w' & Hrun & Hless).
    rewrite Hrun. apply IH; [|lia].
    destruct s; simpl in *; lia.
Qed.

(** The tail of [handleSave] reads the active file when it runs, not when
    the save was started: the token it received becomes the token of
    whatever path is active, the draft under that path's key is deleted
    and the flag is cleared. *)
Lemma save_result_applied_to_active_file
    (w : World) (res : FetchResult) (s q key : string) :
  githubApiResponse res w = (Returned (JsonCommit s), w) →
  path (currentFile (state w)) = Some q →
  getDraftKey (state w) (Some q) = Some key →
  ∃ w', resume (AwaitUpdateFile res) w = (Returned None, w')
        ∧ currentFile (state w') = {| path := Some q; sha := Some s; isNew := false |}
        ∧ localStorage w' = delete key (localStorage w)
        ∧ isDirty w' = false.
Proof.
  intros Hres Hq Hkey.
  destruct (getDraftKey_Some _ _ _ Hkey) as [Ht ->].
  unfold resume, handleSave_finish, clearDraft, clearDraftFromStorage,
    markAsClean, showSaveStatus.
  unfold_action. rewrite Hres. simpl. rewrite Hq. simpl. rewrite Ht. simpl.
  eexists. split; [reflexivity|]. simpl.
  unfold setIsNew, setSha. simpl. now rewrite Hq.
Qed.

(** With a token held, the same save does send the update. *)
Lemma save_with_token_sends (w : World) (p s value : string) :
  path (currentFile (state w)) = Some p →
  Js.truthy p = true →
  isNew (currentFile (state w)) = false →
  sha (currentFile (state w)) = Some s →
  Js.truthy s = true →
  vditorInstance w = Some value →
  ∃ res w' req,
    handleSave_start w = (Returned (Some (AwaitUpdateFile res)), w')
    ∧ requests w' = requests w ++ [req]
    ∧ req_method req = PUT
    ∧ req_url req = apiUrl (state w) ("contents/" +:+ p)
    ∧ (payload_sha <$> req_body req) = Some (Some s).
Proof.
  intros Hp Ht Hnew Hs Hts Hv.
  unfold handleSave_start, updateFile, githubApiRequest. unfold_action.
  rewrite Hp, Ht, Hnew, Hs, Hts, Hv. simpl.
  destruct (fetch _ _) as [r' res]. simpl.
  eexists _, _, _. split; [reflexivity|]. simpl. tauto.
Qed.

End HandlerFacts.

(** ** Leaving a file *)

Section UnloadFacts.
Context `{Platform}.

Lemma resetEditorState_run (w : World) :
  resetEditorState w =
    (Returned tt,
     withState (setCurrentFile {| path := None; sha := None; isNew := false |})
               (withUi (showEditor false) w)).
Proof. reflexivity. Qed.

Lemma markAsDirty_unloaded (w : World) :
  isSet (path (currentFile (state w))) = false →
  markAsDirty w = (Returned tt, w).
Proof.
  intros Hp. unfold markAsDirty. unfold_action.
  now rewrite Hp, andb_false_r.
Qed.

(** C8, as the code has it.  [resetEditorState], and with it logout and the
    deletion of the active file, sets the active path to [null] and leaves
    the dirty flag as it was; a click that selects no file leaves the flag
    as the preceding flush left it.  While no path is set the flag is
    inert: neither the flush nor [markAsDirty] changes anything. *)
Theorem dirty_flag_on_unload (w : World) :
  (path (currentFile (state (snd (resetEditorState w)))) = None
   ∧ isDirty (snd (resetEditorState w)) = isDirty w)
  ∧ (path (currentFile (state (snd (logout w)))) = None
     ∧ isDirty (snd (logout w)) = isDirty w)
  ∧ (∀ p res j,
       path (currentFile (state w)) = Some p →
       githubApiResponse res w = (Returned j, w) →
       ∃ k w', resume (AwaitDeleteFile p res) w = (Returned (Some k), w')
               ∧ path (currentFile (state w')) = None
               ∧ isDirty w' = isDirty w)
  ∧ (∀ t,
       isSet (dataset_path t) = false →
       ∃ w', handleFileClick (Some t) w = (Returned tt, w')
             ∧ path (currentFile (state w')) = None
             ∧ isDirty w' = isDirty (snd (saveDraft w)))
  ∧ (isSet (path (currentFile (state w))) = false →
     saveDraft w = (Returned tt, w) ∧ markAsDirty w = (Returned tt, w)).
Proof.
  split; [now split|]. split; [now split|]. split; [|split].
  - intros p res j Hp Hres.
    unfold resume, showSaveStatus, clearDraft,
      clearDraftFromStorage, resetEditorState, getFiles, githubApiRequest.
    unfold_action. rewrite Hres. simpl.
    destruct (Js.truthy p); simpl;
      rewrite Hp, bool_decide_eq_true_2 by reflexivity; simpl;
      destruct (fetch _ _); simpl; eexists _, _; (split; [reflexivity|]);
      now split.
  - intros t Ht.
    destruct (saveDraft_returns w) as (w1 & Hw1 & _).
    unfold handleFileClick, handleFileClick_start. unfold_action.
    rewrite Hw1. simpl.
    assert (Hsel : match dataset_path t with
                   | Some s => if Js.truthy s then Some s else None
                   | None => None
                   end = None).
    { destruct (dataset_path t) as [s|]; [|reflexivity].
      simpl in Ht. now rewrite Ht. }
    rewrite Hsel. simpl. eexists. split; [reflexivity|]. now split.
  - intros Hp. split; [apply saveDraft_idle; now left|].
    now apply markAsDirty_unloaded.
Qed.

End UnloadFacts.

(** ** Opening a file *)

Section PopulateFacts.
Context `{Platform}.

Lemma dateInputValue_run (x : option string) (d : string) (w : World) :
  dateShown x = Some d → dateInputValue x w = (Returned d, w).
Proof.
  unfold dateShown, dateInputValue.
  destruct x as [s|]; [destruct (Js.truthy s); [destruct (isoDay s)|]|];
    intros [= <-]; reflexivity.
Qed.

Lemma vditor_setValue_run (b : string) (w : World) :
  vditor_setValue b w =
    if setValue_fires_input then markAsDirty (withVditor (Some b) w)
    else (Returned tt, withVditor (Some b) w).
Proof.
  unfold vditor_setValue. unfold_action. now destruct setValue_fires_input.
Qed.

Lemma markAsDirty_returns (w : World) :
  ∃ w', markAsDirty w = (Returned tt, w')
        ∧ state w' = state w ∧ vditorInstance w' = vditorInstance w
        ∧ meta (ui w') = meta (ui w) ∧ localStorage w' = localStorage w
        ∧ confirms w' = confirms w ∧ requests w' = requests w
        ∧ isDirty w' = isDirty w || isSet (path (currentFile (state w))).
Proof.
  unfold markAsDirty. unfold_action.
  destruct (isDirty w) eqn:Hd; simpl.
  - exists w. now rewrite Hd.
  - destruct (isSet _) eqn:Hp; simpl; eexists; (split; [reflexivity|]);
      simpl; rewrite ?Hd; tauto.
Qed.

(** [populateEditor] with well-formed dates: the six inputs are set, then
    the widget, when it exists, is given the body. *)
Lemma populateEditor_run (m : Metadata) (b : string) (shown : MetaInputs) (w : World) :
  inputsFor m = Some shown →
  populateEditor m b w =
    match vditorInstance w with
    | Some _ => vditor_setValue b (withUi (setMeta shown) w)
    | None => (Returned tt, withUi (setMeta shown) w)
    end.
Proof.
  unfold inputsFor. intros Hshown.
  destruct (dateShown (published m)) as [p|] eqn:Hp; [|discriminate].
  destruct (dateShown (updated m)) as [u|] eqn:Hu; [|discriminate].
  injection Hshown as <-.
  unfold populateEditor, setMetaInput. unfold_action. simpl.
  rewrite (dateInputValue_run _ _ _ Hp). simpl.
  rewrite (dateInputValue_run _ _ _ Hu). simpl.
  destruct (vditorInstance w); reflexivity.
Qed.

(** Whatever the dates, [populateEditor] shows no prompt. *)
Lemma populateEditor_confirms (m : Metadata) (b : string) (w : World) :
  confirms (snd (populateEditor m b w)) = confirms w.
Proof.
  unfold populateEditor, setMetaInput, dateInputValue, vditor_setValue, markAsDirty.
  unfold_action. simpl.
  destruct (published m) as [s|]; [destruct (Js.truthy s); [destruct (isoDay s)|]|];
    simpl; try reflexivity;
    (destruct (updated m) as [s'|];
       [destruct (Js.truthy s'); [destruct (isoDay s')|]|]);
    simpl; try reflexivity;
    destruct (vditorInstance w); simpl; try reflexivity;
    destruct setValue_fires_input; simpl; try reflexivity;
    destruct (isDirty w); simpl; try reflexivity;
    destruct (isSet _); reflexivity.
Qed.

End PopulateFacts.

Section DivergenceFacts.
Context `{Platform}.

#[local] Arguments createFullMarkdown : simpl never.
#[local] Arguments Js.trim : simpl never.
#[local] Arguments String.eqb : simpl never.
#[local] Arguments draftPrompt : simpl never.

Variables (p key : string) (oc : ParsedContent) (w : World).
Hypothesis Hkey : getDraftKey (state w) (Some p) = Some key.

Lemma loadDraft_returns : ∃ w', loadDraft p oc w = (Returned tt, w').
Proof.
  unfold loadDraft, tryCatch.
  match goal with |- context [match ?body w with _ => _ end] =>
    destruct (body w) as [[[]|e] w1] end.
  - now exists w1.
  - unfold showSaveStatus, modify. eexists. reflexivity.
Qed.

Lemma loadDraft_absent :
  localStorage w !! key = None → loadDraft p oc w = (Returned tt, w).
Proof.
  intros Hnone. unfold loadDraft, loadDraftFromStorage. unfold_action.
  now rewrite Hkey, Hnone.
Qed.

Lemma loadDraft_same (d : Draft) :
  localStorage w !! key = Some (StoredDraft d) →
  sameText oc d = true →
  loadDraft p oc w = (Returned tt, withStorage (delete key) w).
Proof.
  intros Hd Hsame. unfold sameText in Hsame.
  unfold loadDraft, loadDraftFromStorage, clearDraft, clearDraftFromStorage.
  unfold_action. rewrite Hkey, Hd, Hsame. cbv beta. now rewrite Hkey.
Qed.

Lemma loadDraft_declined (d : Draft) :
  localStorage w !! key = Some (StoredDraft d) →
  sameText oc d = false →
  confirm_answer (draftPrompt d) = false →
  loadDraft p oc w
  = (Returned tt, withStorage (delete key) (withConfirm (draftPrompt d) w)).
Proof.
  intros Hd Hsame Hno. unfold sameText in Hsame.
  unfold loadDraft, loadDraftFromStorage, clearDraft, clearDraftFromStorage, confirm.
  unfold_action. rewrite Hkey, Hd, Hsame, Hno. cbv beta iota.
  change (state (withConfirm (draftPrompt d) w)) with (state w).
  now rewrite Hkey.
Qed.

Lemma loadDraft_accepted (d : Draft) (shown : MetaInputs) (value : string) :
  localStorage w !! key = Some (StoredDraft d) →
  sameText oc d = false →
  confirm_answer (draftPrompt d) = true →
  inputsFor (draft_metadata d) = Some shown →
  vditorInstance w = Some value →
  ∃ w', loadDraft p oc w = (Returned tt, w')
        ∧ confirms w' = confirms w ++ [draftPrompt d]
        ∧ meta (ui w') = shown
        ∧ vditorInstance w' = Some (draft_body d)
        ∧ localStorage w' = localStorage w
        ∧ state w' = state w
        ∧ requests w' = requests w
        ∧ isDirty w' = isDirty w
                       || (setValue_fires_input
                           && isSet (path (currentFile (state w)))).
Proof.
  intros Hd Hsame Hyes Hshown Hv. unfold sameText in Hsame.
  unfold loadDraft, loadDraftFromStorage, confirm.
  unfold_action. rewrite Hkey, Hd, Hsame, Hyes. simpl.
  rewrite (populateEditor_run _ _ _ _ Hshown). simpl. rewrite Hv.
  rewrite vditor_setValue_run.
  destruct setValue_fires_input.
  - match goal with |- context [markAsDirty ?x] =>
      destruct (markAsDirty_returns x)
        as (w1 & -> & Hst & Hvd & Hmeta & Hls & Hcf & Hrq & Hdirty) end.
    unfold showSaveStatus, modify. eexists. split; [reflexivity|]. simpl.
    rewrite Hst, Hvd, Hmeta, Hls, Hcf, Hrq, Hdirty. simpl. tauto.
  - unfold showSaveStatus, modify. eexists. split; [reflexivity|]. simpl.
    rewrite orb_false_r. tauto.
Qed.

End DivergenceFacts.

Section OpenFacts.
Context `{Platform}.

#[local] Arguments createFullMarkdown : simpl never.
#[local] Arguments parseContent : simpl never.
#[local] Arguments Js.trim : simpl never.
#[local] Arguments String.eqb : simpl never.
#[local] Arguments draftPrompt : simpl never.
#[local] Arguments remoteInputs : simpl never.

(** The remote read has completed with the file [content], [token]; the
    active path is [p], its draft key is [key], the widget exists and the
    dates of the remote file are well-formed. *)
Variables (w : World) (r : Response) (content token p key value : string).
Variable shown : MetaInputs.
Let oc : ParsedContent := parseContent (base64_decode content).

Hypothesis Hok : resp_ok r = true.
Hypothesis Hstatus : resp_status r ≠ 204.
Hypothesis Hjson : resp_json r = Some (JsonFile content token).
Hypothesis Hpath : path (currentFile (state w)) = Some p.
Hypothesis Hkey : getDraftKey (state w) (Some p) = Some key.
Hypothesis Hwidget : vditorInstance w = Some value.
Hypothesis Hshown : inputsFor (metadata oc) = Some shown.

Let w0 : World := remoteLoaded token (remoteInputs (metadata oc) shown) (body oc) w.

Lemma remoteLoaded_key : getDraftKey (state w0) (Some p) = Some key.
Proof. exact Hkey. Qed.

(** After the remote read, [handleFileClick] shows the remote content,
    marks the file clean and runs the divergence check. *)
Lemma handleFileClick_resume_run :
  handleFileClick_resume (Responded r) w = loadDraft p oc w0.
Proof.
  destruct (loadDraft_returns p oc w0) as [w' Hw'].
  rewrite Hw'. revert Hw'. subst w0. unfold remoteLoaded, remoteInputs.
  unfold handleFileClick_resume, githubApiResponse, fileContentOf.
  unfold_action. rewrite Hok.
  apply Nat.eqb_neq in Hstatus. rewrite Hstatus, Hjson. simpl.
  fold oc. rewrite (populateEditor_run _ _ _ _ Hshown). simpl.
  rewrite Hwidget, vditor_setValue_run.
  unfold markAsDirty, setTodaysDate, setMetaInput, markAsClean. unfold_action.
  assert (Htruthy : isSet (path (currentFile (state w))) = true).
  { rewrite Hpath. now destruct (getDraftKey_Some _ _ _ Hkey). }
  destruct setValue_fires_input; simpl;
    [destruct (isDirty w); simpl; rewrite ?Htruthy; simpl|];
    destruct (Js.truthy (Js.orElse (published (metadata oc)) EmptyString)); simpl;
    rewrite Hpath; intros Hw';
    match type of Hw' with
    | loadDraft _ _ ?W0 = _ =>
        match goal with
        | |- context [loadDraft p oc ?W] => change W with W0
        end
    end;
    now rewrite Hw'.
Qed.

Lemma loadDraft_prompts_once (d : Draft) (v : World) :
  getDraftKey (state v) (Some p) = Some key →
  localStorage v !! key = Some (StoredDraft d) →
  sameText oc d = false →
  confirms (snd (loadDraft p oc v)) = confirms v ++ [draftPrompt d].
Proof.
  intros Hk Hd Hsame. unfold sameText in Hsame.
  unfold loadDraft, loadDraftFromStorage, confirm, clearDraft, clearDraftFromStorage.
  unfold_action. rewrite Hk, Hd, Hsame. cbv beta iota.
  destruct (confirm_answer (draftPrompt d)).
  - pose proof (populateEditor_confirms (draft_metadata d) (draft_body d)
                  (withConfirm (draftPrompt d) v)) as Hc.
    destruct (populateEditor _ _ _) as [[[]|e] v1]; exact Hc.
  - change (state (withConfirm (draftPrompt d) v)) with (state v).
    now rewrite Hk.
Qed.

(** C2, as the code has it.  When the remote read of the opened file has
    succeeded and either no draft is stored under the file's key or the
    stored draft serializes to the same trimmed text as the remote content,
    no prompt is shown, no draft remains under the key, the flag is clean
    and the editor shows the remote content, with today's date in both date
    inputs when the remote file has no [published] date. *)
Theorem open_without_divergence :
  (localStorage w !! key = None
   ∨ ∃ d, localStorage w !! key = Some (StoredDraft d) ∧ sameText oc d = true) →
  ∃ w', handleFileClick_resume (Responded r) w = (Returned tt, w')
        ∧ confirms w' = confirms w
        ∧ meta (ui w') = remoteInputs (metadata oc) shown
        ∧ vditorInstance w' = Some (body oc)
        ∧ localStorage w' = delete key (localStorage w)
        ∧ isDirty w' = false.
Proof.
  rewrite handleFileClick_resume_run.
  intros [Hnone | (d & Hd & Hsame)].
  - rewrite (loadDraft_absent p key oc w0 remoteLoaded_key) by exact Hnone.
    exists w0. repeat split. simpl. symmetry. now apply delete_id.
  - rewrite (loadDraft_same p key oc w0 remoteLoaded_key d Hd Hsame).
    eexists. repeat split.
Qed.

(** C1, as the code has it.  When the remote read of the opened file has
    succeeded and the draft stored under the file's key serializes to a
    different trimmed text, exactly one prompt is shown and it carries the
    draft's save time.  If the user declines, the draft is deleted, the
    flag is clean and the editor shows the remote content, with today's
    date in both date inputs when the remote file has no [published] date.
    If the user accepts and the draft's dates are well-formed, the editor
    shows the draft's metadata and body and the draft stays in the store. *)
Theorem open_with_divergent_draft (d : Draft) :
  localStorage w !! key = Some (StoredDraft d) →
  sameText oc d = false →
  ∃ w', handleFileClick_resume (Responded r) w = (Returned tt, w')
        ∧ confirms w' = confirms w ++ [draftPrompt d]
        ∧ Js.includes (toLocaleString (savedAt d)) (draftPrompt d) = true
        ∧ (confirm_answer (draftPrompt d) = false →
           localStorage w' = delete key (localStorage w)
           ∧ meta (ui w') = remoteInputs (metadata oc) shown
           ∧ vditorInstance w' = Some (body oc)
           ∧ isDirty w' = false)
        ∧ (confirm_answer (draftPrompt d) = true →
           ∀ fromDraft, inputsFor (draft_metadata d) = Some fromDraft →
             meta (ui w') = fromDraft
             ∧ vditorInstance w' = Some (draft_body d)
             ∧ localStorage w' = localStorage w).
Proof.
  intros Hd Hsame. rewrite handleFileClick_resume_run.
  destruct (loadDraft_returns p oc w0) as [w' Hw'].
  exists w'. split; [exact Hw'|]. split; [|split; [|split]].
  - pose proof (loadDraft_prompts_once d w0 remoteLoaded_key Hd Hsame) as Hc.
    now rewrite Hw' in Hc.
  - apply includes_middle.
  - intros Hno.
    rewrite (loadDraft_declined p key oc w0 remoteLoaded_key d Hd Hsame Hno) in Hw'.
    injection Hw' as <-. repeat split.
  - intros Hyes fromDraft Hfrom.
    destruct (loadDraft_accepted p key oc w0 remoteLoaded_key d fromDraft (body oc)
                Hd Hsame Hyes Hfrom eq_refl)
      as (w1 & Hw1 & _ & Hmeta & Hv & Hls & _).
    rewrite Hw1 in Hw'. injection Hw' as <-. now rewrite Hmeta, Hv, Hls.
Qed.

(** Whether an accepted draft leaves the file dirty is decided by the
    widget alone: [loadDraft] does not call [markAsDirty] itself. *)
Lemma accepted_draft_dirty_iff_widget_reports (d : Draft) (fromDraft : MetaInputs) :
  localStorage w !! key = Some (StoredDraft d) →
  sameText oc d = false →
  confirm_answer (draftPrompt d) = true →
  inputsFor (draft_metadata d) = Some fromDraft →
  isDirty (snd (handleFileClick_resume (Responded r) w)) = setValue_fires_input.
Proof.
  intros Hd Hsame Hyes Hfrom. rewrite handleFileClick_resume_run.
  destruct (loadDraft_accepted p key oc w0 remoteLoaded_key d fromDraft (body oc)
              Hd Hsame Hyes Hfrom eq_refl)
    as (w1 & -> & _ & _ & _ & _ & _ & _ & Hdirty).
  destruct (getDraftKey_Some _ _ _ Hkey) as [Ht _].
  simpl snd. rewrite Hdirty. subst w0. simpl. rewrite Hpath. simpl.
  rewrite Ht. apply andb_true_r.
Qed.

End OpenFacts.

(** ** Worked examples on the concrete platform *)

Import Scenario.

(** Side conditions on concrete inputs are settled by evaluation. *)
Ltac side_condition :=
  lazymatch goal with
  | |- ex _ => idtac
  | |- _ => try (vm_compute; reflexivity)
  end.

(** *** Codec *)

Example parse_spec_example :
  @parseContent P0 contentA
  = {| metadata := {| title := Some "Hello"; published := Some "2024-01-01";
                      updated := None; description := None; tags := TagsAbsent;
                      category := None |};
       body := "Body text" |}.
Proof. vm_compute. reflexivity. Qed.

(** C3 fails as stated: a body that begins with a space comes back without
    it. *)
Lemma body_whitespace_lost :
  body (@parseContent P0 (@createFullMarkdown P0 helloMeta " x")) = "x"
  ∧ body (@parseContent P0 (@createFullMarkdown P0 helloMeta " x")) ≠ " x".
Proof. split; [vm_compute; reflexivity | vm_compute; discriminate]. Qed.

(** The round trip also loses what the quote removal touches, although the
    reader reads the emitter's own output back as emitted: an empty
    [published] comes back absent and the tag [it's] comes back as [its]. *)
Lemma roundtrip_losses :
  body (@parseContent P0 (@createFullMarkdown P0 helloMeta " x")) ≠ " x"
  ∧ @yaml_load P0 (@yaml_dump P0 (cleanMeta quotedMeta))
    = YamlValue (Some (cleanMeta quotedMeta))
  ∧ Js.includes delimiter (@stringifyMetadata P0 quotedMeta) = false
  ∧ published (metadata (@parseContent P0 (@createFullMarkdown P0 quotedMeta "x")))
    = None
  ∧ published quotedMeta = Some EmptyString
  ∧ tags (metadata (@parseContent P0 (@createFullMarkdown P0 quotedMeta "x")))
    = TagsArray ["its"; "b"]
  ∧ normalizeTags (tags quotedMeta) = ["it's"; "b"].
Proof.
  split; [vm_compute; discriminate|].
  vm_compute. repeat split.
Qed.

Lemma parse_serialize_roundtrip_witness :
  Js.includes delimiter (@stringifyMetadata P0 plainMeta) = false
  ∧ keyLinesUnquoted (@yaml_dump P0 (cleanMeta plainMeta)) = true
  ∧ body (@parseContent P0 (@createFullMarkdown P0 plainMeta " x ")) = "x"
  ∧ title (metadata (@parseContent P0 (@createFullMarkdown P0 plainMeta " x ")))
    = Some "Hello"
  ∧ published (metadata (@parseContent P0 (@createFullMarkdown P0 plainMeta " x ")))
    = Some "spring 2024"
  ∧ tags (metadata (@parseContent P0 (@createFullMarkdown P0 plainMeta " x ")))
    = TagsArray ["a"; "b"; "c"]
  ∧ body (@parseContent P0 (@createFullMarkdown P0 helloMeta " x ")) = "x".
Proof.
  assert (Hno : Js.includes delimiter (@stringifyMetadata P0 plainMeta) = false)
    by (vm_compute; reflexivity).
  assert (Hq : keyLinesUnquoted (@yaml_dump P0 (cleanMeta plainMeta)) = true)
    by (vm_compute; reflexivity).
  destruct (@parse_serialize_roundtrip P0 plainMeta " x " Hno) as (_ & _ & Hround).
  destruct Hround as (Hb & Ht & Hp & _ & _ & _ & Htags);
    [exact Hq | vm_compute; reflexivity | vm_compute; reflexivity |].
  split; [exact Hno|]. split; [exact Hq|]. split; [exact Hb|].
  split; [exact Ht|]. split; [exact Hp|]. split; [exact Htags|].
  destruct (@parse_serialize_roundtrip P0 helloMeta " x ") as (Hbody & _);
    [vm_compute; reflexivity|].
  apply (Hbody (Some (cleanMeta helloMeta))). vm_compute. reflexivity.
Defined.

(** C10 fails as stated: with a title that contains ["---"] the tags do not
    come back. *)
Lemma tags_lost_after_delimiter :
  tags dashedMeta = TagsString "a, b , c"
  ∧ tags (metadata (@parseContent P0 (@createFullMarkdown P0 dashedMeta "body")))
    = TagsAbsent
  ∧ tags (metadata (@parseContent P0 (@createFullMarkdown P0 dashedMeta "body")))
    ≠ TagsArray ["a"; "b"; "c"].
Proof.
  split; [reflexivity|].
  split; [vm_compute; reflexivity | vm_compute; discriminate].
Qed.

Lemma tags_string_roundtrip_witness :
  tags helloMeta = TagsString "a, b , c"
  ∧ Js.includes delimiter (@stringifyMetadata P0 helloMeta) = false
  ∧ tags (metadata (@parseContent P0 (@createFullMarkdown P0 helloMeta "body")))
    = TagsArray ["a"; "b"; "c"].
Proof.
  assert (Hno : Js.includes delimiter (@stringifyMetadata P0 helloMeta) = false)
    by (vm_compute; reflexivity).
  split; [reflexivity|]. split; [exact Hno|].
  destruct (@tags_string_roundtrip P0 helloMeta "body" eq_refl) as [_ Hround].
  apply (Hround Hno (cleanMeta helloMeta)); [vm_compute; reflexivity | reflexivity].
Defined.

Lemma quote_stripping_confined_witness :
  isDateOrTagLine "description: 'it''s'" = false
  ∧ processLine "description: 'it''s'" = "description: 'it''s'"
  ∧ processLine "published: '2024-01-01'" = "published: 2024-01-01".
Proof.
  destruct (@quote_stripping_confined P0 helloMeta) as (_ & _ & Hother).
  split; [reflexivity|].
  split; [apply Hother; reflexivity | reflexivity].
Defined.

Example serialized_block :
  @stringifyMetadata P0 helloMeta
  = "title: Hello" +:+ LF +:+ "published: 2024-01-01" +:+ LF
    +:+ "updated: 2024-01-02" +:+ LF +:+ "description: 'it''s'" +:+ LF
    +:+ "tags: [a, b, c]" +:+ LF +:+ "category: notes".
Proof. vm_compute. reflexivity. Qed.

(** *** Opening a file *)

(** C2 fails as stated: file B has no [published] date, no draft is stored
    and no prompt is shown, yet the date inputs show today's date instead
    of the (empty) remote one. *)
Lemma open_shows_todays_date :
  localStorage start !! keyB = None
  ∧ confirms openedB = []
  ∧ published (metadata (@parseContent P0 contentB)) = None
  ∧ @inputsFor P0 (metadata (@parseContent P0 contentB)) = Some shownB
  ∧ meta_published (meta (ui openedB)) = "2026-11-02"
  ∧ meta (ui openedB) ≠ shownB.
Proof.
  repeat split; try (vm_compute; reflexivity).
  vm_compute. discriminate.
Qed.

Lemma open_without_divergence_witness :
  path (currentFile (state openingA)) = Some pathA
  ∧ localStorage openingA !! keyA = None
  ∧ ∃ w', handleFileClick_resume (Responded responseA) openingA = (Returned tt, w')
          ∧ confirms w' = []
          ∧ meta (ui w') = shownA
          ∧ vditorInstance w' = Some "Body text".
Proof.
  assert (Hpath : path (currentFile (state openingA)) = Some pathA)
    by (vm_compute; reflexivity).
  assert (Hnone : localStorage openingA !! keyA = None)
    by (vm_compute; reflexivity).
  split; [exact Hpath|]. split; [exact Hnone|].
  destruct (@open_without_divergence P0 openingA responseA contentA
              (Sample.tokenOf contentA) pathA keyA EmptyString shownA)
    as (w' & Hrun & Hc & Hmeta & Hv & _); side_condition.
  - vm_compute. discriminate.
  - left. exact Hnone.
  - exists w'. split; [exact Hrun|]. split; [exact Hc|].
    split; [rewrite Hmeta; vm_compute; reflexivity|].
    rewrite Hv. vm_compute. reflexivity.
Defined.

(** A stored draft with the same text as the remote file is dropped
    without a prompt. *)
Example identical_draft_discarded :
  is_Some (localStorage openingA_withCopy !! keyA)
  ∧ confirms (after (handleFileClick_resume (Responded responseA)) openingA_withCopy) = []
  ∧ localStorage (after (handleFileClick_resume (Responded responseA)) openingA_withCopy)
      !! keyA = None
  ∧ vditorInstance (after (handleFileClick_resume (Responded responseA)) openingA_withCopy)
    = Some "Body text".
Proof. split; [vm_compute; eauto|]. repeat split; vm_compute; reflexivity. Qed.

(** C1 fails as stated: the stored draft of file B differs from its remote
    content, the user is prompted once and declines, the draft is deleted,
    yet the date inputs show today's date instead of the (empty) remote
    one. *)
Lemma declined_draft_shows_todays_date :
  localStorage reopeningB !! keyB = Some (StoredDraft draftB)
  ∧ @sameText P0 (@parseContent P0 contentB) draftB = false
  ∧ confirms declinedB = [@draftPrompt P0 draftB]
  ∧ localStorage declinedB !! keyB = None
  ∧ @inputsFor P0 (metadata (@parseContent P0 contentB)) = Some shownB
  ∧ meta_published (meta (ui declinedB)) = "2026-11-02"
  ∧ meta (ui declinedB) ≠ shownB.
Proof.
  repeat split; try (vm_compute; reflexivity).
  vm_compute. discriminate.
Qed.

Lemma open_with_divergent_draft_witness :
  path (currentFile (state reopeningB)) = Some pathB
  ∧ localStorage reopeningB !! keyB = Some (StoredDraft draftB)
  ∧ @sameText P0 (@parseContent P0 contentB) draftB = false
  ∧ ∃ w', handleFileClick_resume (Responded responseB) reopeningB = (Returned tt, w')
          ∧ confirms w' = [@draftPrompt P0 draftB]
          ∧ localStorage w' !! keyB = None
          ∧ vditorInstance w' = Some "Second post".
Proof.
  assert (Hpath : path (currentFile (state reopeningB)) = Some pathB)
    by (vm_compute; reflexivity).
  assert (Hd : localStorage reopeningB !! keyB = Some (StoredDraft draftB))
    by (vm_compute; reflexivity).
  assert (Hdiff : @sameText P0 (@parseContent P0 contentB) draftB = false)
    by (vm_compute; reflexivity).
  split; [exact Hpath|]. split; [exact Hd|]. split; [exact Hdiff|].
  destruct (@open_with_divergent_draft P0 reopeningB responseB contentB
              (Sample.tokenOf contentB) pathB keyB "draft text" shownB)
    with (d := draftB)
    as (w' & Hrun & Hc & _ & Hno & _); side_condition.
  - vm_compute. discriminate.
  - destruct (Hno eq_refl) as (Hls & _ & Hv & _).
    exists w'. split; [exact Hrun|]. split; [exact Hc|].
    split; [rewrite Hls; apply lookup_delete_eq|].
    rewrite Hv. vm_compute. reflexivity.
Defined.

(** The accepted draft is shown, and the file is left clean when the widget
    does not report [setValue] as input. *)
Example accepted_draft_left_clean :
  confirms reopenedB_accepting = [@draftPrompt PYes draftB]
  ∧ vditorInstance reopenedB_accepting = Some "draft text"
  ∧ isDirty reopenedB_accepting = false.
Proof. repeat split; vm_compute; reflexivity. Qed.

(** *** Flush and save *)

Lemma periodic_flush_witness :
  path (currentFile (state editedA)) = Some pathA
  ∧ isDirty editedA = true
  ∧ meta (ui editedA) = shownA
  ∧ (∃ w', saveDraft editedA = (Returned tt, w')
           ∧ (∃ d, localStorage w' !! keyA = Some (StoredDraft d)
                   ∧ draft_body d = "edited A"
                   ∧ title (draft_metadata d) = Some "Hello"
                   ∧ published (draft_metadata d) = Some "2024-01-01"
                   ∧ tags (draft_metadata d) = TagsString EmptyString
                   ∧ draft_metadata d = getEditorMetadata w')
           ∧ isDirty w' = false)
  ∧ intervalElapsed editedA = saveDraft editedA.
Proof.
  assert (Hpath : path (currentFile (state editedA)) = Some pathA)
    by (vm_compute; reflexivity).
  assert (Hdirty : isDirty editedA = true) by (vm_compute; reflexivity).
  assert (Hshown : meta (ui editedA) = shownA) by (vm_compute; reflexivity).
  split; [exact Hpath|]. split; [exact Hdirty|]. split; [exact Hshown|].
  destruct (@periodic_flush P0 editedA) as (_ & Hrun & _ & _ & Htimer & _).
  split; [|apply Htimer; vm_compute; eauto].
  destruct (Hrun pathA "edited A" keyA Hpath) as (Hinputs & Hok & _);
    [vm_compute; reflexivity | vm_compute; reflexivity | exact Hdirty |].
  destruct (Hok eq_refl) as (w' & Hw' & Hls & Hmeta & Hbody & Hclean & _).
  exists w'. split; [exact Hw'|]. split; [|exact Hclean].
  eexists. split; [rewrite Hls; apply lookup_insert_eq|].
  split; [reflexivity|].
  split; [rewrite Hinputs, Hshown; reflexivity|].
  split; [rewrite Hinputs, Hshown; reflexivity|].
  split; [rewrite Hinputs, Hshown; reflexivity | exact Hmeta].
Defined.

Lemma save_without_token_witness :
  path (currentFile (state openingA)) = Some pathA
  ∧ sha (currentFile (state openingA)) = None
  ∧ ∃ w', handleSave openingA = (Returned tt, w')
          ∧ requests w' = requests openingA
          ∧ textContent (saveStatus (ui w'))
            = "保存失败: 更新文件缺少 SHA。请重新加载文件。".
Proof.
  assert (Hpath : path (currentFile (state openingA)) = Some pathA)
    by (vm_compute; reflexivity).
  assert (Hsha : sha (currentFile (state openingA)) = None)
    by (vm_compute; reflexivity).
  split; [exact Hpath|]. split; [exact Hsha|].
  destruct (@save_without_token P0 openingA pathA Hpath)
    as (e & w' & _ & Hrun & Hw' & Hreq & _ & He); side_condition.
  exists w'. split; [exact Hrun|]. split; [exact Hreq|].
  rewrite Hw', He; [reflexivity | vm_compute; eauto].
Defined.

(** C7 fails on the code.  A save of file A is in flight when the user
    opens file B, whose draft the timer then stores, and edits B again.
    When the result of the save arrives it is applied to B: B's token is
    replaced by the new token of A, B's draft is deleted and B is marked
    clean, while the draft of A stays in the store. *)
Theorem save_result_after_navigation :
  (∃ res, inFlight = Some (AwaitUpdateFile res))
  ∧ (req_url <$> last (requests (snd savingA))) = Some (urlOf pathA)
  ∧ path (currentFile (state movedOn)) = Some pathB
  ∧ sha (currentFile (state movedOn)) = Some (Sample.tokenOf contentB)
  ∧ is_Some (localStorage movedOn !! keyB)
  ∧ isDirty movedOn = true
  ∧ path (currentFile (state delivered)) = Some pathB
  ∧ sha (currentFile (state delivered)) ≠ Some (Sample.tokenOf contentB)
  ∧ localStorage delivered !! keyB = None
  ∧ is_Some (localStorage delivered !! keyA)
  ∧ isDirty delivered = false.
Proof.
  repeat split; try (vm_compute; reflexivity); try (vm_compute; eauto).
  vm_compute. discriminate.
Qed.

(** The same on opening: the content of A arrives after B was opened and
    is shown under B's path with A's token. *)
Example open_result_after_navigation :
  path (currentFile (state crossed)) = Some pathB
  ∧ sha (currentFile (state crossed)) = Some (Sample.tokenOf contentA)
  ∧ meta_title (meta (ui crossed)) = "Hello"
  ∧ vditorInstance crossed = Some "Body text".
Proof. repeat split; vm_compute; reflexivity. Qed.

(** *** Leaving a file *)

(** C8 fails as stated: after an edit and a logout no file is active and
    the flag is still set. *)
Lemma dirty_flag_survives_logout :
  isDirty editedA = true
  ∧ path (currentFile (state loggedOut)) = None
  ∧ isDirty loggedOut = true.
Proof. repeat split; vm_compute; reflexivity. Qed.

Lemma dirty_flag_on_unload_witness :
  isSet (path (currentFile (state loggedOut))) = false
  ∧ saveDraft loggedOut = (Returned tt, loggedOut)
  ∧ markAsDirty loggedOut = (Returned tt, loggedOut).
Proof.
  assert (Hp : isSet (path (currentFile (state loggedOut))) = false)
    by (vm_compute; reflexivity).
  split; [exact Hp|].
  destruct (@dirty_flag_on_unload P0 loggedOut) as (_ & _ & _ & _ & Hinert).
  exact (Hinert Hp).
Defined.

(** *** Draft keys *)

(** C6 fails as stated: two different account/repository pairs share a
    key, and a draft saved under one is loaded under the other. *)
Lemma draft_key_collision :
  (user sessionA_BC, repo sessionA_BC, pathA) ≠ (user sessionAB_C, repo sessionAB_C, pathA)
  ∧ getDraftKey sessionA_BC (Some pathA) = getDraftKey sessionAB_C (Some pathA)
  ∧ fst (loadDraftFromStorage sessionAB_C pathA start) = Returned None
  ∧ fst (loadDraftFromStorage sessionAB_C pathA
           (after (saveDraftToStorage sessionA_BC pathA helloMeta "secret") start))
    = Returned (Some {| draft_metadata := helloMeta; draft_body := "secret";
                        savedAt := "2026-11-02T09:30:00.000Z" |}).
Proof.
  split; [discriminate|]. repeat split; vm_compute; reflexivity.
Qed.

Lemma draft_key_isolation_witness :
  Js.includes "_" (user session) = false
  ∧ Js.includes "_" (repo session) = false
  ∧ (user session, repo session) ≠ (user sessionOther, repo sessionOther)
  ∧ fst (loadDraftFromStorage sessionOther pathA
           (after (saveDraftToStorage session pathA helloMeta "secret") start))
    = Returned None.
Proof.
  split; [reflexivity|]. split; [reflexivity|].
  assert (Hne : (user session, repo session) ≠ (user sessionOther, repo sessionOther))
    by discriminate.
  split; [exact Hne|].
  destruct (@draft_key_isolation P0 session sessionOther pathA pathA
              eq_refl eq_refl eq_refl eq_refl) as [_ Hiso].
  unfold after. rewrite (Hiso start helloMeta "secret" Hne).
  vm_compute. reflexivity.
Defined.

(** * Further properties *)

(** ** Draft store *)

Section StoreFacts.
Context `{Platform}.

(** X1.  A draft saved under a non-empty path, when the storage accepts
    the write, is what the next load under the same session and path
    returns, whatever the key held before; every other key keeps its
    value. *)
Theorem draft_save_then_load (st : EditorState) (p key : string)
    (m : Metadata) (b : string) (w : World) :
  getDraftKey st (Some p) = Some key →
  quotaExceeded (localStorage w) key
    (StoredDraft {| draft_metadata := m; draft_body := b; savedAt := nowISO |}) = false →
  ∃ w', saveDraftToStorage st p m b w = (Returned tt, w')
        ∧ loadDraftFromStorage st p w'
          = (Returned (Some {| draft_metadata := m; draft_body := b;
                               savedAt := nowISO |}), w')
        ∧ (∀ k, k ≠ key → localStorage w' !! k = localStorage w !! k).
Proof.
  intros Hkey Hroom.
  unfold saveDraftToStorage, loadDraftFromStorage. rewrite Hkey.
  unfold_action. rewrite Hroom. eexists. split; [reflexivity|]. simpl. split.
  - now rewrite lookup_insert_eq.
  - intros k Hk. now rewrite lookup_insert_ne.
Qed.

(** When the storage refuses the write, saving throws the storage-full
    error and the storage is left as it was, so a draft stored earlier is
    still what a load returns. *)
Lemma draft_save_refused (st : EditorState) (p key : string)
    (m : Metadata) (b : string) (w : World) :
  getDraftKey st (Some p) = Some key →
  quotaExceeded (localStorage w) key
    (StoredDraft {| draft_metadata := m; draft_body := b; savedAt := nowISO |}) = true →
  saveDraftToStorage st p m b w = (Thrown "无法保存草稿，可能是存储空间已满。", w)
  ∧ loadDraftFromStorage st p (snd (saveDraftToStorage st p m b w))
    = loadDraftFromStorage st p w.
Proof.
  intros Hkey Hfull.
  assert (Hrun : saveDraftToStorage st p m b w
                 = (Thrown "无法保存草稿，可能是存储空间已满。", w)).
  { unfold saveDraftToStorage. rewrite Hkey. unfold_action. now rewrite Hfull. }
  split; [exact Hrun | now rewrite Hrun].
Qed.

(** X2.  Clearing a draft never fails; afterwards a load under the same
    session and path finds nothing, clearing again changes nothing, and
    every other key keeps its value. *)
Theorem draft_clear_then_load (st : EditorState) (p : string) (w : World) :
  ∃ w', clearDraftFromStorage st p w = (Returned tt, w')
        ∧ loadDraftFromStorage st p w' = (Returned None, w')
        ∧ clearDraftFromStorage st p w' = (Returned tt, w')
        ∧ (∀ k, getDraftKey st (Some p) ≠ Some k →
                localStorage w' !! k = localStorage w !! k).
Proof.
  unfold clearDraftFromStorage, loadDraftFromStorage.
  destruct (getDraftKey st (Some p)) as [key|] eqn:Hkey; unfold_action.
  - eexists. split; [reflexivity|]. simpl. rewrite lookup_delete_eq.
    split; [reflexivity|]. split.
    + unfold withStorage. simpl. now rewrite delete_delete_eq.
    + intros k Hk. apply lookup_delete_ne. congruence.
  - exists w. repeat split.
Qed.

(** X3.  A stored entry that is not JSON makes the load throw the
    corrupted-draft error and removes the entry, so that the next load
    under the same key finds no draft. *)
Theorem corrupted_draft_is_removed (st : EditorState) (p key text : string) (w : World) :
  getDraftKey st (Some p) = Some key →
  localStorage w !! key = Some (StoredGarbage text) →
  Js.truthy text = true →
  ∃ w', loadDraftFromStorage st p w
        = (Thrown "加载草稿失败，草稿数据可能已损坏。", w')
        ∧ localStorage w' = delete key (localStorage w)
        ∧ loadDraftFromStorage st p w' = (Returned None, w').
Proof.
  intros Hkey Hbad Htext.
  unfold loadDraftFromStorage. rewrite Hkey. unfold_action.
  rewrite Hbad, Htext. eexists. split; [reflexivity|]. simpl.
  split; [reflexivity|]. now rewrite lookup_delete_eq.
Qed.

End StoreFacts.

(** ** Opening a file: failures and the switch itself *)

Section OpenEdgeFacts.
Context `{Platform}.

#[local] Arguments createFullMarkdown : simpl never.
#[local] Arguments parseContent : simpl never.
#[local] Arguments Js.trim : simpl never.
#[local] Arguments String.eqb : simpl never.
#[local] Arguments remoteInputs : simpl never.

Lemma loadDraft_corrupted (p key text : string) (oc : ParsedContent) (v : World) :
  getDraftKey (state v) (Some p) = Some key →
  localStorage v !! key = Some (StoredGarbage text) →
  Js.truthy text = true →
  loadDraft p oc v =
    (Returned tt,
     withUi (setSaveStatus
       {| textContent := "加载草稿失败，草稿数据可能已损坏。";
          className := "mt-2 text-right text-red-500" |})
       (withStorage (delete key) v)).
Proof.
  intros Hkey Hbad Htext.
  unfold loadDraft, loadDraftFromStorage, showSaveStatus. unfold_action.
  now rewrite Hkey, Hbad, Htext.
Qed.

(** X4.  When the remote read succeeds and the entry stored under the
    file's key is not JSON, the open shows no prompt, removes the entry,
    reports the corrupted draft on the status line and shows the remote
    content, the file being clean. *)
Theorem open_with_corrupted_draft
    (w : World) (r : Response) (content token p key value text : string)
    (shown : MetaInputs) :
  resp_ok r = true →
  resp_status r ≠ 204 →
  resp_json r = Some (JsonFile content token) →
  path (currentFile (state w)) = Some p →
  getDraftKey (state w) (Some p) = Some key →
  vditorInstance w = Some value →
  inputsFor (metadata (parseContent (base64_decode content))) = Some shown →
  localStorage w !! key = Some (StoredGarbage text) →
  Js.truthy text = true →
  ∃ w', handleFileClick_resume (Responded r) w = (Returned tt, w')
        ∧ confirms w' = confirms w
        ∧ localStorage w' = delete key (localStorage w)
        ∧ textContent (saveStatus (ui w')) = "加载草稿失败，草稿数据可能已损坏。"
        ∧ meta (ui w')
          = remoteInputs (metadata (parseContent (base64_decode content))) shown
        ∧ vditorInstance w' = Some (body (parseContent (base64_decode content)))
        ∧ isDirty w' = false.
Proof.
  intros Hok Hstatus Hjson Hpath Hkey Hwidget Hshown Hbad Htext.
  rewrite (handleFileClick_resume_run w r content token p key value shown
             Hok Hstatus Hjson Hpath Hkey Hwidget Hshown).
  rewrite (loadDraft_corrupted p key text); [|exact Hkey|exact Hbad|exact Htext].
  eexists. repeat split.
Qed.

(** X5.  When the remote read fails, the open ends with no file selected:
    the active file is reset, the editor panel is hidden and the status
    line carries the failure; inputs, widget text, storage, prompts and the
    dirty flag are as they were when the answer arrived. *)
Theorem open_failure_resets (w : World) (res : FetchResult) (e : string) :
  githubApiResponse res w = (Thrown e, w) →
  ∃ w', handleFileClick_resume res w = (Returned tt, w')
        ∧ currentFile (state w') = {| path := None; sha := None; isNew := false |}
        ∧ editorSection_hidden (ui w') = true
        ∧ saveStatus (ui w')
          = {| textContent := "加载文件失败: " +:+ e;
               className := "mt-2 text-right text-red-500" |}
        ∧ meta (ui w') = meta (ui w)
        ∧ vditorInstance w' = vditorInstance w
        ∧ localStorage w' = localStorage w
        ∧ confirms w' = confirms w
        ∧ isDirty w' = isDirty w.
Proof.
  intros Hfail.
  unfold handleFileClick_resume, showSaveStatus, resetEditorState. unfold_action.
  rewrite Hfail. eexists. split; [reflexivity|]. simpl. repeat split.
Qed.

(** X6.  Clicking another file while the open one is dirty first stores
    the open file's inputs and text as a draft under the open file's key
    and clears the flag, then replaces the path and asks the server for the
    new file with one GET; the token and the new-file mark are still those
    of the previous file until the answer arrives. *)
Theorem switch_flushes_previous_file
    (w : World) (t : Target) (old key value next : string) :
  path (currentFile (state w)) = Some old →
  getDraftKey (state w) (Some old) = Some key →
  vditorInstance w = Some value →
  isDirty w = true →
  quotaExceeded (localStorage w) key
    (StoredDraft {| draft_metadata := getEditorMetadata w; draft_body := value;
                    savedAt := nowISO |}) = false →
  dataset_path t = Some next →
  Js.truthy next = true →
  ∃ res w',
    handleFileClick_start (Some t) w = (Returned (Some (AwaitGetFileContent res)), w')
    ∧ localStorage w'
      = <[key := StoredDraft {| draft_metadata := getEditorMetadata w;
                                draft_body := value; savedAt := nowISO |}]>
          (localStorage w)
    ∧ isDirty w' = false
    ∧ currentFile (state w')
      = {| path := Some next; sha := sha (currentFile (state w));
           isNew := isNew (currentFile (state w)) |}
    ∧ requests w'
      = requests w ++ [{| req_method := GET;
                          req_url := apiUrl (state w) ("contents/" +:+ next);
                          req_authorization := "token " +:+ pat (state w);
                          req_body := None |}].
Proof.
  intros Hold Hkey Hv Hd Hroom Hnext Ht.
  unfold handleFileClick_start, getFileContent, githubApiRequest. unfold_action.
  rewrite (saveDraft_dirty w old value key Hold Hkey Hv Hd), Hroom, Hnext, Ht.
  simpl. destruct (fetch _ _) as [r' res]. simpl.
  eexists _, _. split; [reflexivity|]. simpl. repeat split.
Qed.

End OpenEdgeFacts.

(** ** File names *)

Section FilenameFacts.

Lemma filename_unit_plain (c : ascii) :
  Js.isFilenameUnit c = true → Js.isSpace c = false ∧ Js.lowerUnit c = c.
Proof.
  destruct c as [[] [] [] [] [] [] [] []]; intros Hc;
    try discriminate Hc; split; reflexivity.
Qed.

Lemma keepFilenameUnits_units (s : string) (c : ascii) :
  In c (list_ascii_of_string (Js.keepFilenameUnits s)) → Js.isFilenameUnit c = true.
Proof.
  induction s as [|c' s IH]; simpl; [tauto|].
  destruct (Js.isFilenameUnit c') eqn:Hc; [|exact IH].
  simpl. intros [<- | Hin]; [exact Hc | now apply IH].
Qed.

Lemma units_app (ok : ascii → bool) (a b : string) :
  (∀ c, In c (list_ascii_of_string a) → ok c = true) →
  (∀ c, In c (list_ascii_of_string b) → ok c = true) →
  ∀ c, In c (list_ascii_of_string (a +:+ b)) → ok c = true.
Proof.
  induction a as [|c a IH]; intros Ha Hb; [exact Hb|].
  change (String c a +:+ b) with (String c (a +:+ b)).
  simpl. intros c' [<- | Hin].
  - apply Ha. now left.
  - apply IH; [|exact Hb|exact Hin]. intros x Hx. apply Ha. now right.
Qed.

Lemma endsWith_app (s suffix : string) : Js.endsWith suffix (s +:+ suffix) = true.
Proof.
  induction s as [|c s IH].
  - change (EmptyString +:+ suffix) with suffix.
    destruct suffix; simpl; [reflexivity|].
    now rewrite Ascii.eqb_refl, String.eqb_refl.
  - change (String c s +:+ suffix) with (String c (s +:+ suffix)).
    simpl. rewrite IH. apply orb_true_r.
Qed.

(** A text made of file-name units is left alone by each step of
    [normalizeFilename]. *)
Lemma filename_units_fixed (s : string) :
  (∀ c, In c (list_ascii_of_string s) → Js.isFilenameUnit c = true) →
  Js.trimStart s = s ∧ Js.trimEnd s = s ∧ Js.toLowerCase s = s
  ∧ Js.dashRuns false s = s ∧ Js.keepFilenameUnits s = s.
Proof.
  induction s as [|c s IH]; intros Hs; [repeat split|].
  assert (Hc : Js.isFilenameUnit c = true) by (apply Hs; now left).
  destruct (filename_unit_plain c Hc) as [Hsp Hlow].
  destruct IH as (_ & He & Hl & Hd & Hk).
  { intros x Hx. apply Hs. now right. }
  simpl. rewrite Hsp, Hlow, Hc, He, Hl, Hd, Hk.
  repeat split. now destruct s.
Qed.

Lemma normalizeFilename_units (name : string) :
  Js.endsWith ".md" (normalizeFilename name) = true
  ∧ (∀ c, In c (list_ascii_of_string (normalizeFilename name)) →
          Js.isFilenameUnit c = true).
Proof.
  unfold normalizeFilename.
  set (f := Js.keepFilenameUnits _).
  assert (Hf : ∀ c, In c (list_ascii_of_string f) → Js.isFilenameUnit c = true)
    by apply keepFilenameUnits_units.
  destruct (Js.endsWith ".md" f) eqn:He; [now split|].
  split; [apply endsWith_app|].
  apply units_app; [exact Hf|].
  simpl. intros c [<- | [<- | [<- | []]]]; reflexivity.
Qed.

(** X7.  Whatever the input, the normalized file name ends in [.md] and
    consists of lower-case letters, digits, hyphens and dots only; and
    normalizing it again gives the same name. *)
Theorem normalizeFilename_normal_form (name : string) :
  Js.endsWith ".md" (normalizeFilename name) = true
  ∧ (∀ c, In c (list_ascii_of_string (normalizeFilename name)) →
          Js.isFilenameUnit c = true)
  ∧ normalizeFilename (normalizeFilename name) = normalizeFilename name.
Proof.
  destruct (normalizeFilename_units name) as [Hend Hunits].
  split; [exact Hend|]. split; [exact Hunits|].
  destruct (filename_units_fixed _ Hunits) as (Hts & Hte & Hl & Hd & Hk).
  unfold normalizeFilename at 1. unfold Js.trim.
  now rewrite Hts, Hte, Hl, Hd, Hk, Hend.
Qed.

End FilenameFacts.

(** ** Saving: what the server's answer does *)

Section SaveOutcomeFacts.
Context `{Platform}.

#[local] Arguments createFullMarkdown : simpl never.
#[local] Arguments Js.basename : simpl never.

(** Reading a response does not depend on the state and does not change
    it. *)
Lemma githubApiResponse_pure (res : FetchResult) (v w : World) :
  githubApiResponse res v = (fst (githubApiResponse res w), v).
Proof.
  unfold githubApiResponse. unfold_action.
  destruct res as [msg|r]; [reflexivity|].
  destruct (resp_ok r); simpl.
  - destruct (resp_status r =? 204); [reflexivity|].
    destruct (resp_json r); reflexivity.
  - destruct (resp_json r) as [[| | |[m|]|]|]; reflexivity.
Qed.

Lemma githubApiResponse_ok (r : Response) (j : Json) (v : World) :
  resp_ok r = true → resp_status r ≠ 204 → resp_json r = Some j →
  githubApiResponse (Responded r) v = (Returned j, v).
Proof.
  intros Hok Hst Hj. unfold githubApiResponse. unfold_action.
  apply Nat.eqb_neq in Hst. now rewrite Hok, Hst, Hj.
Qed.

(** Refreshing the list touches only the rendered list and the status
    line. *)
Lemma refreshFileList_resume_frame (res : FetchResult) (w : World) :
  ∃ w', refreshFileList_resume res w = (Returned tt, w')
        ∧ state w' = state w ∧ vditorInstance w' = vditorInstance w
        ∧ isDirty w' = isDirty w ∧ localStorage w' = localStorage w
        ∧ confirms w' = confirms w ∧ remote w' = remote w
        ∧ requests w' = requests w ∧ meta (ui w') = meta (ui w)
        ∧ editorSection_hidden (ui w') = editorSection_hidden (ui w)
        ∧ currentFileName (ui w') = currentFileName (ui w).
Proof.
  unfold refreshFileList_resume, renderFileList, showSaveStatus. unfold_action.
  rewrite (githubApiResponse_pure res w w).
  destruct (fst (githubApiResponse res w)) as [[l| | | |]|e]; simpl;
    eexists; (split; [reflexivity|]); simpl; repeat split.
Qed.
Lemma githubApiRequest_run (st : EditorState) (endpoint : string)
    (method : Method) (payload : option Payload) (w : World) :
  githubApiRequest st endpoint method payload w =
    (Returned (snd (fetch (remote w) (requestOf st endpoint method payload))),
     withRequest (requestOf st endpoint method payload)
       (fst (fetch (remote w) (requestOf st endpoint method payload))) w).
Proof.
  unfold githubApiRequest, requestOf. unfold_action.
  now destruct (fetch _ _).
Qed.

(** X8.  Saving an existing file with a held token sends one PUT that
    carries the serialized inputs and that token.  When the server accepts
    it, the returned token becomes the file's token, the draft under the
    file's key is removed, the flag is cleared and the success is shown;
    the file is still not new. *)
Theorem save_accepted (w : World) (p key s value s' : string) (r : Response) :
  path (currentFile (state w)) = Some p →
  getDraftKey (state w) (Some p) = Some key →
  isNew (currentFile (state w)) = false →
  sha (currentFile (state w)) = Some s →
  Js.truthy s = true →
  vditorInstance w = Some value →
  let req := requestOf (state w) ("contents/" +:+ p) PUT
               (Some {| message := "docs: update " +:+ Js.basename p;
                        payload_content :=
                          Some (base64_encode
                                  (createFullMarkdown (getEditorMetadata w) value));
                        payload_sha := Some s |}) in
  snd (fetch (remote w) req) = Responded r →
  resp_ok r = true → resp_status r ≠ 204 → resp_json r = Some (JsonCommit s') →
  ∃ w', handleSave w = (Returned tt, w')
        ∧ requests w' = requests w ++ [req]
        ∧ remote w' = fst (fetch (remote w) req)
        ∧ currentFile (state w') = {| path := Some p; sha := Some s'; isNew := false |}
        ∧ localStorage w' = delete key (localStorage w)
        ∧ isDirty w' = false
        ∧ textContent (saveStatus (ui w')) = "文件保存成功！".
Proof.
  intros Hp Hkey Hnew Hs Hts Hv req Hres Hok Hst Hjson.
  destruct (getDraftKey_Some _ _ _ Hkey) as [Ht ->].
  unfold handleSave, handleSave_start, updateFile. unfold_action.
  rewrite Hp, Ht, Hnew, Hs, Hts, Hv. cbv beta iota.
  rewrite githubApiRequest_run. fold req. rewrite Hres. cbv beta iota.
  simpl settle. unfold resume. unfold_action.
  rewrite (githubApiResponse_ok r _ _ Hok Hst Hjson). cbv beta iota.
  unfold handleSave_finish, clearDraft, clearDraftFromStorage, markAsClean,
    showSaveStatus.
  unfold_action. simpl. rewrite Hp. simpl. rewrite Ht. simpl.
  eexists. split; [reflexivity|]. simpl. unfold setIsNew, setSha. simpl.
  rewrite Hp. repeat split.
Qed.

(** X9.  When the answer to a save is a failure, whether the save was an
    update or a creation, the only change is the failure shown on the
    status line: path, token and new-file mark, the stored draft and the
    dirty flag are as they were, and no further request is sent. *)
Theorem save_rejected (w : World) (res : FetchResult) (e : string) (k : Suspended) :
  k = AwaitUpdateFile res ∨ k = AwaitCreateFile res →
  fst (githubApiResponse res w) = Thrown e →
  resume k w =
    (Returned None,
     withUi (setSaveStatus
       {| textContent := "保存失败: " +:+ e;
          className := "mt-2 text-right text-red-500" |}) w).
Proof.
  intros [-> | ->] Hfail; unfold resume, saveFailed, showSaveStatus;
    unfold_action; now rewrite (githubApiResponse_pure res w w), Hfail.
Qed.

(** X10.  Saving a file marked new sends a PUT without any token, whatever
    token is held, and then asks for the file list.  When the server
    accepts the creation, the returned token becomes the file's token, the
    file is no longer new, no draft remains under its key and the flag is
    cleared. *)
Theorem save_new_file_creates (w : World) (p key value s' : string) (r : Response) :
  path (currentFile (state w)) = Some p →
  getDraftKey (state w) (Some p) = Some key →
  isNew (currentFile (state w)) = true →
  vditorInstance w = Some value →
  let req := requestOf (state w) ("contents/" +:+ p) PUT
               (Some {| message := "docs: create " +:+ Js.basename p;
                        payload_content :=
                          Some (base64_encode
                                  (createFullMarkdown (getEditorMetadata w) value));
                        payload_sha := None |}) in
  let list := requestOf (state w) "contents/src/content/posts" GET None in
  snd (fetch (remote w) req) = Responded r →
  resp_ok r = true → resp_status r ≠ 204 → resp_json r = Some (JsonCommit s') →
  ∃ w', handleSave w = (Returned tt, w')
        ∧ requests w' = requests w ++ [req; list]
        ∧ currentFile (state w') = {| path := Some p; sha := Some s'; isNew := false |}
        ∧ localStorage w' !! key = None
        ∧ isDirty w' = false
        ∧ textContent (saveStatus (ui w')) = "文件保存成功！".
Proof.
  intros Hp Hkey Hnew Hv req list Hres Hok Hst Hjson.
  destruct (getDraftKey_Some _ _ _ Hkey) as [Ht ->].
  unfold handleSave, handleSave_start, createFile. unfold_action.
  rewrite Hp, Ht, Hnew, Hv. cbv beta iota.
  rewrite githubApiRequest_run. fold req. rewrite Hres. cbv beta iota.
  simpl settle. unfold resume at 1. unfold_action.
  rewrite (githubApiResponse_ok r _ _ Hok Hst Hjson). cbv beta iota.
  unfold getFiles. rewrite githubApiRequest_run. cbv beta iota.
  unfold resume. unfold_action.
  match goal with |- context [refreshFileList_resume ?x ?v] =>
    destruct (refreshFileList_resume_frame x v)
      as (w1 & -> & Hst1 & _ & _ & Hls1 & _ & _ & Hrq1 & _) end.
  unfold handleSave_finish, clearDraft, clearDraftFromStorage, markAsClean,
    showSaveStatus.
  unfold_action. simpl. rewrite Hst1. simpl. rewrite Hp. simpl.
  rewrite Ht. simpl.
  eexists. split; [reflexivity|]. simpl. unfold setIsNew, setSha. simpl.
  rewrite Hrq1, Hls1, Hst1. simpl. rewrite Hp, lookup_delete_eq, <- app_assoc.
  repeat split.
Qed.

End SaveOutcomeFacts.

(** ** Creating a file *)

Section CreateFacts.
Context `{Platform}.

#[local] Arguments normalizeFilename : simpl never.
#[local] Arguments Js.trim : simpl never.

Lemma inputsFor_template (filenameInput : string) :
  Js.truthy filenameInput = true →
  inputsFor (templateMeta filenameInput)
  = Some {| meta_title := filenameInput; meta_published := EmptyString;
            meta_updated := EmptyString; meta_description := EmptyString;
            meta_tags := EmptyString; meta_category := EmptyString |}.
Proof. intros Ht. unfold inputsFor. simpl. now rewrite Ht. Qed.

Lemma handleCreateNewFile_run (w : World) (newFileInput : string) :
  Js.truthy (Js.trim newFileInput) = true →
  ∃ w', handleCreateNewFile newFileInput w = (Returned DialogClosed, w')
        ∧ currentFile (state w')
          = {| path := Some (postsDir +:+ normalizeFilename (Js.trim newFileInput));
               sha := None; isNew := true |}
        ∧ meta (ui w')
          = {| meta_title := Js.trim newFileInput; meta_published := today;
               meta_updated := today; meta_description := EmptyString;
               meta_tags := EmptyString; meta_category := EmptyString |}
        ∧ (is_Some (vditorInstance w) → vditorInstance w' = Some EmptyString)
        ∧ isDirty w' = true
        ∧ localStorage w' = localStorage w
        ∧ requests w' = requests w
        ∧ confirms w' = confirms w
        ∧ currentFileName (ui w') = normalizeFilename (Js.trim newFileInput).
Proof.
  intros Hname. unfold handleCreateNewFile. rewrite Hname.
  unfold_action. simpl.
  rewrite (populateEditor_run _ _ _ _ (inputsFor_template _ Hname)). simpl.
  unfold setTodaysDate, setMetaInput, markAsDirty. unfold_action.
  destruct (vditorInstance w) as [value|] eqn:Hv; simpl.
  - rewrite vditor_setValue_run. unfold markAsDirty. unfold_action.
    destruct setValue_fires_input; simpl;
      destruct (isDirty w) eqn:Hd; simpl; rewrite ?Hd; simpl;
      eexists; (split; [reflexivity|]); simpl; rewrite ?Hd; repeat split.
  - destruct (isDirty w) eqn:Hd; simpl; rewrite ?Hd; simpl;
      eexists; (split; [reflexivity|]); simpl; rewrite ?Hd, ?Hv;
      repeat split; now intros [? [=]].
Qed.

(** X11.  Confirming the new-file dialog with a blank name changes nothing
    and shows the empty-name error.  With any other name the active file
    becomes the normalized name under the posts folder, marked new and
    without a token; the title input holds the name as typed (trimmed),
    both date inputs hold today's date, the other inputs and the widget are
    empty, and the file is dirty.  No request is sent and the storage is
    not touched: a dirty file that was open is not flushed. *)
Theorem create_new_file (w : World) (newFileInput : string) :
  (Js.truthy (Js.trim newFileInput) = false →
   handleCreateNewFile newFileInput w = (Returned (DialogError "文件名不能为空。"), w))
  ∧ (Js.truthy (Js.trim newFileInput) = true →
     ∃ w', handleCreateNewFile newFileInput w = (Returned DialogClosed, w')
           ∧ currentFile (state w')
             = {| path := Some (postsDir +:+ normalizeFilename (Js.trim newFileInput));
                  sha := None; isNew := true |}
           ∧ meta (ui w')
             = {| meta_title := Js.trim newFileInput; meta_published := today;
                  meta_updated := today; meta_description := EmptyString;
                  meta_tags := EmptyString; meta_category := EmptyString |}
           ∧ (is_Some (vditorInstance w) → vditorInstance w' = Some EmptyString)
           ∧ isDirty w' = true
           ∧ localStorage w' = localStorage w
           ∧ requests w' = requests w
           ∧ confirms w' = confirms w).
Proof.
  split; intros Hname.
  - unfold handleCreateNewFile. now rewrite Hname.
  - destruct (handleCreateNewFile_run w newFileInput Hname)
      as (w' & Hrun & Hfile & Hmeta & Hv & Hd & Hls & Hrq & Hcf & _).
    exists w'. repeat split; assumption.
Qed.

End CreateFacts.

(** ** Deleting a file *)

Section DeleteFacts.
Context `{Platform}.

#[local] Arguments Js.basename : simpl never.
#[local] Arguments deletePrompt : simpl never.

Lemma confirm_deletePrompt (p : string) (w : World) :
  confirm ("你确定要删除文件 " +:+ QUOTE +:+ Js.basename p +:+ QUOTE
           +:+ " 吗？此操作无法撤销。") w
  = (Returned (confirm_answer (deletePrompt p)), withConfirm (deletePrompt p) w).
Proof. reflexivity. Qed.

(** X12.  The delete button sends nothing in three situations.  On a file
    marked new it asks nothing either: the editor is reset and the
    cancellation shown, while a draft stored for that file stays in the
    storage.  On a saved file, a declined question leaves everything as it
    was but for the question asked; an accepted one without a held token
    ends with the missing-token failure on the status line. *)
Theorem delete_without_request (w : World) (p : string) :
  path (currentFile (state w)) = Some p →
  Js.truthy p = true →
  (isNew (currentFile (state w)) = true →
   ∃ w', handleDeleteButtonClick w = (Returned tt, w')
         ∧ currentFile (state w') = {| path := None; sha := None; isNew := false |}
         ∧ textContent (saveStatus (ui w')) = "新文件编辑已取消。"
         ∧ confirms w' = confirms w
         ∧ requests w' = requests w
         ∧ localStorage w' = localStorage w)
  ∧ (isNew (currentFile (state w)) = false →
     confirm_answer (deletePrompt p) = false →
     handleDeleteButtonClick w = (Returned tt, withConfirm (deletePrompt p) w))
  ∧ (isNew (currentFile (state w)) = false →
     confirm_answer (deletePrompt p) = true →
     isSet (sha (currentFile (state w))) = false →
     handleDeleteButtonClick w =
       (Returned tt,
        withUi (setSaveStatus
          {| textContent := "删除失败: 缺少文件 SHA 无法删除。";
             className := "mt-2 text-right text-red-500" |})
          (withConfirm (deletePrompt p) w))).
Proof.
  intros Hp Ht.
  unfold handleDeleteButtonClick, handleDeleteButtonClick_start,
    confirmAndDeleteFile_start.
  split; [|split].
  - intros Hnew. unfold resetEditorState, showSaveStatus. unfold_action.
    rewrite Hp, Ht, Hnew. simpl. eexists. split; [reflexivity|].
    simpl. repeat split.
  - intros Hnew Hno. unfold_action. rewrite Hp, Ht, Hnew.
    rewrite confirm_deletePrompt, Hno. reflexivity.
  - intros Hnew Hyes Hsha. unfold showSaveStatus. unfold_action.
    rewrite Hp, Ht, Hnew. rewrite confirm_deletePrompt, Hyes. simpl.
    destruct (sha (currentFile (state w))) as [s|]; [|reflexivity].
    simpl in Hsha. now rewrite Hsha.
Qed.

(** X13.  Deleting a saved file, once the question is accepted and a token
    is held, sends one DELETE carrying that token.  When the server
    accepts it, the draft under the file's key is removed, the editor is
    reset to no file and the file list is asked for; the dirty flag keeps
    its value. *)
Theorem delete_accepted (w : World) (p key s : string) (j : Json) :
  path (currentFile (state w)) = Some p →
  getDraftKey (state w) (Some p) = Some key →
  isNew (currentFile (state w)) = false →
  confirm_answer (deletePrompt p) = true →
  sha (currentFile (state w)) = Some s →
  Js.truthy s = true →
  let req := requestOf (state w) ("contents/" +:+ p) DELETE
               (Some {| message := "docs: delete " +:+ Js.basename p;
                        payload_content := None; payload_sha := Some s |}) in
  let list := requestOf (state w) "contents/src/content/posts" GET None in
  fst (githubApiResponse (snd (fetch (remote w) req)) w) = Returned j →
  ∃ w', handleDeleteButtonClick w = (Returned tt, w')
        ∧ confirms w' = confirms w ++ [deletePrompt p]
        ∧ requests w' = requests w ++ [req; list]
        ∧ currentFile (state w') = {| path := None; sha := None; isNew := false |}
        ∧ editorSection_hidden (ui w') = true
        ∧ localStorage w' = delete key (localStorage w)
        ∧ isDirty w' = isDirty w.
Proof.
  intros Hp Hkey Hnew Hyes Hs Hts req list Hres.
  destruct (getDraftKey_Some _ _ _ Hkey) as [Ht ->].
  unfold handleDeleteButtonClick, handleDeleteButtonClick_start,
    confirmAndDeleteFile_start, deleteFile.
  unfold_action. rewrite Hp, Ht, Hnew, Hs.
  rewrite confirm_deletePrompt, Hyes. cbv beta iota. simpl negb. cbv iota.
  rewrite Hts. change (negb true) with false. cbv beta iota.
  change (state (withConfirm (deletePrompt p) w)) with (state w).
  rewrite githubApiRequest_run. fold req.
  change (remote (withConfirm (deletePrompt p) w)) with (remote w).
  cbv beta iota.
  simpl settle. unfold resume at 1. unfold_action.
  rewrite (githubApiResponse_pure _ _ w), Hres. cbv beta iota.
  unfold showSaveStatus, clearDraft, clearDraftFromStorage, resetEditorState,
    getFiles.
  unfold_action. simpl. rewrite Ht. simpl.
  rewrite bool_decide_eq_true_2 by exact Hp. simpl.
  rewrite githubApiRequest_run. simpl.
  unfold resume. unfold_action.
  match goal with |- context [refreshFileList_resume ?x ?v] =>
    destruct (refreshFileList_resume_frame x v)
      as (w1 & -> & Hst1 & _ & Hd1 & Hls1 & Hcf1 & _ & Hrq1 & _ & Hed1 & _) end.
  eexists. split; [reflexivity|].
  rewrite Hst1, Hd1, Hls1, Hcf1, Hrq1, Hed1. simpl.
  rewrite <- app_assoc. repeat split.
Qed.
End DeleteFacts.

(** ** Renaming a file *)

Section RenameFacts.
Context `{Platform}.

#[local] Arguments Js.basename : simpl never.
#[local] Arguments normalizeFilename : simpl never.
#[local] Arguments Js.trim : simpl never.
#[local] Arguments createFullMarkdown : simpl never.
#[local] Arguments String.eqb : simpl never.
#[local] Arguments getEditorMetadata : simpl never.
#[local] Arguments String.append : simpl never.

Lemma settleRename_step (n : nat) (k : RenameSuspended) (w : World) :
  settleRename (S n) (RenameAwaits k) w =
    match resumeRename k w with
    | (Returned a, w') => settleRename n a w'
    | (Thrown e, w') => (Thrown e, w')
    end.
Proof. simpl. unfold_action. now destruct (resumeRename k w) as [[a|e] w']. Qed.

Lemma handleRenameConfirm_start_run (w : World) (input old s value : string) :
  Js.truthy (Js.trim input) = true →
  path (currentFile (state w)) = Some old →
  Js.truthy old = true →
  Js.basename old ≠ normalizeFilename (Js.trim input) →
  sha (currentFile (state w)) = Some s →
  Js.truthy s = true →
  vditorInstance w = Some value →
  handleRenameConfirm_start input w =
    (Returned (RenameAwaits (AwaitRenameDelete old
        (normalizeFilename (Js.trim input))
        (createFullMarkdown (getEditorMetadata w) value)
        (snd (fetch (remote w) (renameDelete (state w) old s))))),
     withRequest (renameDelete (state w) old s)
       (fst (fetch (remote w) (renameDelete (state w) old s))) w).
Proof.
  intros Hname Hold Ht Hdiff Hs Hts Hv.
  unfold handleRenameConfirm_start. rewrite Hname.
  change (negb true) with false. cbv beta iota.
  unfold_action. rewrite Hold, Ht.
  apply String.eqb_neq in Hdiff. rewrite Hdiff, Hs, Hts, Hv.
  unfold deleteFile. rewrite githubApiRequest_run. reflexivity.
Qed.

Lemma resumeRename_delete_ok (old new content : string) (res : FetchResult)
    (j : Json) (w v : World) :
  fst (githubApiResponse res w) = Returned j →
  resumeRename (AwaitRenameDelete old new content res) v =
    (Returned (RenameAwaits (AwaitRenameCreate old new
        (snd (fetch (remote v) (renameCreate (state v) new content))))),
     withRequest (renameCreate (state v) new content)
       (fst (fetch (remote v) (renameCreate (state v) new content))) v).
Proof.
  intros Hres. unfold resumeRename. unfold_action.
  rewrite (githubApiResponse_pure res v w), Hres. cbv beta iota.
  unfold createFile. rewrite githubApiRequest_run. reflexivity.
Qed.

Lemma resumeRename_delete_failed (old new content e : string) (res : FetchResult)
    (w v : World) :
  fst (githubApiResponse res w) = Thrown e →
  resumeRename (AwaitRenameDelete old new content res) v =
    (Returned (RenameEnds (DialogError ("重命名失败: " +:+ e))), renameError e v).
Proof.
  intros Hres. unfold resumeRename. unfold_action.
  rewrite (githubApiResponse_pure res v w), Hres. reflexivity.
Qed.

Lemma resumeRename_create_failed (old new e : string) (res : FetchResult)
    (w v : World) :
  fst (githubApiResponse res w) = Thrown e →
  resumeRename (AwaitRenameCreate old new res) v =
    (Returned (RenameEnds (DialogError ("重命名失败: " +:+ e))), renameError e v).
Proof.
  intros Hres. unfold resumeRename. unfold_action.
  rewrite (githubApiResponse_pure res v w), Hres. reflexivity.
Qed.

(** X14.  The rename dialog sends nothing in three situations: a blank
    name and a name that normalizes to the current file name leave
    everything as it was and show their error under the input; a file
    without a held token ends with the missing-token failure on the status
    line. *)
Theorem rename_without_request (w : World) (renameFileInput old : string) :
  path (currentFile (state w)) = Some old →
  Js.truthy old = true →
  (Js.truthy (Js.trim renameFileInput) = false →
   handleRenameConfirm renameFileInput w
   = (Returned (DialogError "新文件名不能为空。"), w))
  ∧ (Js.truthy (Js.trim renameFileInput) = true →
     Js.basename old = normalizeFilename (Js.trim renameFileInput) →
     handleRenameConfirm renameFileInput w
     = (Returned (DialogError "文件名未更改。"), w))
  ∧ (Js.truthy (Js.trim renameFileInput) = true →
     Js.basename old ≠ normalizeFilename (Js.trim renameFileInput) →
     isSet (sha (currentFile (state w))) = false →
     handleRenameConfirm renameFileInput w
     = (Returned (DialogError "重命名失败: 文件操作缺少 SHA。"),
        renameError "文件操作缺少 SHA。" w)).
Proof.
  intros Hold Ht. unfold handleRenameConfirm, handleRenameConfirm_start.
  split; [|split].
  - intros Hblank. rewrite Hblank. reflexivity.
  - intros Hname Hsame. rewrite Hname. change (negb true) with false.
    cbv beta iota. unfold_action.
    rewrite Hold, Ht, Hsame, String.eqb_refl. reflexivity.
  - intros Hname Hdiff Hsha. rewrite Hname. change (negb true) with false.
    cbv beta iota. unfold_action.
    rewrite Hold, Ht. apply String.eqb_neq in Hdiff. rewrite Hdiff.
    unfold renameFailed, showSaveStatus. unfold_action.
    destruct (sha (currentFile (state w))) as [s|]; [|reflexivity].
    simpl in Hsha. now rewrite Hsha.
Qed.

(** X15.  A rename with a held token sends a DELETE for the old path with
    that token and, once it is accepted, a PUT without token that creates
    the normalized name under the posts folder with the serialized inputs.
    When both are accepted the active file is the new path with the
    returned token, the draft under the old path's key is removed, the file
    list is asked for and the dialog closes; the new-file mark and the
    dirty flag keep their values. *)
Theorem rename_accepted (w : World) (input old key s value s' : string) (j : Json) :
  Js.truthy (Js.trim input) = true →
  path (currentFile (state w)) = Some old →
  getDraftKey (state w) (Some old) = Some key →
  Js.basename old ≠ normalizeFilename (Js.trim input) →
  sha (currentFile (state w)) = Some s →
  Js.truthy s = true →
  vditorInstance w = Some value →
  let new := normalizeFilename (Js.trim input) in
  let del := renameDelete (state w) old s in
  let put := renameCreate (state w) new
               (createFullMarkdown (getEditorMetadata w) value) in
  let list := requestOf (state w) "contents/src/content/posts" GET None in
  fst (githubApiResponse (snd (fetch (remote w) del)) w) = Returned j →
  fst (githubApiResponse (snd (fetch (fst (fetch (remote w) del)) put)) w)
    = Returned (JsonCommit s') →
  ∃ w', handleRenameConfirm input w = (Returned DialogClosed, w')
        ∧ requests w' = requests w ++ [del; put; list]
        ∧ currentFile (state w')
          = {| path := Some (postsDir +:+ new); sha := Some s';
               isNew := isNew (currentFile (state w)) |}
        ∧ currentFileName (ui w') = new
        ∧ localStorage w' = delete key (localStorage w)
        ∧ isDirty w' = isDirty w.
Proof.
  intros Hname Hold Hkey Hdiff Hs Hts Hv new del put list Hdel Hput.
  destruct (getDraftKey_Some _ _ _ Hkey) as [Ht ->].
  unfold handleRenameConfirm. unfold_action.
  rewrite (handleRenameConfirm_start_run w input old s value) by assumption.
  fold new del. cbv beta iota.
  rewrite settleRename_step, (resumeRename_delete_ok _ _ _ _ j w) by exact Hdel.
  change (state (withRequest del (fst (fetch (remote w) del)) w)) with (state w).
  change (remote (withRequest del (fst (fetch (remote w) del)) w))
    with (fst (fetch (remote w) del)).
  fold put. rewrite settleRename_step.
  unfold resumeRename at 1. unfold_action.
  rewrite (githubApiResponse_pure _ _ w), Hput. cbv beta iota.
  unfold clearDraft, clearDraftFromStorage, showSaveStatus, getFiles.
  unfold_action. simpl. rewrite Ht.
  rewrite githubApiRequest_run. cbv beta iota.
  unfold resumeRename. unfold_action.
  match goal with |- context [refreshFileList_resume ?x ?v] =>
    destruct (refreshFileList_resume_frame x v)
      as (w1 & -> & Hst1 & _ & Hd1 & Hls1 & _ & _ & Hrq1 & _ & _ & Hnm1) end.
  eexists. split; [reflexivity|].
  rewrite Hst1, Hd1, Hls1, Hrq1, Hnm1. simpl.
  rewrite <- !app_assoc. repeat split.
Qed.

(** X16.  When the server rejects the deletion of the old path, the rename
    stops there: no creation is sent, and the only changes are the request
    made and the failure shown. *)
Theorem rename_delete_rejected (w : World) (input old s value e : string) :
  Js.truthy (Js.trim input) = true →
  path (currentFile (state w)) = Some old →
  Js.truthy old = true →
  Js.basename old ≠ normalizeFilename (Js.trim input) →
  sha (currentFile (state w)) = Some s →
  Js.truthy s = true →
  vditorInstance w = Some value →
  let del := renameDelete (state w) old s in
  fst (githubApiResponse (snd (fetch (remote w) del)) w) = Thrown e →
  ∃ w', handleRenameConfirm input w
        = (Returned (DialogError ("重命名失败: " +:+ e)), w')
        ∧ requests w' = requests w ++ [del]
        ∧ remote w' = fst (fetch (remote w) del)
        ∧ state w' = state w
        ∧ localStorage w' = localStorage w
        ∧ isDirty w' = isDirty w
        ∧ currentFileName (ui w') = currentFileName (ui w).
Proof.
  intros Hname Hold Ht Hdiff Hs Hts Hv del Hdel.
  unfold handleRenameConfirm. unfold_action.
  rewrite (handleRenameConfirm_start_run w input old s value) by assumption.
  fold del. cbv beta iota.
  rewrite settleRename_step, (resumeRename_delete_failed _ _ _ e _ w) by exact Hdel.
  eexists. split; [reflexivity|]. simpl. repeat split.
Qed.

(** X17.  When the deletion is accepted and the creation is rejected, the
    rename ends with the failure shown and the editor state as it was: the
    active file is still the old path with the old token, although the
    server has carried out the deletion, and the stored draft and the dirty
    flag are untouched. *)
Theorem rename_create_rejected (w : World) (input old s value e : string) (j : Json) :
  Js.truthy (Js.trim input) = true →
  path (currentFile (state w)) = Some old →
  Js.truthy old = true →
  Js.basename old ≠ normalizeFilename (Js.trim input) →
  sha (currentFile (state w)) = Some s →
  Js.truthy s = true →
  vditorInstance w = Some value →
  let del := renameDelete (state w) old s in
  let put := renameCreate (state w) (normalizeFilename (Js.trim input))
               (createFullMarkdown (getEditorMetadata w) value) in
  fst (githubApiResponse (snd (fetch (remote w) del)) w) = Returned j →
  fst (githubApiResponse (snd (fetch (fst (fetch (remote w) del)) put)) w)
    = Thrown e →
  ∃ w', handleRenameConfirm input w
        = (Returned (DialogError ("重命名失败: " +:+ e)), w')
        ∧ requests w' = requests w ++ [del; put]
        ∧ remote w' = fst (fetch (fst (fetch (remote w) del)) put)
        ∧ state w' = state w
        ∧ localStorage w' = localStorage w
        ∧ isDirty w' = isDirty w
        ∧ currentFileName (ui w') = currentFileName (ui w).
Proof.
  intros Hname Hold Ht Hdiff Hs Hts Hv del put Hdel Hput.
  unfold handleRenameConfirm. unfold_action.
  rewrite (handleRenameConfirm_start_run w input old s value) by assumption.
  fold del. cbv beta iota.
  rewrite settleRename_step, (resumeRename_delete_ok _ _ _ _ j w) by exact Hdel.
  change (state (withRequest del (fst (fetch (remote w) del)) w)) with (state w).
  change (remote (withRequest del (fst (fetch (remote w) del)) w))
    with (fst (fetch (remote w) del)).
  fold put.
  rewrite settleRename_step, (resumeRename_create_failed _ _ e _ w) by exact Hput.
  eexists. split; [reflexivity|]. simpl. rewrite <- app_assoc. repeat split.
Qed.
End RenameFacts.

(** ** Texts without front matter *)

Section TextFacts.
Context `{Platform}.

(** A text in which the separator does not occur is one piece. *)
Lemma split_absent (sep s : string) :
  Js.includes sep s = false → Js.split sep s = [s].
Proof.
  induction s as [|c s IH]; intros Hs.
  - reflexivity.
  - apply includes_cons in Hs as [Hc Hs].
    destruct (split_cons_other _ _ _ Hc) as (piece & rest & Hsplit & ->).
    rewrite (IH Hs) in Hsplit. now inversion Hsplit.
Qed.

(** X18.  A text that contains no [---] is returned whole as the body, not
    trimmed, with empty metadata, and the YAML reader is not consulted. *)
Theorem parse_plain_text (content : string) :
  Js.includes delimiter content = false →
  parseContent content = {| metadata := emptyMetadata; body := content |}.
Proof.
  intros Hno. unfold parseContent. now rewrite (split_absent _ _ Hno).
Qed.

End TextFacts.

(** ** Tags *)

Section TagFacts.
Lemma includes_comma_cons (c : ascii) (s : string) :
  Js.includes "," (String c s) = Ascii.eqb "," c || Js.includes "," s.
Proof. simpl. now rewrite andb_true_r. Qed.

Lemma split_comma_cons (c : ascii) (s : string) :
  Js.split "," (String c s) =
    if Ascii.eqb "," c then EmptyString :: Js.split "," s
    else match Js.split "," s with
         | piece :: rest => String c piece :: rest
         | [] => [String c EmptyString]
         end.
Proof. unfold Js.split. simpl. now rewrite andb_true_r. Qed.

Lemma split_comma_pieces (s : string) :
  Forall (λ x, Js.includes "," x = false) (Js.split "," s).
Proof.
  induction s as [|c s IH]; [repeat constructor|].
  rewrite split_comma_cons.
  destruct (Ascii.eqb "," c) eqn:Ec.
  - constructor; [reflexivity | exact IH].
  - destruct (Js.split "," s) as [|piece rest]; [repeat constructor|].
    + rewrite includes_comma_cons, Ec. reflexivity.
    + inversion IH as [|? ? Hp Hr]; subst. constructor; [|exact Hr].
      now rewrite includes_comma_cons, Ec.
Qed.

Lemma split_comma_app (p rest : string) :
  Js.includes "," p = false →
  Js.split "," (p +:+ "," +:+ rest) = p :: Js.split "," rest.
Proof.
  induction p as [|c p IH].
  - intros _. change (EmptyString +:+ "," +:+ rest) with (String "," rest).
    now rewrite split_comma_cons.
  - rewrite includes_comma_cons. intros Hp. apply orb_false_iff in Hp as [Hc Hp].
    change (String c p +:+ "," +:+ rest) with (String c (p +:+ "," +:+ rest)).
    now rewrite split_comma_cons, Hc, (IH Hp).
Qed.

(** Trimming. *)
Lemma trimStart_suffix (s : string) : ∃ a, s = a +:+ Js.trimStart s.
Proof.
  induction s as [|c s [a Ha]]; [now exists EmptyString|].
  simpl. destruct (Js.isSpace c).
  - exists (String c a). simpl. now f_equal.
  - now exists EmptyString.
Qed.

Lemma trimEnd_prefix (s : string) : ∃ b, s = Js.trimEnd s +:+ b.
Proof.
  induction s as [|c s [b Hb]]; [now exists EmptyString|].
  simpl. destruct (Js.trimEnd s) as [|d t] eqn:E.
  - destruct (Js.isSpace c).
    + exists (String c s). reflexivity.
    + exists s. reflexivity.
  - exists b. simpl. f_equal. exact Hb.
Qed.

Lemma includes_app_l (p a b : string) :
  Js.includes p (a +:+ b) = false → Js.includes p b = false.
Proof.
  induction a as [|c a IH]; [trivial|].
  change (String c a +:+ b) with (String c (a +:+ b)).
  intros Hf. apply includes_cons in Hf as [_ Hf]. now apply IH.
Qed.

Lemma includes_comma_app_r (a b : string) :
  Js.includes "," (a +:+ b) = false → Js.includes "," a = false.
Proof.
  induction a as [|c a IH]; [reflexivity|].
  change (String c a +:+ b) with (String c (a +:+ b)).
  rewrite !includes_comma_cons. intros Hf.
  apply orb_false_iff in Hf as [-> Hf]. now apply IH.
Qed.

Lemma trim_keeps_comma_free (s : string) :
  Js.includes "," s = false → Js.includes "," (Js.trim s) = false.
Proof.
  intros Hs. unfold Js.trim.
  destruct (trimStart_suffix s) as [a Ha].
  destruct (trimEnd_prefix (Js.trimStart s)) as [b Hb].
  rewrite Ha in Hs. apply includes_app_l in Hs.
  rewrite Hb in Hs. now apply includes_comma_app_r in Hs.
Qed.

(** The head of a text trimmed at its start is no white space. *)
Lemma trimStart_head (s : string) :
  match Js.trimStart s with
  | EmptyString => True
  | String c _ => Js.isSpace c = false
  end.
Proof.
  induction s as [|c s IH]; [exact I|].
  simpl. destruct (Js.isSpace c) eqn:E; [exact IH | exact E].
Qed.

Lemma trimStart_solid (s : string) :
  match s with EmptyString => True | String c _ => Js.isSpace c = false end →
  Js.trimStart s = s.
Proof. destruct s as [|c s]; [reflexivity|]. simpl. now intros ->. Qed.

Lemma trimEnd_head (s : string) :
  match s with EmptyString => True | String c _ => Js.isSpace c = false end →
  match Js.trimEnd s with
  | EmptyString => True
  | String c _ => Js.isSpace c = false
  end.
Proof.
  destruct s as [|c s]; [trivial|]. simpl. intros Hc.
  destruct (Js.trimEnd s); [|exact Hc]. now rewrite Hc.
Qed.

Lemma trimEnd_idem (s : string) : Js.trimEnd (Js.trimEnd s) = Js.trimEnd s.
Proof.
  induction s as [|c s IH]; [reflexivity|].
  simpl. destruct (Js.trimEnd s) as [|d t] eqn:E.
  - destruct (Js.isSpace c) eqn:Ec; [reflexivity|]. simpl. now rewrite Ec.
  - simpl. simpl in IH. rewrite IH. reflexivity.
Qed.

Lemma trim_idem (s : string) : Js.trim (Js.trim s) = Js.trim s.
Proof.
  unfold Js.trim.
  rewrite (trimStart_solid (Js.trimEnd (Js.trimStart s))).
  - apply trimEnd_idem.
  - apply trimEnd_head, trimStart_head.
Qed.


Lemma trim_after_space (J : string) :
  Js.trim <$> Js.split "," (String " " J) = Js.trim <$> Js.split "," J.
Proof.
  rewrite split_comma_cons.
  change (Ascii.eqb "," " ") with false. cbv iota.
  destruct (Js.split "," J) as [|piece rest] eqn:E.
  - now apply splitFrom_nonempty in E.
  - reflexivity.
Qed.

Lemma tags_join_read (l : list string) :
  Forall (λ t, Js.truthy t = true ∧ Js.trim t = t ∧ Js.includes "," t = false) l →
  normalizeTags (TagsString (Js.join ", " l)) = l.
Proof.
  unfold normalizeTags.
  induction l as [|p l IH]; intros Hl; [reflexivity|].
  inversion Hl as [|? ? (Hp & Htrim & Hcomma) Hrest]; subst.
  destruct l as [|q l].
  - simpl Js.join. rewrite (split_absent _ _ Hcomma). simpl fmap.
    rewrite Htrim, filter_cons_True by now rewrite Hp. reflexivity.
  - rewrite join_cons by discriminate.
    change (p +:+ ", " +:+ Js.join ", " (q :: l))
      with (p +:+ "," +:+ String " " (Js.join ", " (q :: l))).
    rewrite split_comma_app by exact Hcomma.
    rewrite fmap_cons, trim_after_space, Htrim.
    rewrite filter_cons_True by now rewrite Hp.
    f_equal. now apply IH.
Qed.

Lemma tags_entries (s : string) :
  Forall (λ t, Js.truthy t = true ∧ Js.trim t = t ∧ Js.includes "," t = false)
    (normalizeTags (TagsString s)).
Proof.
  unfold normalizeTags. apply Forall_forall. intros t Ht.
  apply list_elem_of_filter in Ht as [Htruthy Ht].
  apply list_elem_of_fmap in Ht as (x & -> & Hx).
  split; [now apply Is_true_true|]. split; [apply trim_idem|].
  apply trim_keeps_comma_free.
  pose proof (split_comma_pieces s) as Hall.
  rewrite Forall_forall in Hall. now apply Hall.
Qed.

(** X19.  Whatever text the tags input holds, the entries handed to the YAML
    emitter are non-empty, trimmed and free of commas.  Every list of such
    entries, shown in the tags input as [populateEditor] shows it and read
    back, is the same list. *)
Theorem tags_input_roundtrip :
  (∀ s, Forall (λ t, Js.truthy t = true ∧ Js.trim t = t ∧ Js.includes "," t = false)
          (normalizeTags (TagsString s)))
  ∧ (∀ l, Forall (λ t, Js.truthy t = true ∧ Js.trim t = t
                       ∧ Js.includes "," t = false) l →
          normalizeTags (TagsString (tagsInputValue (TagsArray l))) = l).
Proof. split; [apply tags_entries | apply tags_join_read]. Qed.

End TagFacts.

(** ** Failures never leave a handler *)

Section CatchFacts.
Context `{Platform}.

Lemma settle_returns (n : nat) (k : option Suspended) (w : World) :
  ∃ w', settle n k w = (Returned tt, w').
Proof.
  revert k w. induction n as [|n IH]; intros [s|] w; simpl; unfold_action; eauto.
  destruct (resume_returns s w) as (k' & w1 & -> & _). apply IH.
Qed.

Lemma handleFileClick_start_returns (t : option Target) (w : World) :
  ∃ k w', handleFileClick_start t w = (Returned k, w').
Proof.
  unfold handleFileClick_start. destruct t as [t|]; [|unfold_action; eauto].
  destruct (saveDraft_returns w) as (w1 & Hw1 & _).
  unfold getFileContent. unfold_action. rewrite Hw1.
  destruct (dataset_path t) as [s|]; [destruct (Js.truthy s)|];
    try (rewrite githubApiRequest_run); eauto.
Qed.

Lemma handleFileClick_returns (t : option Target) (w : World) :
  ∃ w', handleFileClick t w = (Returned tt, w').
Proof.
  unfold handleFileClick. unfold_action.
  destruct (handleFileClick_start_returns t w) as (k & w1 & ->).
  apply settle_returns.
Qed.

Lemma handleSave_start_returns (w : World) :
  ∃ k w', handleSave_start w = (Returned k, w').
Proof.
  unfold handleSave_start, showSaveStatus. unfold_action.
  destruct (path (currentFile (state w))) as [p|]; [|eauto].
  destruct (Js.truthy p); [|eauto].
  unfold saveFailed, showSaveStatus, createFile, updateFile. unfold_action.
  destruct (vditorInstance w) as [value|]; [|eauto].
  destruct (isNew (currentFile (state w))).
  - rewrite githubApiRequest_run. eauto.
  - destruct (sha (currentFile (state w))) as [s|]; [destruct (Js.truthy s)|];
      try rewrite githubApiRequest_run; eauto.
Qed.

Lemma handleDeleteButtonClick_start_returns (w : World) :
  ∃ k w', handleDeleteButtonClick_start w = (Returned k, w').
Proof.
  unfold handleDeleteButtonClick_start, confirmAndDeleteFile_start,
    showSaveStatus, resetEditorState, confirm.
  unfold_action.
  destruct (path (currentFile (state w))) as [p|]; [|eauto].
  destruct (Js.truthy p); [|eauto].
  destruct (isNew (currentFile (state w))); [eauto|].
  destruct (confirm_answer _); simpl; [|eauto].
  destruct (sha (currentFile (state w))) as [s|]; [destruct (Js.truthy s)|];
    unfold deleteFile; try (rewrite githubApiRequest_run); eauto.
Qed.

Lemma renameFailed_returns (e : string) (v : World) :
  ∃ shown v', renameFailed e v = (Returned (RenameEnds shown), v').
Proof. unfold renameFailed, showSaveStatus. unfold_action. eauto. Qed.

Lemma resumeRename_returns (k : RenameSuspended) (w : World) :
  ∃ step w', resumeRename k w = (Returned step, w')
             ∧ renameAwaits step < renameAwaits (RenameAwaits k).
Proof.
  destruct k as [old new content res|old new res|res]; unfold resumeRename.
  - unfold tryCatch, renameFailed, showSaveStatus, createFile. unfold_action.
    destruct (githubApiResponse res w) as [[j|e] w1]; simpl.
    + rewrite githubApiRequest_run. eexists _, _. split; [reflexivity | simpl; lia].
    + eexists _, _. split; [reflexivity | simpl; lia].
  - unfold tryCatch, renameFailed, showSaveStatus, clearDraft,
      clearDraftFromStorage, getFiles.
    unfold_action.
    destruct (githubApiResponse res w) as [[j|e] w1]; simpl.
    + destruct j; simpl; try (eexists _, _; split; [reflexivity | simpl; lia]).
      destruct (Js.truthy old); simpl; rewrite githubApiRequest_run;
        eexists _, _; (split; [reflexivity | simpl; lia]).
    + eexists _, _. split; [reflexivity | simpl; lia].
  - destruct (refreshFileList_resume_returns res w) as [w1 Hw1].
    unfold_action. rewrite Hw1. eexists _, _. split; [reflexivity | simpl; lia].
Qed.

Lemma settleRename_enough (n m : nat) (step : RenameStep) (w : World) :
  renameAwaits step ≤ n → n ≤ m → settleRename n step w = settleRename m step w.
Proof.
  revert m step w. induction n as [|n IH]; intros m step w Hk Hm.
  - destruct step as [shown|k]; [now destruct m|].
    destruct k; simpl in Hk; lia.
  - destruct step as [shown|k]; [now destruct m|].
    destruct m as [|m]; [lia|]. simpl. unfold_action.
    destruct (resumeRename_returns k w) as (step' & w' & Hrun & Hless).
    rewrite Hrun. apply IH; lia.
Qed.

Lemma settleRename_returns (n : nat) (step : RenameStep) (w : World) :
  ∃ shown w', settleRename n step w = (Returned shown, w').
Proof.
  revert step w. induction n as [|n IH]; intros [shown|k] w; simpl;
    unfold_action; eauto.
  destruct (resumeRename_returns k w) as (step' & w1 & -> & _). apply IH.
Qed.

Lemma handleRenameConfirm_start_returns (input : string) (w : World) :
  ∃ step w', handleRenameConfirm_start input w = (Returned step, w')
             ∧ renameAwaits step ≤ 3.
Proof.
  unfold handleRenameConfirm_start.
  destruct (negb _); [unfold_action; eexists _, _; split; [reflexivity|simpl; lia]|].
  unfold_action.
  destruct (path (currentFile (state w))) as [p|];
    [|eexists _, _; split; [reflexivity|simpl; lia]].
  destruct (Js.truthy p); [|eexists _, _; split; [reflexivity|simpl; lia]].
  destruct (String.eqb _ _); [eexists _, _; split; [reflexivity|simpl; lia]|].
  unfold renameFailed, showSaveStatus, deleteFile. unfold_action.
  destruct (sha (currentFile (state w))) as [s|]; [destruct (Js.truthy s)|];
    try (eexists _, _; split; [reflexivity|simpl; lia]).
  destruct (vditorInstance w); simpl; try rewrite githubApiRequest_run;
    eexists _, _; (split; [reflexivity|simpl; lia]).
Qed.

(** X20.  No handler ends in an exception, whatever the state, the server's
    answers and the user's input: opening, saving, deleting, creating and
    renaming all return.  The rename passes its three [await]s within the
    steps it is given: more steps change nothing. *)
Theorem handlers_catch_every_failure (w : World) :
  (∀ t, ∃ w', handleFileClick t w = (Returned tt, w'))
  ∧ (∃ w', handleSave w = (Returned tt, w'))
  ∧ (∃ w', handleDeleteButtonClick w = (Returned tt, w'))
  ∧ (∀ name, ∃ shown w', handleCreateNewFile name w = (Returned shown, w'))
  ∧ (∀ name, ∃ shown w',
       handleRenameConfirm name w = (Returned shown, w')
       ∧ ∀ n, 3 ≤ n →
           (step ← handleRenameConfirm_start name; settleRename n step) w
           = (Returned shown, w')).
Proof.
  split; [|split; [|split; [|split]]].
  - intros t. apply handleFileClick_returns.
  - unfold handleSave. unfold_action.
    destruct (handleSave_start_returns w) as (k & w1 & ->).
    apply settle_returns.
  - unfold handleDeleteButtonClick. unfold_action.
    destruct (handleDeleteButtonClick_start_returns w) as (k & w1 & ->).
    apply settle_returns.
  - intros name.
    destruct (Js.truthy (Js.trim name)) eqn:Hname.
    + destruct (handleCreateNewFile_run w name Hname) as (w' & Hrun & _). eauto.
    + unfold handleCreateNewFile. rewrite Hname. unfold_action. eauto.
  - intros name. unfold handleRenameConfirm. unfold_action.
    destruct (handleRenameConfirm_start_returns name w) as (step & w1 & -> & Hle).
    destruct (settleRename_returns 3 step w1) as (shown & w' & Hrun).
    exists shown, w'. split; [exact Hrun|].
    intros n Hn. now rewrite <- (settleRename_enough 3 n step w1 Hle Hn).
Qed.

End CatchFacts.

(** ** Logout *)

Section LogoutFacts.
Context `{Platform}.

(** X21.  Logging out removes the stored login and empties the session and
    the login inputs, and resets the editor; every stored draft stays in
    the storage, the widget keeps its text, the timer stays armed and no
    request is sent. *)
Theorem logout_keeps_drafts (w : World) :
  ∃ w', logout w = (Returned tt, w')
        ∧ state w'
          = {| user := EmptyString; repo := EmptyString; pat := EmptyString;
               currentFile := {| path := None; sha := None; isNew := false |} |}
        ∧ localStorage w' !! "github_editor_data" = None
        ∧ (∀ st p key, getDraftKey st (Some p) = Some key →
                       localStorage w' !! key = localStorage w !! key)
        ∧ loginInputs (ui w') = (EmptyString, EmptyString, EmptyString)
        ∧ mainView_hidden (ui w') = true
        ∧ vditorInstance w' = vditorInstance w
        ∧ draftInterval w' = draftInterval w
        ∧ requests w' = requests w.
Proof.
  unfold logout, resetEditorState. unfold_action.
  eexists. split; [reflexivity|]. simpl.
  split; [reflexivity|]. split; [apply lookup_delete_eq|].
  split; [|repeat split].
  intros st p key Hkey. apply getDraftKey_Some in Hkey as [_ ->].
  apply lookup_delete_ne. discriminate.
Qed.

End LogoutFacts.

(** ** The name of a created file *)

Section NameFacts.
Context `{Platform}.

Lemma filename_no_slash (s : string) :
  (∀ c, In c (list_ascii_of_string s) → Js.isFilenameUnit c = true) →
  Js.includes "/" s = false.
Proof.
  induction s as [|c s IH]; intros Hs; [reflexivity|].
  change (Js.includes "/" (String c s))
    with (Ascii.eqb "/" c && true || Js.includes "/" s).
  rewrite andb_true_r, IH by (intros x Hx; apply Hs; now right).
  rewrite orb_false_r.
  apply Ascii.eqb_neq. intros <-.
  specialize (Hs "/"%char (or_introl eq_refl)). discriminate Hs.
Qed.

Lemma basename_posts (f : string) :
  Js.includes "/" f = false → Js.basename (postsDir +:+ f) = f.
Proof.
  intros Hf. unfold Js.basename, postsDir, Js.split. simpl.
  change (Js.splitFrom "/" 0 f) with (Js.split "/" f).
  now rewrite (split_absent _ _ Hf).
Qed.

#[local] Arguments normalizeFilename : simpl never.
#[local] Arguments Js.trim : simpl never.
#[local] Arguments Js.basename : simpl never.
#[local] Arguments String.eqb : simpl never.

End NameFacts.

(** ** Opening the post named in the URL *)

Section SlugFacts.
Context `{Platform}.

#[local] Arguments String.eqb : simpl never.
#[local] Arguments slugOf : simpl never.

Lemma startsWith_md_app (x : string) :
  Js.startsWith ".md" x = false → x ≠ EmptyString →
  Js.startsWith ".md" (x +:+ ".md") = false.
Proof.
  destruct x as [|a [|b [|c x]]]; simpl; congruence.
Qed.

Lemma removeFirst_md (slug : string) :
  Js.includes ".md" slug = false → Js.removeFirst ".md" (slug +:+ ".md") = slug.
Proof.
  induction slug as [|c s IH]; intros Hs; [reflexivity|].
  apply includes_cons in Hs as [Hc Hs].
  change (String c s +:+ ".md") with (String c (s +:+ ".md")).
  assert (Hno : Js.startsWith ".md" (String c (s +:+ ".md")) = false)
    by (apply (startsWith_md_app (String c s)); [exact Hc | discriminate]).
  unfold Js.removeFirst; fold Js.removeFirst. rewrite Hno. f_equal. now apply IH.
Qed.
Lemma find_none (slug : string) (l : list FileRef) :
  Forall (λ file, slugOf file ≠ slug) l →
  List.find (λ file, String.eqb (slugOf file) slug) l = None.
Proof.
  induction 1 as [|f l Hf _ IH]; [reflexivity|].
  simpl. apply String.eqb_neq in Hf. now rewrite Hf.
Qed.

Lemma find_first (slug : string) (skipped : list FileRef) (file : FileRef)
    (rest : list FileRef) :
  Forall (λ other, slugOf other ≠ slug) skipped →
  slugOf file = slug →
  List.find (λ f, String.eqb (slugOf f) slug)
    (skipped ++ file :: rest) = Some file.
Proof.
  intros Hskip Hfile. induction Hskip as [|f l Hf _ IH]; simpl.
  - apply String.eqb_eq in Hfile. now rewrite Hfile.
  - apply String.eqb_neq in Hf. now rewrite Hf.
Qed.

End SlugFacts.

(** ** Worked cases for the further properties *)

Import Cases.

Ltac by_evaluation := vm_compute; first [reflexivity | discriminate].

Lemma draft_save_then_load_witness :
  ∃ w', @saveDraftToStorage P0 session pathA helloMeta "text" start = (Returned tt, w')
        ∧ fst (@loadDraftFromStorage P0 session pathA w')
          = Returned (Some {| draft_metadata := helloMeta; draft_body := "text";
                              savedAt := "2026-11-02T09:30:00.000Z" |}).
Proof.
  destruct (@draft_save_then_load P0 session pathA keyA helloMeta "text" start)
    as (w' & Hrun & Hload & _); [by_evaluation .. |].
  exists w'. split; [exact Hrun|]. now rewrite Hload.
Defined.

Lemma corrupted_draft_is_removed_witness :
  localStorage garbledStart !! keyA = Some garbled
  ∧ ∃ w', @loadDraftFromStorage P0 session pathA garbledStart
          = (Thrown "加载草稿失败，草稿数据可能已损坏。", w')
          ∧ @loadDraftFromStorage P0 session pathA w' = (Returned None, w').
Proof.
  assert (Hbad : localStorage garbledStart !! keyA = Some garbled) by by_evaluation.
  split; [exact Hbad|].
  destruct (@corrupted_draft_is_removed P0 session pathA keyA "{oops" garbledStart)
    as (w' & Hrun & _ & Hnext); [by_evaluation .. |].
  exists w'. split; [exact Hrun | exact Hnext].
Defined.

Lemma open_with_corrupted_draft_witness :
  localStorage garbledOpeningA !! keyA = Some garbled
  ∧ ∃ w', handleFileClick_resume (Responded responseA) garbledOpeningA
          = (Returned tt, w')
          ∧ confirms w' = []
          ∧ localStorage w' !! keyA = None
          ∧ vditorInstance w' = Some "Body text"
          ∧ isDirty w' = false.
Proof.
  assert (Hbad : localStorage garbledOpeningA !! keyA = Some garbled)
    by by_evaluation.
  split; [exact Hbad|].
  destruct (@open_with_corrupted_draft P0 garbledOpeningA responseA contentA
              (Sample.tokenOf contentA) pathA keyA EmptyString "{oops" shownA)
    as (w' & Hrun & Hc & Hls & _ & _ & Hv & Hd); [by_evaluation .. |].
  exists w'. split; [exact Hrun|]. split; [exact Hc|].
  split; [rewrite Hls; apply lookup_delete_eq|].
  split; [rewrite Hv; vm_compute; reflexivity | exact Hd].
Defined.

Lemma open_failure_resets_witness :
  path (currentFile (state openingA)) = Some pathA
  ∧ ∃ w', handleFileClick_resume (NetworkError "Failed to fetch") openingA
          = (Returned tt, w')
          ∧ path (currentFile (state w')) = None
          ∧ textContent (saveStatus (ui w')) = "加载文件失败: Failed to fetch".
Proof.
  split; [by_evaluation|].
  destruct (@open_failure_resets P0 openingA (NetworkError "Failed to fetch")
              "Failed to fetch" eq_refl)
    as (w' & Hrun & Hfile & _ & Hstatus & _).
  exists w'. split; [exact Hrun|]. split; [now rewrite Hfile | now rewrite Hstatus].
Defined.

Lemma switch_flushes_previous_file_witness :
  isDirty editedA = true
  ∧ ∃ res w', handleFileClick_start (click pathB) editedA
              = (Returned (Some (AwaitGetFileContent res)), w')
              ∧ (∃ d, localStorage w' !! keyA = Some (StoredDraft d)
                      ∧ draft_body d = "edited A")
              ∧ isDirty w' = false
              ∧ path (currentFile (state w')) = Some pathB.
Proof.
  assert (Hdirty : isDirty editedA = true) by by_evaluation.
  split; [exact Hdirty|].
  destruct (@switch_flushes_previous_file P0 editedA
              {| dataset_path := Some pathB; dataset_sha := None |}
              pathA keyA "edited A" pathB)
    as (res & w' & Hrun & Hls & Hd & Hfile & _); [by_evaluation .. |].
  exists res, w'. split; [exact Hrun|].
  split; [eexists; split; [rewrite Hls; apply lookup_insert_eq | reflexivity]|].
  split; [exact Hd | now rewrite Hfile].
Defined.

Lemma save_accepted_witness :
  sha (currentFile (state editedA)) = Some (Sample.tokenOf contentA)
  ∧ ∃ w', handleSave editedA = (Returned tt, w')
          ∧ sha (currentFile (state w')) = Some (Sample.tokenOf savedA)
          ∧ isDirty w' = false
          ∧ length (requests w') = S (length (requests editedA)).
Proof.
  split; [by_evaluation|].
  destruct (@save_accepted P0 editedA pathA keyA (Sample.tokenOf contentA)
              "edited A" (Sample.tokenOf savedA) (committed savedA))
    as (w' & Hrun & Hreq & _ & Hfile & _ & Hd & _); [by_evaluation .. |].
  exists w'. split; [exact Hrun|]. split; [now rewrite Hfile|].
  split; [exact Hd|]. rewrite Hreq, length_app. cbn [length]. lia.
Defined.

Lemma save_rejected_witness :
  resume (AwaitUpdateFile Sample.conflict) editedA
  = (Returned None,
     withUi (setSaveStatus
       {| textContent := "保存失败: does not match";
          className := "mt-2 text-right text-red-500" |}) editedA).
Proof.
  apply (@save_rejected P0 editedA Sample.conflict "does not match").
  - now left.
  - by_evaluation.
Defined.

Lemma save_new_file_creates_witness :
  isNew (currentFile (state createdNew)) = true
  ∧ ∃ w', handleSave createdNew = (Returned tt, w')
          ∧ currentFile (state w')
            = {| path := Some pathNew; sha := Some (Sample.tokenOf savedNew);
                 isNew := false |}
          ∧ isDirty w' = false.
Proof.
  split; [by_evaluation|].
  destruct (@save_new_file_creates P0 createdNew pathNew keyNew EmptyString
              (Sample.tokenOf savedNew) (committed savedNew))
    as (w' & Hrun & _ & Hfile & _ & Hd & _); [by_evaluation .. |].
  exists w'. split; [exact Hrun|]. split; [exact Hfile | exact Hd].
Defined.

Lemma create_new_file_witness :
  handleCreateNewFile "  " start = (Returned (DialogError "文件名不能为空。"), start)
  ∧ ∃ w', handleCreateNewFile "New Post" start = (Returned DialogClosed, w')
          ∧ path (currentFile (state w')) = Some pathNew
          ∧ isDirty w' = true
          ∧ requests w' = [].
Proof.
  destruct (@create_new_file P0 start "  ") as [Hblank _].
  destruct (@create_new_file P0 start "New Post") as [_ Hnamed].
  split; [apply Hblank; by_evaluation|].
  destruct Hnamed as (w' & Hrun & Hfile & _ & _ & Hd & _ & Hreq & _);
    [by_evaluation|].
  exists w'. split; [exact Hrun|].
  split; [rewrite Hfile; vm_compute; reflexivity|].
  split; [exact Hd | exact Hreq].
Defined.

Lemma delete_without_request_witness :
  (∃ w', handleDeleteButtonClick createdNew = (Returned tt, w')
         ∧ path (currentFile (state w')) = None
         ∧ requests w' = requests createdNew)
  ∧ handleDeleteButtonClick openedA
    = (Returned tt, withConfirm (deletePrompt pathA) openedA).
Proof.
  split.
  - destruct (@delete_without_request P0 createdNew pathNew) as [Hnew _];
      [by_evaluation .. |].
    destruct Hnew as (w' & Hrun & Hfile & _ & _ & Hreq & _); [by_evaluation|].
    exists w'. split; [exact Hrun|]. split; [now rewrite Hfile | exact Hreq].
  - destruct (@delete_without_request P0 openedA pathA) as (_ & Hno & _);
      [by_evaluation .. |].
    apply Hno; by_evaluation.
Defined.

Lemma delete_accepted_witness :
  localStorage openedA_accepting !! keyA = None
  ∧ ∃ w', handleDeleteButtonClick openedA_accepting = (Returned tt, w')
          ∧ path (currentFile (state w')) = None
          ∧ length (requests w') = 2 + length (requests openedA_accepting)
          ∧ editorSection_hidden (ui w') = true.
Proof.
  split; [by_evaluation|].
  destruct (@delete_accepted PYes openedA_accepting pathA keyA
              (Sample.tokenOf contentA) JsonSuccess)
    as (w' & Hrun & _ & Hreq & Hfile & Hhid & _); [by_evaluation .. |].
  exists w'. split; [exact Hrun|]. split; [now rewrite Hfile|].
  split; [|exact Hhid]. rewrite Hreq, length_app. cbn [length]. lia.
Defined.

Lemma rename_without_request_witness :
  handleRenameConfirm "  " openedA
  = (Returned (DialogError "新文件名不能为空。"), openedA)
  ∧ handleRenameConfirm " A.md" openedA
    = (Returned (DialogError "文件名未更改。"), openedA).
Proof.
  destruct (@rename_without_request P0 openedA "  " pathA) as (Hblank & _);
    [by_evaluation .. |].
  destruct (@rename_without_request P0 openedA " A.md" pathA) as (_ & Hsame & _);
    [by_evaluation .. |].
  split; [apply Hblank | apply Hsame]; by_evaluation.
Defined.

Lemma rename_accepted_witness :
  path (currentFile (state openedA)) = Some pathA
  ∧ ∃ w', handleRenameConfirm "C" openedA = (Returned DialogClosed, w')
          ∧ currentFile (state w')
            = {| path := Some "src/content/posts/c.md";
                 sha := Some (Sample.tokenOf movedA); isNew := false |}
          ∧ length (requests w') = 3 + length (requests openedA).
Proof.
  split; [by_evaluation|].
  destruct (@rename_accepted P0 openedA "C" pathA keyA (Sample.tokenOf contentA)
              "Body text" (Sample.tokenOf movedA) JsonSuccess)
    as (w' & Hrun & Hreq & Hfile & _); [by_evaluation .. |].
  exists w'. split; [exact Hrun|].
  split; [rewrite Hfile; vm_compute; reflexivity|].
  rewrite Hreq, length_app. cbn [length]. lia.
Defined.

Lemma rename_delete_rejected_witness :
  sha (currentFile (state staleA)) = Some "stale"
  ∧ ∃ w', handleRenameConfirm "C" staleA
          = (Returned (DialogError "重命名失败: does not match"), w')
          ∧ state w' = state staleA
          ∧ length (requests w') = 1 + length (requests staleA).
Proof.
  split; [by_evaluation|].
  destruct (@rename_delete_rejected P0 staleA "C" pathA "stale" "Body text"
              "does not match")
    as (w' & Hrun & Hreq & _ & Hstate & _); [by_evaluation .. |].
  exists w'. split; [exact Hrun|]. split; [exact Hstate|].
  rewrite Hreq, length_app. cbn [length]. lia.
Defined.

Lemma rename_create_rejected_witness :
  is_Some (remote openedA !! urlOf pathB)
  ∧ ∃ w', handleRenameConfirm "B" openedA
          = (Returned (DialogError "重命名失败: does not match"), w')
          ∧ path (currentFile (state w')) = Some pathA
          ∧ sha (currentFile (state w')) = Some (Sample.tokenOf contentA)
          ∧ remote w' !! urlOf pathA = None.
Proof.
  split; [vm_compute; eauto|].
  destruct (@rename_create_rejected P0 openedA "B" pathA (Sample.tokenOf contentA)
              "Body text" "does not match" JsonSuccess)
    as (w' & Hrun & _ & Hremote & Hstate & _); [by_evaluation .. |].
  exists w'. split; [exact Hrun|].
  rewrite Hstate, Hremote. vm_compute. repeat split.
Defined.

Lemma parse_plain_text_witness :
  @parseContent P0 " no front matter "
  = {| metadata := emptyMetadata; body := " no front matter " |}.
Proof. apply (@parse_plain_text P0). reflexivity. Defined.

Lemma tags_input_roundtrip_witness :
  normalizeTags (TagsString (tagsInputValue (TagsArray ["a"; "b c"]))) = ["a"; "b c"].
Proof.
  apply (proj2 tags_input_roundtrip).
  repeat constructor.
Defined.

Lemma handlers_catch_every_failure_witness :
  ∃ shown w', handleRenameConfirm "C" openedA = (Returned shown, w')
              ∧ (step ← handleRenameConfirm_start "C"; settleRename 4 step) openedA
                = (Returned shown, w').
Proof.
  destruct (@handlers_catch_every_failure P0 openedA) as (_ & _ & _ & _ & Hrename).
  destruct (Hrename "C") as (shown & w' & Hrun & Hmore).
  exists shown, w'. split; [exact Hrun|]. apply Hmore. lia.
Defined.

Lemma logout_keeps_drafts_witness :
  ∃ w', logout draftedB = (Returned tt, w')
        ∧ user (state w') = EmptyString
        ∧ localStorage w' !! keyB = Some (StoredDraft draftB).
Proof.
  destruct (@logout_keeps_drafts P0 draftedB)
    as (w' & Hrun & Hstate & _ & Hkeep & _).
  exists w'. split; [exact Hrun|]. split; [now rewrite Hstate|].
  rewrite (Hkeep session pathB keyB); by_evaluation.
Defined.



Lemma draft_clear_then_load_witness :
  is_Some (localStorage draftedB !! keyB)
  ∧ ∃ w', @clearDraftFromStorage P0 session pathB draftedB = (Returned tt, w')
          ∧ @loadDraftFromStorage P0 session pathB w' = (Returned None, w')
          ∧ localStorage w' !! keyA = localStorage draftedB !! keyA.
Proof.
  split; [vm_compute; eauto|].
  destruct (@draft_clear_then_load P0 session pathB draftedB)
    as (w' & Hrun & Hload & _ & Hother).
  exists w'. split; [exact Hrun|]. split; [exact Hload|].
  apply Hother. by_evaluation.
Defined.

Lemma normalizeFilename_normal_form_witness :
  normalizeFilename "  My  Post.MD " = "my-post.md"
  ∧ Js.endsWith ".md" (normalizeFilename "  My  Post.MD ") = true
  ∧ Js.isFilenameUnit "m" = true
  ∧ normalizeFilename (normalizeFilename "  My  Post.MD ")
    = normalizeFilename "  My  Post.MD ".
Proof.
  destruct (normalizeFilename_normal_form "  My  Post.MD ")
    as (Hend & Hunits & Hidem).
  split; [reflexivity|]. split; [exact Hend|]. split; [|exact Hidem].
  apply Hunits. vm_compute. tauto.
Defined.
